(** * pandas ujson encoder: a shallow embedding of objToJSON.c

    The development follows pandas/_libs/src/ujson/python/objToJSON.c.
    C integers are modelled as [Z], C strings as [string] (option names,
    messages) or [list byte] (label buffers with an explicit NUL), structs as
    records and enums as inductive types.  The low-level JSON writer
    (ultrajsonenc.c) and CPython/numpy are external to that file: what they
    return is taken as an argument of the functions that call them. *)

From stdpp Require Import base numbers list strings sets.
From Stdlib Require Import ZArith Lia.
From Stdlib.Strings Require Import Byte.

Open Scope Z_scope.

(** ** Shared data model *)

(** [enum PANDAS_FORMAT { SPLIT, RECORDS, INDEX, COLUMNS, VALUES }] *)
Inductive PANDAS_FORMAT := SPLIT | RECORDS | INDEX | COLUMNS | VALUES.

#[global] Instance PANDAS_FORMAT_eq_dec : EqDecision PANDAS_FORMAT.
Proof. solve_decision. Defined.

(** The four members of [NPY_DATETIMEUNIT] the encoder can be configured
    with. *)
Inductive NPY_DATETIMEUNIT := NPY_FR_s | NPY_FR_ms | NPY_FR_us | NPY_FR_ns.

#[global] Instance NPY_DATETIMEUNIT_eq_dec : EqDecision NPY_DATETIMEUNIT.
Proof. solve_decision. Defined.

(** JSON shape tags published by the dispatcher ([JSTYPES] of ultrajson.h). *)
Inductive JSTYPES :=
| JT_NULL | JT_TRUE | JT_FALSE | JT_INT | JT_LONG | JT_DOUBLE
| JT_UTF8 | JT_ARRAY | JT_OBJECT | JT_INVALID.

#[global] Instance JSTYPES_eq_dec : EqDecision JSTYPES.
Proof. solve_decision. Defined.

(** The ambient CPython error indicator: an exception class and the message
    (for [PyErr_Format], the format string before substitution). *)
Inductive PyExcClass :=
| PyExc_ValueError | PyExc_TypeError | PyExc_OverflowError
| PyExc_RuntimeError | PyExc_MemoryError | PyExc_Other.

Record PyErr := mkPyErr { exc_class : PyExcClass; exc_msg : string }.

(** [npy_int64 get_nat(void) { return NPY_MIN_INT64; }] *)
Definition NPY_MIN_INT64 : Z := - 2 ^ 63.
Definition NPY_MAX_INT64 : Z := 2 ^ 63 - 1.
Definition get_nat : Z := NPY_MIN_INT64.

(** The OverflowError [PyLong_AsLongLong] sets for an integer outside
    [npy_int64] (its message is CPython's and is not modelled). *)
Definition overflow_error : PyErr := mkPyErr PyExc_OverflowError EmptyString.

Definition fits_int64 (v : Z) : bool :=
  (NPY_MIN_INT64 <=? v) && (v <=? NPY_MAX_INT64).

(** The configuration fields of [PyObjectEncoder] (with the
    [JSONObjectEncoder] header it embeds) and the staged type number
    [npyType].  The pointers [npyValue] and [npyCtxtPassthru] and the
    embedded [basicTypeContext], which the strider and the dispatcher also
    write, are not fields of this record: the staged element is passed to the
    dispatcher as an argument, and the pass-through strider is the state of
    [walk]. *)
Record PyObjectEncoder := mkEncoder {
  forceASCII : bool;
  encodeHTMLChars : bool;
  doublePrecision : Z;
  npyType : Z;
  datetimeIso : bool;
  datetimeUnit : NPY_DATETIMEUNIT;
  outputFormat : PANDAS_FORMAT;
  originalOutputFormat : PANDAS_FORMAT;
  defaultHandler : bool
}.

Definition set_outputFormat (f : PANDAS_FORMAT) (e : PyObjectEncoder) :=
  mkEncoder (forceASCII e) (encodeHTMLChars e) (doublePrecision e) (npyType e)
            (datetimeIso e) (datetimeUnit e) f (originalOutputFormat e)
            (defaultHandler e).

Definition set_originalOutputFormat (f : PANDAS_FORMAT) (e : PyObjectEncoder) :=
  mkEncoder (forceASCII e) (encodeHTMLChars e) (doublePrecision e) (npyType e)
            (datetimeIso e) (datetimeUnit e) (outputFormat e) f
            (defaultHandler e).

Definition set_npyType (t : Z) (e : PyObjectEncoder) :=
  mkEncoder (forceASCII e) (encodeHTMLChars e) (doublePrecision e) t
            (datetimeIso e) (datetimeUnit e) (outputFormat e)
            (originalOutputFormat e) (defaultHandler e).

(** ** Top-level entry: [objToJSON] *)

(** The [default_handler] argument as the entry point tests it. *)
Inductive DefHandlerArg := HandlerNone | HandlerCallable | HandlerNotCallable.

(** The arguments after [PyArg_ParseTupleAndKeywords] succeeded.  An optional
    argument that was not passed keeps its C initialiser ([NULL], or 10 for
    [idoublePrecision]); object arguments are given by their truth value. *)
Record Args (Obj : Type) := mkArgs {
  oinput : Obj;
  oensureAscii : option bool;
  idoublePrecision : Z;
  oencodeHTMLChars : option bool;
  sOrient : option string;
  sdateFormat : option string;
  oisoDates : option bool;
  odefHandler : option DefHandlerArg
}.
Arguments mkArgs {Obj}.
Arguments oinput {Obj}.
Arguments oensureAscii {Obj}.
Arguments idoublePrecision {Obj}.
Arguments oencodeHTMLChars {Obj}.
Arguments sOrient {Obj}.
Arguments sdateFormat {Obj}.
Arguments oisoDates {Obj}.
Arguments odefHandler {Obj}.

(** Default double precision: [int idoublePrecision = 10;] *)
Definition default_double_precision : Z := 10.

(** What [JSON_EncodeObject] hands back: the returned pointer ([NULL], the
    caller's stack [buffer], or a block the writer allocated), the text at
    that pointer, the CPython error indicator and the writer's [errorMsg]. *)
Inductive BufPtr := NullPtr | StackBuffer | HeapBuffer.

#[global] Instance BufPtr_eq_dec : EqDecision BufPtr.
Proof. solve_decision. Defined.

Record EncodeResult := mkEncodeResult {
  ret : BufPtr;
  ret_text : list byte;
  PyErr_Occurred : option PyErr;
  errorMsg : option string
}.

(** Calls into the writer and into the allocator, in program order. *)
Inductive Event :=
| EvEncode (enc : PyObjectEncoder)
| EvFree (p : BufPtr).

(** The value of the call: [NULL] with an exception set, or a text object. *)
Inductive PyReturn :=
| RetNULL (e : PyErr)
| RetUnicode (s : list byte).

Definition orient_of_string (s : string) : option PANDAS_FORMAT :=
  if String.eqb s "records" then Some RECORDS
  else if String.eqb s "index" then Some INDEX
  else if String.eqb s "split" then Some SPLIT
  else if String.eqb s "values" then Some VALUES
  else if negb (String.eqb s "columns") then None
  else Some COLUMNS.

Definition date_unit_of_string (s : string) : option NPY_DATETIMEUNIT :=
  if String.eqb s "s" then Some NPY_FR_s
  else if String.eqb s "ms" then Some NPY_FR_ms
  else if String.eqb s "us" then Some NPY_FR_us
  else if String.eqb s "ns" then Some NPY_FR_ns
  else None.

(** The encoder as [objToJSON] initialises it before looking at the options.
    [originalOutputFormat] has no initialiser; it is assigned just before the
    writer is called, so [COLUMNS] here is never observed. *)
Definition initial_encoder : PyObjectEncoder :=
  mkEncoder true false default_double_precision (-1) false NPY_FR_ms
            COLUMNS COLUMNS false.

(** Lines 2118-2180: option handling.  The result is the exception raised or
    the configured encoder; an option that was not passed leaves the field
    of [initial_encoder] in place. *)
Definition configure_encoder {Obj} (JSON_DOUBLE_MAX_DECIMALS : Z)
    (a : Args Obj) : PyErr + PyObjectEncoder :=
  let force := match oensureAscii a with
               | Some false => false
               | _ => true
               end in
  let html := match oencodeHTMLChars a with
              | Some true => true
              | _ => false
              end in
  if (JSON_DOUBLE_MAX_DECIMALS <? idoublePrecision a) || (idoublePrecision a <? 0)
  then inl (mkPyErr PyExc_ValueError
              "Invalid value '%d' for option 'double_precision', max is '%u'")
  else
    match (match sOrient a with
           | None => Some (outputFormat initial_encoder)
           | Some s => orient_of_string s
           end) with
    | None => inl (mkPyErr PyExc_ValueError
                     "Invalid value '%s' for option 'orient'")
    | Some fmt =>
      match (match sdateFormat a with
             | None => Some (datetimeUnit initial_encoder)
             | Some s => date_unit_of_string s
             end) with
      | None => inl (mkPyErr PyExc_ValueError
                       "Invalid value '%s' for option 'date_unit'")
      | Some unit =>
        let iso := match oisoDates a with
                   | Some true => true
                   | _ => false
                   end in
        match odefHandler a with
        | Some HandlerNotCallable =>
            inl (mkPyErr PyExc_TypeError "Default handler is not callable")
        | h =>
            let handler := match h with
                           | Some HandlerCallable => true
                           | _ => false
                           end in
            inr (mkEncoder force html (idoublePrecision a)
                           (npyType initial_encoder) iso unit fmt fmt handler)
        end
      end
    end.

(** Lines 2185-2208: what [objToJSON] does with the writer's result.  On
    the last path [PyUnicode_FromString(ret)] is taken to return the text;
    [objToJSON_return], further down, adds what that call does with a NULL
    pointer and with bytes that do not decode. *)
Definition finish_encode (r : EncodeResult) : PyReturn * list Event :=
  match PyErr_Occurred r with
  | Some e => (RetNULL e, [])
  | None =>
    match errorMsg r with
    | Some msg =>
        (RetNULL (mkPyErr PyExc_OverflowError msg),
         if decide (ret r = StackBuffer) then [] else [EvFree (ret r)])
    | None =>
        (RetUnicode (ret_text r),
         if decide (ret r = StackBuffer) then [] else [EvFree (ret r)])
    end
  end.

Definition objToJSON {Obj} (JSON_DOUBLE_MAX_DECIMALS : Z)
    (JSON_EncodeObject : Obj -> PyObjectEncoder -> EncodeResult)
    (a : Args Obj) : PyReturn * list Event :=
  match configure_encoder JSON_DOUBLE_MAX_DECIMALS a with
  | inl e => (RetNULL e, [])
  | inr enc =>
      let r := JSON_EncodeObject (oinput a) enc in
      let '(v, evs) := finish_encode r in
      (v, EvEncode enc :: evs)
  end.

(** The call failed: it returned [NULL]. *)
Definition call_failed (v : PyReturn) : bool :=
  match v with RetNULL _ => true | RetUnicode _ => false end.

(** The text the call produced, if any. *)
Definition output_text (v : PyReturn) : option (list byte) :=
  match v with RetNULL _ => None | RetUnicode s => Some s end.

(** An invalid option is one of the three the entry point validates. *)
Definition invalid_option {Obj} (MAXD : Z) (a : Args Obj) : Prop :=
  (exists s, sOrient a = Some s /\
             s ∉ ["records"; "index"; "split"; "values"; "columns"]%string) \/
  (exists s, sdateFormat a = Some s /\ s ∉ ["s"; "ms"; "us"; "ns"]%string) \/
  ~ (0 <= idoublePrecision a <= MAXD).

(** Concrete inputs used to exercise the entry point. *)
Definition sample_writer (r : EncodeResult) : unit -> PyObjectEncoder -> EncodeResult :=
  fun _ _ => r.

Definition sample_args (orient date_unit : option string) (precision : Z)
    : Args unit :=
  mkArgs tt None precision None orient date_unit None None.


(** ** Containers, iterator drivers and the orientation state *)

(** The containers the dispatcher tells apart, as far as their drivers touch
    the orientation.  A scalar stands for any value encoded without
    iteration.  An attribute or method of a pandas object is the child object
    it evaluates to; [items] and [iterrows] are [None] when the method call
    fails, and otherwise list the second components of the pairs the
    iterable yields.  [values] is what [get_values] returns (its failure is
    not modelled here), an array given by its elements. *)
#[warnings="-register-all"]
Inductive PyObject :=
| PyScalar
| PyList (elts : list PyObject)
| NdArray (elts : list PyObject)
| PdIndex (name : PyObject) (values : list PyObject)
| PdSeries (name index : PyObject) (values : list PyObject)
| PdDataFrame (columns index : PyObject) (values : list PyObject)
              (items iterrows : option (list PyObject)).

(** The iterator vtables [Object_beginTypeContext] can install. *)
Inductive Driver :=
| List_iter | NpyArr_iter | Index_iter | Series_iter | DataFrame_iter.

(** The fields of [TypeContext] these drivers use: [index], whether [cStr]
    was allocated, the [frame] context with what is left of its iterable
    ([None] is the NULL pointer), and the sequence a list or array driver
    walks. *)
Record TypeContext := mkTC {
  tc_index : Z;
  tc_cStr : bool;
  tc_frame : option (list PyObject);
  tc_seq : list PyObject
}.

(** [createTypeContext] *)
Definition createTypeContext : TypeContext := mkTC 0 false None [].

(** [Object_beginTypeContext], lines 1750-1910, for the containers above:
    the shape tag and the driver installed, with the context the driver
    starts from; [None] for a scalar, which gets no driver. *)
Definition dispatch_container (enc : PyObjectEncoder) (obj : PyObject)
    : option (JSTYPES * Driver * TypeContext) :=
  match obj with
  | PyScalar => None
  | PdIndex _ vals =>
      if decide (outputFormat enc = SPLIT)
      then Some (JT_OBJECT, Index_iter, createTypeContext)
      else Some (JT_ARRAY, NpyArr_iter, mkTC 0 false None vals)
  | PdSeries _ _ vals =>
      if decide (outputFormat enc = SPLIT)
      then Some (JT_OBJECT, Series_iter, createTypeContext)
      else if decide (outputFormat enc = INDEX \/ outputFormat enc = COLUMNS)
      then Some (JT_OBJECT, NpyArr_iter, mkTC 0 false None vals)
      else Some (JT_ARRAY, NpyArr_iter, mkTC 0 false None vals)
  | NdArray elts => Some (JT_ARRAY, NpyArr_iter, mkTC 0 false None elts)
  | PdDataFrame _ _ _ _ _ =>
      Some (if decide (outputFormat enc = RECORDS \/ outputFormat enc = VALUES)
            then JT_ARRAY else JT_OBJECT,
            DataFrame_iter, createTypeContext)
  | PyList elts => Some (JT_ARRAY, List_iter, mkTC 0 false None elts)
  end.

(** Result of a driver call that may dereference a NULL pointer. *)
Inductive outcome (A : Type) :=
| Done (a : A)
| Crash
| OutOfFuel.
Arguments Done {A}.
Arguments Crash {A}.
Arguments OutOfFuel {A}.

(** [DataFrame_iterBegin]: snapshot the orientation, then either force
    VALUES (SPLIT) or obtain the iterable and turn RECORDS into INDEX.  The
    two [PyObject_Malloc] calls are taken to succeed. *)
Definition DataFrame_iterBegin (obj : PyObject) (enc : PyObjectEncoder)
    (tc : TypeContext) : PyObjectEncoder * TypeContext :=
  let enc := set_originalOutputFormat (outputFormat enc) enc in
  let tc := mkTC 0 (tc_cStr tc) (tc_frame tc) (tc_seq tc) in
  if decide (outputFormat enc = SPLIT) then
    (set_outputFormat VALUES enc, mkTC (tc_index tc) true (tc_frame tc) (tc_seq tc))
  else
    let iter := match obj with
                | PdDataFrame _ _ _ its rows =>
                    if decide (outputFormat enc = COLUMNS) then its else rows
                | _ => None
                end in
    match iter with
    | None => (enc, tc)
    | Some l =>
        let tc := mkTC (tc_index tc) (tc_cStr tc) (Some l) (tc_seq tc) in
        if decide (outputFormat enc = RECORDS)
        then (set_outputFormat INDEX enc, tc)
        else (enc, tc)
    end.

(** One call of an [iterNext]: stop, or expose an item. *)
Inductive NextResult :=
| NextStop (tc : TypeContext)
| NextItem (item : PyObject) (tc : TypeContext).

Definition bump (tc : TypeContext) : TypeContext :=
  mkTC (tc_index tc + 1) (tc_cStr tc) (tc_frame tc) (tc_seq tc).

(** [DataFrame_iterNext].  It consults [originalOutputFormat] at every call.
    Writing the key into a NULL [cStr] and reading the iterable through a
    NULL [frame] are the two NULL dereferences. *)
Definition DataFrame_iterNext (obj : PyObject) (enc : PyObjectEncoder)
    (tc : TypeContext) : outcome NextResult :=
  match obj with
  | PdDataFrame cols idx vals _ _ =>
    if decide (originalOutputFormat enc = SPLIT) then
      if decide (tc_index tc = 0) then
        if tc_cStr tc then Done (NextItem cols (bump tc)) else Crash
      else if decide (tc_index tc = 1) then
        if tc_cStr tc then Done (NextItem idx (bump tc)) else Crash
      else if decide (tc_index tc = 2) then
        if tc_cStr tc then Done (NextItem (NdArray vals) (bump tc)) else Crash
      else Done (NextStop tc)
    else
      match tc_frame tc with
      | None => Crash
      | Some [] => Done (NextStop tc)
      | Some (x :: rest) =>
          Done (NextItem x
                  (bump (mkTC (tc_index tc) (tc_cStr tc) (Some rest) (tc_seq tc))))
      end
  | _ => Crash
  end.

(** [DataFrame_iterEnd]: release the iterable (through the [frame] pointer)
    unless the saved orientation is SPLIT, then restore the orientation from
    the saved slot.  Reference counts are not modelled. *)
Definition DataFrame_iterEnd (enc : PyObjectEncoder) (tc : TypeContext)
    : outcome PyObjectEncoder :=
  if decide (originalOutputFormat enc = SPLIT) then
    Done (set_outputFormat (originalOutputFormat enc) enc)
  else
    match tc_frame tc with
    | None => Crash
    | Some _ => Done (set_outputFormat (originalOutputFormat enc) enc)
    end.

(** [Series_iterBegin], [Series_iterNext], [Series_iterEnd] *)
Definition Series_iterBegin (enc : PyObjectEncoder) (tc : TypeContext)
    : PyObjectEncoder * TypeContext :=
  (set_outputFormat VALUES enc, mkTC 0 true (tc_frame tc) (tc_seq tc)).

Definition Series_iterNext (obj : PyObject) (tc : TypeContext) : outcome NextResult :=
  match obj with
  | PdSeries name idx vals =>
      if negb (tc_cStr tc) then Done (NextStop tc)
      else if decide (tc_index tc = 0) then Done (NextItem name (bump tc))
      else if decide (tc_index tc = 1) then Done (NextItem idx (bump tc))
      else if decide (tc_index tc = 2) then Done (NextItem (NdArray vals) (bump tc))
      else Done (NextStop tc)
  | _ => Crash
  end.

Definition Series_iterEnd (enc : PyObjectEncoder) : PyObjectEncoder :=
  set_outputFormat (originalOutputFormat enc) enc.

(** [Index_iterBegin], [Index_iterNext] ([Index_iterEnd] does nothing) *)
Definition Index_iterBegin (tc : TypeContext) : TypeContext :=
  mkTC 0 true (tc_frame tc) (tc_seq tc).

Definition Index_iterNext (obj : PyObject) (tc : TypeContext) : outcome NextResult :=
  match obj with
  | PdIndex name vals =>
      if negb (tc_cStr tc) then Done (NextStop tc)
      else if decide (tc_index tc = 0) then Done (NextItem name (bump tc))
      else if decide (tc_index tc = 1) then Done (NextItem (NdArray vals) (bump tc))
      else Done (NextStop tc)
  | _ => Crash
  end.

(** [List_iterNext]; the array driver is used here through the sequence of
    elements it exposes (the strider itself is modelled further down). *)
Definition List_iterNext (tc : TypeContext) : NextResult :=
  match tc_seq tc !! Z.to_nat (tc_index tc) with
  | Some x => NextItem x (bump tc)
  | None => NextStop tc
  end.

(** The vtable calls [Object_iterBegin], [Object_iterNext] and
    [Object_iterEnd], by driver.  [List_iterBegin] and [NpyArr_iterBegin]
    only reset the position. *)
Definition iterBegin (d : Driver) (obj : PyObject) (enc : PyObjectEncoder)
    (tc : TypeContext) : PyObjectEncoder * TypeContext :=
  match d with
  | DataFrame_iter => DataFrame_iterBegin obj enc tc
  | Series_iter => Series_iterBegin enc tc
  | Index_iter => (enc, Index_iterBegin tc)
  | List_iter | NpyArr_iter => (enc, tc)
  end.

Definition iterNext (d : Driver) (obj : PyObject) (enc : PyObjectEncoder)
    (tc : TypeContext) : outcome NextResult :=
  match d with
  | DataFrame_iter => DataFrame_iterNext obj enc tc
  | Series_iter => Series_iterNext obj tc
  | Index_iter => Index_iterNext obj tc
  | List_iter | NpyArr_iter => Done (List_iterNext tc)
  end.

Definition iterEnd (d : Driver) (enc : PyObjectEncoder) (tc : TypeContext)
    : outcome PyObjectEncoder :=
  match d with
  | DataFrame_iter => DataFrame_iterEnd enc tc
  | Series_iter => Done (Series_iterEnd enc)
  | Index_iter | List_iter | NpyArr_iter => Done enc
  end.

(** Modelled from the spec: the writer's traversal (ultrajsonenc.c, which
    owns it, is not among the sources).  For each value the writer asks the
    dispatcher for a shape and a driver; for a container it calls begin, then
    next until it returns false, encoding each exposed item through the same
    dispatcher, then end.  [iterate] is the loop over one container, given
    the encoding of a child; [encode] is the recursion.  The result is the
    encoder state afterwards. *)
Fixpoint iterate (child : PyObjectEncoder -> PyObject -> outcome PyObjectEncoder)
    (d : Driver) (obj : PyObject) (k : nat) (enc : PyObjectEncoder)
    (tc : TypeContext) : outcome PyObjectEncoder :=
  match k with
  | O => OutOfFuel
  | S k' =>
    match iterNext d obj enc tc with
    | Crash => Crash
    | OutOfFuel => OutOfFuel
    | Done (NextStop tc') => iterEnd d enc tc'
    | Done (NextItem x tc') =>
        match child enc x with
        | Done enc' => iterate child d obj k' enc' tc'
        | o => o
        end
    end
  end.

(** Modelled from the spec: the writer's recursion into a value, the caller
    of the dispatcher and of the drivers (see [iterate]).  A scalar leaves
    the encoder as it is. *)
Fixpoint encode (fuel : nat) (enc : PyObjectEncoder) (obj : PyObject)
    : outcome PyObjectEncoder :=
  match fuel with
  | O => OutOfFuel
  | S f =>
    match dispatch_container enc obj with
    | None => Done enc
    | Some (_, d, tc) =>
        iterate (encode f) d obj f (fst (iterBegin d obj enc tc))
                (snd (iterBegin d obj enc tc))
    end
  end.

(** No table occurs in the object. *)
Fixpoint frame_free (obj : PyObject) : bool :=
  match obj with
  | PyScalar => true
  | PyList l | NdArray l => forallb frame_free l
  | PdIndex n vs => frame_free n && forallb frame_free vs
  | PdSeries n i vs => frame_free n && frame_free i && forallb frame_free vs
  | PdDataFrame _ _ _ _ _ => false
  end.

(** The number of nodes of an object, counting four for the steps of a table
    driver: enough fuel to encode it. *)
Fixpoint obj_size (obj : PyObject) : nat :=
  match obj with
  | PyScalar => 1
  | PyList l | NdArray l => S (sum_list (map obj_size l))
  | PdIndex n vs => S (obj_size n + sum_list (map obj_size vs))
  | PdSeries n i vs => S (obj_size n + obj_size i + sum_list (map obj_size vs))
  | PdDataFrame c i vs its rows =>
      4 + obj_size c + obj_size i + S (sum_list (map obj_size vs))
      + match its with Some l => sum_list (map obj_size l) | None => 0 end
      + match rows with Some l => sum_list (map obj_size l) | None => 0 end
  end.

(** The iterable a table driver holds lists table-free rows or columns. *)
Definition frame_rows_free (tc : TypeContext) : Prop :=
  forall l, tc_frame tc = Some l -> forallb frame_free l = true.

(** Example tables: a one-cell table of scalars, and a table holding it in
    an object cell. *)
Definition scalar_index : PyObject := PdIndex PyScalar [PyScalar].

Definition series_of (cell : PyObject) : PyObject :=
  PdSeries PyScalar scalar_index [cell].

Definition frame_of (cell : PyObject) : PyObject :=
  PdDataFrame scalar_index scalar_index [cell]
              (Some [series_of cell]) (Some [series_of cell]).

Definition flat_frame : PyObject := frame_of PyScalar.
Definition nested_frame : PyObject := frame_of flat_frame.

Definition encoder_with (fmt : PANDAS_FORMAT) : PyObjectEncoder :=
  mkEncoder true false 10 (-1) false NPY_FR_ms fmt fmt false.

(** ** Numeric-array strider *)

(** numpy type numbers ([enum NPY_TYPES]) and the classification macros of
    ndarraytypes.h used by the encoder. *)
Definition NPY_BOOL : Z := 0.
Definition NPY_BYTE : Z := 1.
Definition NPY_ULONGLONG : Z := 10.
Definition NPY_FLOAT : Z := 11.
Definition NPY_DOUBLE : Z := 12.
Definition NPY_LONGDOUBLE : Z := 13.
Definition NPY_OBJECT : Z := 17.
Definition NPY_DATETIME : Z := 21.
Definition NPY_TIMEDELTA : Z := 22.
Definition NPY_HALF : Z := 23.

Definition PyTypeNum_ISBOOL (t : Z) : bool := t =? NPY_BOOL.
Definition PyTypeNum_ISINTEGER (t : Z) : bool :=
  (NPY_BYTE <=? t) && (t <=? NPY_ULONGLONG).
Definition PyTypeNum_ISFLOAT (t : Z) : bool :=
  ((NPY_FLOAT <=? t) && (t <=? NPY_LONGDOUBLE)) || (t =? NPY_HALF).
Definition PyTypeNum_ISDATETIME (t : Z) : bool :=
  (NPY_DATETIME <=? t) && (t <=? NPY_TIMEDELTA).

(** A C array read at a C integer index.  An index outside the array is
    undefined behaviour in C; here it reads 0. *)
Definition zget (l : list Z) (i : Z) : Z :=
  if i <? 0 then 0 else default 0 (l !! Z.to_nat i).

(** A C array written at a C integer index (outside the array: unchanged). *)
Definition zset (l : list Z) (i : Z) (v : Z) : list Z :=
  if i <? 0 then l else <[Z.to_nat i := v]> l.

Arguments zget : simpl never.
Arguments zset : simpl never.

(** What the strider needs of a [PyArrayObject]: the address of its buffer,
    its shape, its strides in bytes and its dtype number. *)
Record PyArrayObject := mkArray {
  PyArray_DATA : Z;
  PyArray_DIMS : list Z;
  PyArray_STRIDES : list Z;
  PyArray_TYPE : Z
}.

Definition PyArray_NDIM (a : PyArrayObject) : Z := Z.of_nat (length (PyArray_DIMS a)).
Definition PyArray_DIM (a : PyArrayObject) (i : Z) : Z := zget (PyArray_DIMS a) i.
Definition PyArray_STRIDE (a : PyArrayObject) (i : Z) : Z := zget (PyArray_STRIDES a) i.

Arguments PyArray_NDIM : simpl never.
Arguments PyArray_DIM : simpl never.
Arguments PyArray_STRIDE : simpl never.

(** [NpyArrContext] without its [getitem] pointer and label pointers.
    [index] is the [npy_intp index[NPY_MAXDIMS]] member. *)
Record NpyArrContext := mkNpyArr {
  array : PyArrayObject;
  dataptr : Z;
  curdim : Z;
  stridedim : Z;
  inc : Z;
  dim : Z;
  stride : Z;
  ndim : Z;
  index : list Z
}.

Definition NPY_MAXDIMS : Z := 32.

(** [NpyArr_iterBegin].  [garbage] is what [PyObject_Malloc] left in the
    [index] member, of which only the entry of the first axis is set. *)
Definition NpyArr_iterBegin (obj : PyArrayObject) (transpose : bool)
    (garbage : list Z) : NpyArrContext :=
  let nd := PyArray_NDIM obj - 1 in
  if transpose then
    mkNpyArr obj (PyArray_DATA obj) 0 nd (-1)
             (PyArray_DIM obj nd) (PyArray_STRIDE obj nd) nd (zset garbage nd 0)
  else
    mkNpyArr obj (PyArray_DATA obj) 0 0 1
             (PyArray_DIM obj 0) (PyArray_STRIDE obj 0) nd (zset garbage 0 0).

(** [NpyArrPassThru_iterEnd]: pop one level. *)
Definition NpyArrPassThru_iterEnd (n : NpyArrContext) : NpyArrContext :=
  let curdim' := curdim n - 1 in
  let dataptr' := dataptr n - stride n * zget (index n) (stridedim n) in
  let stridedim' := stridedim n - inc n in
  let dim' := PyArray_DIM (array n) stridedim' in
  let stride' := PyArray_STRIDE (array n) stridedim' in
  mkNpyArr (array n) (dataptr' + stride') curdim' stridedim' (inc n)
           dim' stride' (ndim n) (index n).

(** The item an [iterNext] exposes: a scalar materialised by [getitem] at an
    address, a datetime element staged on the encoder ([npyType],
    [npyValue]) at an address, or the array itself with the strider in the
    pass-through slot. *)
Inductive NpyItem :=
| ItemScalar (ptr : Z)
| ItemStaged (ptr : Z)
| ItemArray.

(** The [iterNext] member of the type context: the descent variant or the
    leaf variant. *)
Inductive IterNextFn := Fn_NpyArr_iterNext | Fn_NpyArr_iterNextItem.

(** [NpyArr_iterNextItem]: [None] is return value 0. *)
Definition NpyArr_iterNextItem (pyerr : bool) (n : NpyArrContext)
    : option NpyItem * NpyArrContext :=
  if pyerr then (None, n)
  else if dim n <=? zget (index n) (stridedim n) then (None, n)
  else
    let item := if PyTypeNum_ISDATETIME (PyArray_TYPE (array n))
                then ItemStaged (dataptr n) else ItemScalar (dataptr n) in
    (Some item,
     mkNpyArr (array n) (dataptr n + stride n) (curdim n) (stridedim n) (inc n)
              (dim n) (stride n) (ndim n)
              (zset (index n) (stridedim n) (zget (index n) (stridedim n) + 1))).

(** [NpyArr_iterNext]: also returns the [iterNext] member afterwards. *)
Definition NpyArr_iterNext (pyerr : bool) (n : NpyArrContext)
    : IterNextFn * option NpyItem * NpyArrContext :=
  if pyerr then (Fn_NpyArr_iterNext, None, n)
  else if (ndim n <=? curdim n) || (dim n <=? zget (index n) (stridedim n)) then
    (Fn_NpyArr_iterNextItem, fst (NpyArr_iterNextItem pyerr n),
     snd (NpyArr_iterNextItem pyerr n))
  else
    let index1 := zset (index n) (stridedim n) (zget (index n) (stridedim n) + 1) in
    let stridedim' := stridedim n + inc n in
    let dim' := PyArray_DIM (array n) stridedim' in
    let stride' := PyArray_STRIDE (array n) stridedim' in
    (Fn_NpyArr_iterNext, Some ItemArray,
     mkNpyArr (array n) (dataptr n) (curdim n + 1) stridedim' (inc n)
              dim' stride' (ndim n) (zset index1 stridedim' 0)).

Definition Object_iterNext_npy (fn : IterNextFn) (pyerr : bool) (n : NpyArrContext)
    : IterNextFn * option NpyItem * NpyArrContext :=
  match fn with
  | Fn_NpyArr_iterNext => NpyArr_iterNext pyerr n
  | Fn_NpyArr_iterNextItem =>
      (Fn_NpyArr_iterNextItem, fst (NpyArr_iterNextItem pyerr n),
       snd (NpyArr_iterNextItem pyerr n))
  end.

(** What happened to the strider, in order, each with the state it left. *)
Inductive StriderEvent :=
| EvBegin (n : NpyArrContext)
| EvDescend (n : NpyArrContext)
| EvLeaf (item : NpyItem) (n : NpyArrContext)
| EvPop (n : NpyArrContext).

Definition event_state (e : StriderEvent) : NpyArrContext :=
  match e with
  | EvBegin n | EvDescend n | EvLeaf _ n | EvPop n => n
  end.

Definition is_leaf (e : StriderEvent) : bool :=
  match e with EvLeaf _ _ => true | _ => false end.

Definition item_ptr (i : NpyItem) : Z :=
  match i with ItemScalar p | ItemStaged p => p | ItemArray => 0 end.

(** Modelled from the spec: the writer's loop over one array context
    (ultrajsonenc.c is not among the sources), joined with the
    [PyArray_Check] branch of [Object_beginTypeContext], which gives an
    array item that arrives with a pass-through strider a new type context
    on the same strider with [NpyArr_iterNext] and [NpyArrPassThru_iterEnd].
    [raises p] tells whether encoding the leaf at address [p] leaves a Python
    error pending.  The result is the event log, the error flag and the
    strider after the last [iterNext] of this context. *)
Fixpoint walk (raises : Z -> bool) (fuel : nat) (fn : IterNextFn) (pyerr : bool)
    (n : NpyArrContext) : option (list StriderEvent * bool * NpyArrContext) :=
  match fuel with
  | O => None
  | S f =>
    match Object_iterNext_npy fn pyerr n with
    | (_, None, n1) => Some ([], pyerr, n1)
    | (fn', Some ItemArray, n1) =>
        match walk raises f Fn_NpyArr_iterNext pyerr n1 with
        | None => None
        | Some (evs1, pyerr1, n2) =>
            let n3 := NpyArrPassThru_iterEnd n2 in
            match walk raises f fn' pyerr1 n3 with
            | None => None
            | Some (evs2, pyerr2, n4) =>
                Some (EvDescend n1 :: evs1 ++ EvPop n3 :: evs2, pyerr2, n4)
            end
        end
    | (fn', Some item, n1) =>
        match walk raises f fn' (raises (item_ptr item)) n1 with
        | None => None
        | Some (evs, pyerr1, n2) => Some (EvLeaf item n1 :: evs, pyerr1, n2)
        end
    end
  end.

(** Encoding a whole array: begin, the loop, and [NpyArr_iterEnd] (which
    only frees the strider).  The result is the event log and whether a
    Python error is pending at the end. *)
Definition NpyArr_encode (raises : Z -> bool) (fuel : nat) (obj : PyArrayObject)
    (transpose : bool) (garbage : list Z) : option (list StriderEvent * bool) :=
  let n0 := NpyArr_iterBegin obj transpose garbage in
  match walk raises fuel Fn_NpyArr_iterNext false n0 with
  | None => None
  | Some (evs, pyerr, _) => Some (EvBegin n0 :: evs, pyerr)
  end.

(** The number of leaf-phase [iterNext] calls that returned 1. *)
Definition leaves (evs : list StriderEvent) : Z :=
  Z.of_nat (length (filter (fun e => is_leaf e = true) evs)).

(** The product of the axis sizes. *)
Definition shape_product (dims : list Z) : Z := foldr Z.mul 1 dims.

(** A 2x3 and a 2x3x2 array of 8-byte elements in C order. *)
Definition array_2x3 : PyArrayObject := mkArray 1000 [2; 3] [24; 8] 7.
Definition array_2x3x2 : PyArrayObject := mkArray 0 [2; 3; 2] [48; 16; 8] 12.
Definition zero_index : list Z := replicate 32 0.

(** A leaf encoder that fails at one address and nowhere else. *)
Definition raises_at (p : Z) : Z -> bool := fun q => q =? p.

(** The axis walked at depth [d]: axes are taken first to last, or last to
    first under transpose. *)
Definition axis (transpose : bool) (nd d : Z) : Z :=
  if transpose then nd - d else d.

Fixpoint sum_upto (n : nat) (f : Z -> Z) : Z :=
  match n with
  | O => 0
  | S n' => sum_upto n' f + f (Z.of_nat n')
  end.

(** Offset contributed by the axes already descended through.  Their index
    was incremented when the strider went down, before the data pointer
    moved, so each counts with [index - 1]. *)
Definition outer_offset (transpose : bool) (n : NpyArrContext) : Z :=
  sum_upto (Z.to_nat (curdim n))
    (fun j => PyArray_STRIDE (array n) (axis transpose (ndim n) j)
              * (zget (index n) (axis transpose (ndim n) j) - 1)).

(** The invariant the strider keeps over an array [obj]. *)
Record strider_inv (obj : PyArrayObject) (transpose : bool) (n : NpyArrContext)
    : Prop := mkInv {
  inv_array : array n = obj;
  inv_ndim : ndim n = PyArray_NDIM obj - 1;
  inv_inc : inc n = if transpose then -1 else 1;
  inv_curdim : 0 <= curdim n <= ndim n;
  inv_stridedim : stridedim n = axis transpose (ndim n) (curdim n);
  inv_dim : dim n = PyArray_DIM obj (stridedim n);
  inv_stride : stride n = PyArray_STRIDE obj (stridedim n);
  inv_len : PyArray_NDIM obj <= Z.of_nat (length (index n));
  inv_index : 0 <= zget (index n) (stridedim n) <= dim n;
  inv_outer : forall j, 0 <= j < curdim n ->
      1 <= zget (index n) (axis transpose (ndim n) j)
        <= PyArray_DIM obj (axis transpose (ndim n) j);
  inv_dataptr :
      dataptr n = PyArray_DATA obj
                  + stride n * zget (index n) (stridedim n)
                  + outer_offset transpose n
}.

(** The invariant as the specification words it: the data pointer is the
    base plus the sum over all axes of stride times index, and the index on
    the stride axis is below the size of that axis. *)
Definition all_axes_offset (n : NpyArrContext) : Z :=
  sum_upto (length (PyArray_DIMS (array n)))
    (fun i => PyArray_STRIDE (array n) i * zget (index n) i).

Definition spec_strider_inv (n : NpyArrContext) : Prop :=
  dataptr n = PyArray_DATA (array n) + all_axes_offset n /\
  0 <= zget (index n) (stridedim n) < PyArray_DIM (array n) (stridedim n).

(** Arrays the strider is given: at least one axis (0-d arrays are rejected
    by the dispatcher), at most [NPY_MAXDIMS], sizes not negative, one
    stride per axis. *)
Definition wf_array (obj : PyArrayObject) : Prop :=
  1 <= PyArray_NDIM obj <= NPY_MAXDIMS /\
  length (PyArray_STRIDES obj) = length (PyArray_DIMS obj) /\
  Forall (fun d => 0 <= d) (PyArray_DIMS obj).

(** Product of the sizes of the axes walked below depth [d], [r] of them. *)
Fixpoint level_product (obj : PyArrayObject) (transpose : bool) (d : Z) (r : nat)
    : Z :=
  match r with
  | O => 1
  | S r' => PyArray_DIM obj (axis transpose (PyArray_NDIM obj - 1) (d + 1))
            * level_product obj transpose (d + 1) r'
  end.

(** What one context of the walk has done when it ends without error: it
    emitted the rest of its axis times everything below, and left the index
    of its axis at the size. *)
Definition level_post (obj : PyArrayObject) (transpose : bool)
    (n n' : NpyArrContext) (evs : list StriderEvent) (r : nat) : Prop :=
  leaves evs = (dim n - zget (index n) (stridedim n))
               * level_product obj transpose (curdim n) r /\
  zget (index n') (stridedim n) = dim n /\
  (forall j, 0 <= j < curdim n ->
     zget (index n') (axis transpose (ndim n) j)
     = zget (index n) (axis transpose (ndim n) j)).

(** The strider's invariant, in the terms of the claim: where the data
    pointer is, and where the index of the current axis lies. *)
Definition strider_position (obj : PyArrayObject) (transpose : bool) (n : NpyArrContext)
    : Prop :=
  dataptr n = PyArray_DATA obj
              + stride n * zget (index n) (stridedim n)
              + outer_offset transpose n /\
  0 <= zget (index n) (stridedim n) <= PyArray_DIM obj (stridedim n).


(** ** Attribute-dir driver *)

(** The value of an attribute, as far as the driver looks at it. *)
Record AttrValue := mkAttrValue { av_id : Z; av_callable : bool }.

(** One entry of [PyObject_Dir(obj)]: the UTF-8 bytes of the name and what
    [PyObject_GetAttr] does with it, raise or return a value. *)
Record Attr := mkAttr { attr_name : list byte; attr_fetch : PyErr + AttrValue }.

(** The [TypeContext] fields of the driver. *)
Record DirContext := mkDir {
  dir_index : Z;
  dir_size : Z;
  dir_itemName : option (list byte);
  dir_itemValue : option AttrValue
}.

(** [Dir_iterBegin] *)
Definition Dir_iterBegin (attrList : list Attr) : DirContext :=
  mkDir 0 (Z.of_nat (length attrList)) None None.

(** [attrStr[0] == '_'] *)
Definition starts_with_underscore (name : list byte) : bool :=
  match name with
  | c :: _ => Byte.eqb c x5f
  | [] => false
  end.

(** [PyErr_Clear] *)
Definition PyErr_Clear (pending : option PyErr) : option PyErr := None.

(** The [for] loop of [Dir_iterNext], run for at most [n] names from
    [index]: the index and the error indicator when the loop is left, and the
    attribute it stopped at, if any.  On a hit the index has been
    incremented once, inside the loop body, before the [break]. *)
Fixpoint Dir_scan (n : nat) (attrList : list Attr) (index : Z)
    (pending : option PyErr)
    : Z * option PyErr * option (list byte * AttrValue) :=
  match n with
  | O => (index, pending, None)
  | S n' =>
    match attrList !! Z.to_nat index with
    | None => (index, pending, None)
    | Some a =>
      if starts_with_underscore (attr_name a) then
        Dir_scan n' attrList (index + 1) pending
      else
        match attr_fetch a with
        | inl e =>
            let pending := Some e in
            let pending := PyErr_Clear pending in
            Dir_scan n' attrList (index + 1) pending
        | inr v =>
            if av_callable v then Dir_scan n' attrList (index + 1) pending
            else (index + 1, pending, Some (attr_name a, v))
        end
    end
  end.

(** [Dir_iterNext]: the return value, the context and the error indicator
    afterwards.  [errorMsg] is the writer's error slot. *)
Definition Dir_iterNext (attrList : list Attr) (pending : option PyErr)
    (errorMsg : option string) (tc : DirContext)
    : bool * DirContext * option PyErr :=
  if bool_decide (pending <> None) || bool_decide (errorMsg <> None) then
    (false, tc, pending)
  else
    match Dir_scan (Z.to_nat (dir_size tc - dir_index tc)) attrList
                   (dir_index tc) pending with
    | (_, pending', None) => (false, mkDir (dir_size tc) (dir_size tc) None None, pending')
    | (index', pending', Some (name, v)) =>
        (true, mkDir (index' + 1) (dir_size tc) (Some name) (Some v), pending')
    end.

(** The three kinds of attribute the loop passes over. *)
Definition Dir_skipped (a : Attr) : Prop :=
  starts_with_underscore (attr_name a) = true \/
  (exists e, attr_fetch a = inl e) \/
  (exists v, attr_fetch a = inr v /\ av_callable v = true).

(** An object with a private attribute, a property that raises, a method
    and two data attributes. *)
Definition sample_attrs : list Attr :=
  [ mkAttr [x5f; x61] (inr (mkAttrValue 1 false));
    mkAttr [x62] (inl (mkPyErr PyExc_RuntimeError "boom"));
    mkAttr [x63] (inr (mkAttrValue 2 true));
    mkAttr [x64] (inr (mkAttrValue 3 false));
    mkAttr [x65] (inr (mkAttrValue 4 false)) ].

(** ** Label pre-encoder *)

Definition QUOTE : byte := x22.
Definition COLON : byte := x3a.
Definition NUL : byte := x00.

Definition NPY_CLONGDOUBLE : Z := 16.

(** [PyTypeNum_ISNUMBER] of ndarraytypes.h *)
Definition PyTypeNum_ISNUMBER (t : Z) : bool :=
  (t <=? NPY_CLONGDOUBLE) || (t =? NPY_HALF).

(** Numeric and datetime labels are not materialised: the array itself is
    passed to the writer with the element staged on the encoder. *)
Definition label_is_staged (type_num : Z) : bool :=
  PyTypeNum_ISDATETIME type_num || PyTypeNum_ISNUMBER type_num.

(** A one-dimensional label array: its dtype number and its elements, so
    that [PyArray_SIZE] is the length of the list.  [L] is whatever an
    element is. *)
Record LabelArray (L : Type) := mkLabelArray {
  la_type : Z;
  la_items : list L
}.
Arguments mkLabelArray {L}.
Arguments la_type {L}.
Arguments la_items {L}.

(** What one [JSON_EncodeObject] call on a label leaves behind: the bytes
    between the returned [cLabel] and [enc->offset], and whether
    [PyErr_Occurred() || enc->errorMsg] holds afterwards. *)
Record EncodedLabel := mkEncodedLabel {
  el_out : list byte;
  el_failed : bool
}.

(** The value of [NpyArr_encodeLabels]: NULL, with the exception the
    function itself raised on that path if any, or the array of slices. *)
Inductive LabelsResult :=
| LabelsNULL (raised : option PyErr)
| Labels (ret : list (list byte)).

Definition label_size_mismatch : PyErr :=
  mkPyErr PyExc_ValueError "Label array sizes do not match corresponding data shape".

Definition no_memory : PyErr := mkPyErr PyExc_MemoryError EmptyString.

(** The slice built from one encoded label, lines 1485-1503:
    [len = enc->offset - cLabel + 1 + 2 * need_quotes], then the quote, the
    [memcpy] of [len - 4] (or [len - 2]) bytes, the quote, the colon and the
    terminator. *)
(** Whether [*cLabel] is not the double-quote character; where the writer
    left nothing the byte read is taken to be NUL. *)
Definition need_quotes (out : list byte) : bool :=
  negb (Byte.eqb (hd NUL out) QUOTE).

Definition label_len (out : list byte) : Z :=
  Z.of_nat (length out) + 1 + 2 * (if need_quotes out then 1 else 0).

Definition label_slice (out : list byte) : list byte :=
  let len := label_len out in
  if need_quotes out then
    [QUOTE] ++ take (Z.to_nat (len - 4)) out ++ [QUOTE] ++ [COLON] ++ [NUL]
  else
    take (Z.to_nat (len - 2)) out ++ [COLON] ++ [NUL].

Section EncodeLabels.
Context {L : Type}.
(** [getitem(dataptr, labels)] returned an object. *)
Variable getitem_ok : L -> bool.
(** [JSON_EncodeObject] on a label; the flag tells whether the label was
    staged as a numpy value ([npyType], [npyValue]) or passed as an
    object. *)
Variable JSON_EncodeObject : bool -> L -> EncodedLabel.
(** [PyObject_Malloc] of that many bytes returned a block. *)
Variable malloc_ok : Z -> bool.

(** The body of the [for] loop over the first [num] labels. *)
Fixpoint encodeLabels_loop (staged : bool) (items : list L) : LabelsResult :=
  match items with
  | [] => Labels []
  | x :: rest =>
    if negb staged && negb (getitem_ok x) then LabelsNULL None
    else
      let r := JSON_EncodeObject staged x in
      if el_failed r then LabelsNULL None
      else if negb (malloc_ok (label_len (el_out r))) then LabelsNULL (Some no_memory)
      else
        match encodeLabels_loop staged rest with
        | Labels ret => Labels (label_slice (el_out r) :: ret)
        | LabelsNULL e => LabelsNULL e
        end
  end.

(** [NpyArr_encodeLabels(labels, enc, num)]; [None] is a NULL [labels].  The
    array of [num] pointers is taken to be [8 * num] bytes. *)
Definition NpyArr_encodeLabels (labels : option (LabelArray L)) (num : Z)
    : LabelsResult :=
  match labels with
  | None => LabelsNULL None
  | Some arr =>
    if Z.of_nat (length (la_items arr)) <? num then
      LabelsNULL (Some label_size_mismatch)
    else if negb (malloc_ok (8 * num)) then LabelsNULL (Some no_memory)
    else
      encodeLabels_loop (label_is_staged (la_type arr))
                        (take (Z.to_nat num) (la_items arr))
  end.
End EncodeLabels.

(** [strlen] *)
Fixpoint strlen (s : list byte) : nat :=
  match s with
  | [] => O
  | c :: rest => if Byte.eqb c NUL then O else S (strlen rest)
  end.

(** The Index/Columns branch of [DataFrame_iterGetName] on one label:
    [len = strlen(cStr); cStr++; cStr[len - 3] = 0; *outLen = len - 3]. *)
Definition trim_label (cStr : list byte) : list byte :=
  let len := Z.of_nat (strlen cStr) in
  take (Z.to_nat (len - 3)) (drop 1 cStr).

(** [DataFrame_iterGetName]: the key under SPLIT, the trimmed label under
    COLUMNS and INDEX; the function has no return statement for the other
    orientations ([None], as is a read past the label array). *)
Definition DataFrame_iterGetName (enc : PyObjectEncoder) (index : Z)
    (cStr : list byte) (columnLabels : list (list byte)) : option (list byte) :=
  if decide (originalOutputFormat enc = SPLIT) then Some (take (strlen cStr) cStr)
  else if decide (originalOutputFormat enc = COLUMNS \/ originalOutputFormat enc = INDEX)
  then trim_label <$> columnLabels !! Z.to_nat (index - 1)
  else None.

(** What the writer leaves for a label, as the pre-encoder relies on it: the
    encoded text, free of NUL bytes, followed by the NUL the writer appends;
    and a text that starts with a quote is a JSON string, so it also ends
    with one. *)
Definition writer_output (out body : list byte) : Prop :=
  out = body ++ [NUL] /\ (NUL ∉ body) /\
  (hd NUL body = QUOTE -> exists inner, body = [QUOTE] ++ inner ++ [QUOTE]).

(** The bytes of a label between its quotes. *)
Definition label_inner (body : list byte) : list byte :=
  if Byte.eqb (hd NUL body) QUOTE
  then take (length body - 2) (drop 1 body)
  else body.

(** Example labels: the text [ab] encoded as a JSON string, and the number
    [7]. *)
Definition sample_label_writer (staged : bool) (l : list byte) : EncodedLabel :=
  mkEncodedLabel (if staged then l ++ [NUL] else [QUOTE] ++ l ++ [QUOTE; NUL]) false.

Definition text_labels : LabelArray (list byte) :=
  mkLabelArray NPY_OBJECT [[x61; x62]; [x63]; [x64]].

Definition number_labels : LabelArray (list byte) :=
  mkLabelArray 7 [[x37]; [x38]].

(** ** Type dispatcher: scalars and staged array elements *)

(** The coercers ([PFN_PyTypeToJSON]) the dispatcher can install. *)
Inductive Coercer :=
| CDouble | CLong | PyLongToINT64 | PyFloatToDOUBLE | NpyFloatToDOUBLE
| PyStringToUTF8 | PyUnicodeToUTF8 | PyDateTimeToJSON | PyTimeToJSON
| NpyDateTimeScalarToJSON | NpyDatetime64ToJSON.

(** The scalars [Object_beginTypeContext] tells apart, each with what the
    dispatcher reads from it.  A date or datetime carries whether it is an
    instance of [NaTType]; a [datetime.timedelta] carries its [value]
    attribute (a Python integer) when it has one, and otherwise the
    [npy_int64] that [total_seconds(obj) * 1000000000LL] converts to. *)
Inductive PyScalarObject :=
| PyBool (b : bool)
| PyNone
| PyLong (v : Z)
| PyFloat (nan_or_inf : bool)
| PyBytes
| PyUnicode
| PyDecimal
| PyDateTime (is_cls_nat : bool)
| PyTime
| NpyDatetimeScalar (obval : Z)
| PyDelta (value_attr : option Z) (total_seconds_ns : Z)
| NpyIntegerScalar (v : Z)
| NpyBoolScalar (b : bool)
| NpyFloatScalar
| NpyArray0d.

(** The element [npyValue] points at, as the cast functions of
    [NpyTypeToJSONType] read it. *)
Record NpyRaw := mkNpyRaw {
  raw_nan_or_inf : bool;
  raw_int64 : Z;
  raw_bool : bool
}.

(** What the dispatcher publishes: the shape tag, the coercer, the staged
    [longValue], the exception it raised, and the encoder afterwards. *)
Record Dispatched := mkDispatched {
  d_type : JSTYPES;
  d_coercer : option Coercer;
  d_longValue : Z;
  d_raised : option PyErr;
  d_enc : PyObjectEncoder
}.

(** [NpyTypeToJSONType] *)
Definition NpyTypeToJSONType (enc : PyObjectEncoder) (t : Z) (value : NpyRaw)
    : JSTYPES * option Coercer * Z :=
  if PyTypeNum_ISFLOAT t then
    if raw_nan_or_inf value then (JT_NULL, None, 0)
    else (JT_DOUBLE, Some CDouble, 0)
  else if PyTypeNum_ISDATETIME t then
    if decide (raw_int64 value = get_nat) then (JT_NULL, None, 0)
    else (if datetimeIso enc then JT_UTF8 else JT_LONG,
          Some NpyDatetime64ToJSON, raw_int64 value)
  else if PyTypeNum_ISINTEGER t then (JT_LONG, Some CLong, raw_int64 value)
  else if PyTypeNum_ISBOOL t then
    (if raw_bool value then JT_TRUE else JT_FALSE, None, 0)
  else (JT_INVALID, None, 0).

(** The [switch (base)] of the timedelta branch; [/=] on [npy_int64]
    truncates toward zero. *)
Definition scale_timedelta (unit : NPY_DATETIMEUNIT) (value : Z) : Z :=
  match unit with
  | NPY_FR_ns => value
  | NPY_FR_us => Z.quot value 1000
  | NPY_FR_ms => Z.quot value 1000000
  | NPY_FR_s => Z.quot value 1000000000
  end.

(** [Object_beginTypeContext], lines 1550-1746: a staged array element
    first, then the scalar branches in source order.  For a staged element
    of an unhandled dtype with a default handler installed, the result gives
    the tag and the encoder's staging only: the call of the handler through
    [enc->npyCtxtPassthru] and the nested encoding of what it returns are not
    modelled.  A numpy boolean scalar is cast into the zeroed [longValue]
    (one byte, little-endian). *)
Definition Object_beginTypeContext (enc : PyObjectEncoder) (npyValue : NpyRaw)
    (obj : PyScalarObject) : Dispatched :=
  if 0 <=? npyType enc then
    let '(ty, co, lv) := NpyTypeToJSONType enc (npyType enc) npyValue in
    let raised :=
      if decide (ty = JT_INVALID) then
        if defaultHandler enc then None
        else Some (mkPyErr PyExc_RuntimeError "Unhandled numpy dtype %d")
      else None in
    mkDispatched ty co lv raised (set_npyType (-1) enc)
  else
    let ok ty co lv := mkDispatched ty co lv None enc in
    let invalid e := mkDispatched JT_INVALID None 0 (Some e) enc in
    match obj with
    | PyBool b => ok (if b then JT_TRUE else JT_FALSE) None 0
    | PyNone => ok JT_NULL None 0
    | PyLong v =>
        if fits_int64 v
        then ok JT_LONG (Some PyLongToINT64) v
        else invalid overflow_error
    | PyFloat nf =>
        if nf then ok JT_NULL None 0 else ok JT_DOUBLE (Some PyFloatToDOUBLE) 0
    | PyBytes => ok JT_UTF8 (Some PyStringToUTF8) 0
    | PyUnicode => ok JT_UTF8 (Some PyUnicodeToUTF8) 0
    | PyDecimal => ok JT_DOUBLE (Some PyFloatToDOUBLE) 0
    | PyDateTime is_nat =>
        if is_nat then ok JT_NULL None 0
        else ok (if datetimeIso enc then JT_UTF8 else JT_LONG)
                (Some PyDateTimeToJSON) 0
    | PyTime => ok JT_UTF8 (Some PyTimeToJSON) 0
    | NpyDatetimeScalar obval =>
        if decide (obval = get_nat) then ok JT_NULL None 0
        else ok (if datetimeIso enc then JT_UTF8 else JT_LONG)
                (Some NpyDateTimeScalarToJSON) 0
    | PyDelta value_attr total_seconds_ns =>
        let overflow := match value_attr with
                        | Some v => negb (fits_int64 v)
                        | None => false
                        end in
        let value := match value_attr with
                     | Some v => if fits_int64 v then v else -1
                     | None => total_seconds_ns
                     end in
        let value := scale_timedelta (datetimeUnit enc) value in
        if overflow then invalid overflow_error
        else if decide (value = get_nat) then ok JT_NULL None 0
        else ok JT_LONG (Some PyLongToINT64) value
    | NpyIntegerScalar v => ok JT_LONG (Some PyLongToINT64) v
    | NpyBoolScalar b =>
        ok (if b then JT_TRUE else JT_FALSE) None (if b then 1 else 0)
    | NpyFloatScalar => ok JT_DOUBLE (Some NpyFloatToDOUBLE) 0
    | NpyArray0d =>
        invalid (mkPyErr PyExc_TypeError
                   "%s (0d array) is not JSON serializable at the moment")
    end.

(** Modelled from the spec: the text the writer emits for the three shape
    tags that carry no payload (the writer itself, ultrajsonenc.c, is not
    among the sources): the null sentinel gives [null], booleans give
    [true] and [false]. *)
Definition writer_literal (ty : JSTYPES) : option string :=
  match ty with
  | JT_NULL => Some "null"%string
  | JT_TRUE => Some "true"%string
  | JT_FALSE => Some "false"%string
  | _ => None
  end.

(** An encoder with a given date mode and unit and nothing staged. *)
Definition date_encoder (iso : bool) (unit : NPY_DATETIMEUNIT) : PyObjectEncoder :=
  mkEncoder true false 10 (-1) iso unit COLUMNS COLUMNS false.

Definition no_raw : NpyRaw := mkNpyRaw false 0 false.

(** ** Attribute-dir driver: a whole iteration *)




(** ** Entry point: the returned object *)

(** The exception [PyUnicode_FromString] sets for bytes that are not UTF-8
    (a [UnicodeDecodeError]; its message is CPython's and is not
    modelled). *)
Definition unicode_decode_error : PyErr := mkPyErr PyExc_Other EmptyString.

(** [PyUnicode_FromString(ret)], line 2200: a NULL pointer is dereferenced;
    bytes that do not decode give NULL with an exception set.  [utf8] tells
    whether the bytes decode. *)
Definition PyUnicode_FromString (utf8 : list byte -> bool) (p : BufPtr)
    (text : list byte) : outcome PyReturn :=
  if decide (p = NullPtr) then Crash
  else if utf8 text then Done (RetUnicode text)
  else Done (RetNULL unicode_decode_error).

(** The value [objToJSON] returns, with the decoding of the writer's text:
    the first two paths of [finish_encode] as they are, the last one through
    [PyUnicode_FromString]. *)
Definition objToJSON_return {Obj} (JSON_DOUBLE_MAX_DECIMALS : Z)
    (JSON_EncodeObject : Obj -> PyObjectEncoder -> EncodeResult)
    (utf8 : list byte -> bool) (a : Args Obj) : outcome PyReturn :=
  match configure_encoder JSON_DOUBLE_MAX_DECIMALS a with
  | inl e => Done (RetNULL e)
  | inr enc =>
      let r := JSON_EncodeObject (oinput a) enc in
      match fst (finish_encode r) with
      | RetUnicode s => PyUnicode_FromString utf8 (ret r) s
      | RetNULL e => Done (RetNULL e)
      end
  end.

(** ** Type dispatcher: durations *)


(** ** Label pre-encoder and the array driver's keys *)

(** One label gets through the body of the pre-encoder's loop: it is fetched
    (unless it is staged), the writer encodes it without failure, and the
    block for its slice is allocated. *)
Definition label_encodes {L : Type} (getitem_ok : L -> bool)
    (JSON_EncodeObject : bool -> L -> EncodedLabel) (malloc_ok : Z -> bool)
    (staged : bool) (x : L) : bool :=
  (staged || getitem_ok x)
  && negb (el_failed (JSON_EncodeObject staged x))
  && malloc_ok (label_len (el_out (JSON_EncodeObject staged x))).

(** [NpyArr_getLabel]: [strlen(labels[idx])] bytes of the label are copied
    to the writer's output at [enc->offset] ([Buffer_Reserve] is taken to
    succeed), and [*outLen] is left at 0, so the writer adds nothing of its
    own.  The result is the output buffer afterwards; [None] is a read
    outside the label array. *)
Definition NpyArr_getLabel (buffer : list byte) (idx : Z)
    (labels : list (list byte)) : option (list byte) :=
  if idx <? 0 then None
  else match labels !! Z.to_nat idx with
       | Some l => Some (buffer ++ take (strlen l) l)
       | None => None
       end.

(** [NpyArr_iterGetName]: after a leaf the column label at the position just
    passed on the current axis, after a descent the row label at the
    position just passed on the axis above. *)
Definition NpyArr_iterGetName (fn : IterNextFn) (n : NpyArrContext)
    (columnLabels rowLabels : list (list byte)) (buffer : list byte)
    : option (list byte) :=
  match fn with
  | Fn_NpyArr_iterNextItem =>
      NpyArr_getLabel buffer (zget (index n) (stridedim n) - 1) columnLabels
  | Fn_NpyArr_iterNext =>
      NpyArr_getLabel buffer (zget (index n) (stridedim n - inc n) - 1) rowLabels
  end.

(** ** Orientation across a whole value *)

(** Every table in the object holds no table (in its labels, cells, rows and
    columns) and has working [items] and [iterrows] methods, and tables occur
    only at the top or as elements of lists and arrays. *)
Fixpoint tables_flat (obj : PyObject) : bool :=
  match obj with
  | PyScalar => true
  | PyList l | NdArray l => forallb tables_flat l
  | PdIndex _ _ | PdSeries _ _ _ => frame_free obj
  | PdDataFrame c i vs its rows =>
      frame_free c && frame_free i && forallb frame_free vs
      && match its with Some l => forallb frame_free l | None => false end
      && match rows with Some l => forallb frame_free l | None => false end
  end.

(** A list of two one-cell tables and a vector. *)
Definition frames_and_series : PyObject :=
  PyList [flat_frame; series_of PyScalar; flat_frame].

(** ** Iterator driver (sets) *)

(** Reference-count traffic of the driver: a [Py_DECREF] of an item that
    [PyIter_Next] returned, or of the iterator. *)
Inductive RefEvent (A : Type) :=
| Py_DECREF_item (a : A)
| Py_DECREF_iterator.
Arguments Py_DECREF_item {A}.
Arguments Py_DECREF_iterator {A}.

(** The [TypeContext] fields of the driver: [itemValue], and [iterator] with
    the items it has yet to yield ([None] is the NULL pointer). *)
Record IterContext (A : Type) := mkIter {
  it_itemValue : option A;
  it_iterator : option (list A)
}.
Arguments mkIter {A}.
Arguments it_itemValue {A}.
Arguments it_iterator {A}.

Section IterDriver.
Context {A : Type}.

(** [Iter_iterBegin]; [PyObject_GetIter] of a set succeeds. *)
Definition Iter_iterBegin (items : list A) : IterContext A :=
  mkIter None (Some items).

(** [if (itemValue) { Py_DECREF(itemValue); itemValue = NULL; }] *)
Definition Iter_release (tc : IterContext A) : list (RefEvent A) :=
  match it_itemValue tc with
  | Some a => [Py_DECREF_item a]
  | None => []
  end.

(** [Iter_iterNext]: the return value, the context and the releases made.
    [PyIter_Next] on a NULL iterator dereferences it. *)
Definition Iter_iterNext (tc : IterContext A)
    : outcome (bool * IterContext A * list (RefEvent A)) :=
  match it_iterator tc with
  | None => Crash
  | Some [] => Done (false, mkIter None (Some []), Iter_release tc)
  | Some (x :: rest) => Done (true, mkIter (Some x) (Some rest), Iter_release tc)
  end.

(** [Iter_iterEnd] *)
Definition Iter_iterEnd (tc : IterContext A) : IterContext A * list (RefEvent A) :=
  (mkIter None None,
   Iter_release tc ++ match it_iterator tc with
                      | Some _ => [Py_DECREF_iterator]
                      | None => []
                      end).

(** [Iter_iterGetValue] *)
Definition Iter_iterGetValue (tc : IterContext A) : option A := it_itemValue tc.

(** Modelled from the spec: the writer's loop over one array context
    (ultrajsonenc.c is not among the sources): at most [k] calls of
    [iterNext], none after one that returned false, each call that returned
    true followed by [iterGetValue], then [iterEnd].  The result lists the
    values exposed and the releases made, in order. *)
Fixpoint Iter_iterate (k : nat) (tc : IterContext A)
    : outcome (list (option A) * list (RefEvent A)) :=
  match k with
  | O => Done ([], snd (Iter_iterEnd tc))
  | S k' =>
    match Iter_iterNext tc with
    | Done (true, tc', evs) =>
        match Iter_iterate k' tc' with
        | Done (xs, evs') => Done (Iter_iterGetValue tc' :: xs, evs ++ evs')
        | o => o
        end
    | Done (false, tc', evs) => Done ([], evs ++ snd (Iter_iterEnd tc'))
    | Crash => Crash
    | OutOfFuel => OutOfFuel
    end
  end.
End IterDriver.

(** ** Strider: the elements visited *)

(** The addresses of the elements of an array at [p] whose axes, in the
    order they are walked, have the sizes [dims] and the strides [strides]:
    the axis walked last varies fastest. *)
Fixpoint element_addresses (p : Z) (dims strides : list Z) : list Z :=
  match dims, strides with
  | d :: dims', s :: strides' =>
      concat (map (fun j => element_addresses (p + Z.of_nat j * s) dims' strides')
                  (seq 0 (Z.to_nat d)))
  | _, _ => [p]
  end.

(** The axes in the order the strider walks them. *)
Definition walk_order {A : Type} (transpose : bool) (l : list A) : list A :=
  if transpose then rev l else l.

(** The addresses of the elements exposed, in order. *)
Definition leaf_addresses (evs : list StriderEvent) : list Z :=
  omap (fun e => match e with
                 | EvLeaf item _ => Some (item_ptr item)
                 | _ => None
                 end) evs.

(** The leaves of a log, each with the address of its element and the
    position [NpyArr_iterGetName] reads in the column labels after that
    [iterNext]. *)
Definition leaf_cells (evs : list StriderEvent) : list (Z * Z) :=
  omap (fun e => match e with
                 | EvLeaf item n =>
                     Some (item_ptr item, zget (index n) (stridedim n) - 1)
                 | _ => None
                 end) evs.

(** The cells below the element at depth [d], address [p] and position [k]
    on its axis, with [r] axes left to walk. *)
Fixpoint sub_cells (obj : PyArrayObject) (transpose : bool) (d : Z) (r : nat)
    (p k : Z) : list (Z * Z) :=
  match r with
  | O => [(p, k)]
  | S r' =>
      let a := axis transpose (PyArray_NDIM obj - 1) (d + 1) in
      concat (map (fun j => sub_cells obj transpose (d + 1) r'
                              (p + Z.of_nat j * PyArray_STRIDE obj a) (Z.of_nat j))
                  (seq 0 (Z.to_nat (PyArray_DIM obj a))))
  end.

(** The cells a context of the walk has yet to expose: those of the rest of
    its axis. *)
Definition level_cells (obj : PyArrayObject) (transpose : bool) (n : NpyArrContext)
    : list (Z * Z) :=
  concat (map (fun j => sub_cells obj transpose (curdim n)
                          (Z.to_nat (ndim n - curdim n))
                          (dataptr n + Z.of_nat j * stride n)
                          (zget (index n) (stridedim n) + Z.of_nat j))
              (seq 0 (Z.to_nat (dim n - zget (index n) (stridedim n))))).

(** The names written for the leaves of a log, each into an empty buffer. *)
Definition leaf_names (columnLabels rowLabels : list (list byte))
    (evs : list StriderEvent) : list (option (list byte)) :=
  omap (fun e => match e with
                 | EvLeaf _ n =>
                     Some (NpyArr_iterGetName Fn_NpyArr_iterNextItem n
                             columnLabels rowLabels [])
                 | _ => None
                 end) evs.

(** A vector of three 8-byte elements and its labels. *)
Definition array_3 : PyArrayObject := mkArray 2000 [3] [8] 7.

Definition labels_3 : list (list byte) :=
  [label_slice [x22; x61; x22; x00]; label_slice [x22; x62; x22; x00];
   label_slice [x22; x63; x22; x00]].

(** The front of a list up to and including its first element that
    satisfies [bad]. *)
Fixpoint until_raise {A : Type} (bad : A -> bool) (l : list A) : list A :=
  match l with
  | [] => []
  | x :: rest => if bad x then [x] else x :: until_raise bad rest
  end.

(** ** Table driver: the keys of the rows and columns *)

(** Modelled from the spec: the writer's loop over a table it was told is an
    object (ultrajsonenc.c is not among the sources): after each [iterNext]
    that returned true it asks the driver for the name of the item.  The
    children are taken to leave the encoder as it is.  The result lists what
    [DataFrame_iterGetName] returned, in order. *)
Fixpoint DataFrame_names (k : nat) (obj : PyObject) (enc : PyObjectEncoder)
    (tc : TypeContext) (cStr : list byte) (columnLabels : list (list byte))
    : outcome (list (option (list byte))) :=
  match k with
  | O => OutOfFuel
  | S k' =>
    match DataFrame_iterNext obj enc tc with
    | Done (NextItem _ tc') =>
        match DataFrame_names k' obj enc tc' cStr columnLabels with
        | Done names =>
            Done (DataFrame_iterGetName enc (tc_index tc') cStr columnLabels
                  :: names)
        | o => o
        end
    | Done (NextStop _) => Done []
    | Crash => Crash
    | OutOfFuel => OutOfFuel
    end
  end.

(** A table of two rows under INDEX, with the slices of its row labels. *)
Definition two_row_frame : PyObject :=
  PdDataFrame scalar_index scalar_index [PyScalar; PyScalar]
              (Some [series_of PyScalar])
              (Some [series_of PyScalar; series_of PyScalar]).

Definition two_row_labels : list (list byte) :=
  [[x22; x72; x30; x22; x3a; x00]; [x22; x72; x31; x22; x3a; x00]].

(** * Properties *)

(** ** Top-level entry *)

Lemma orient_of_string_None (s : string) :
  s ∉ ["records"; "index"; "split"; "values"; "columns"]%string ->
  orient_of_string s = None.
Proof.
  intros Hs. unfold orient_of_string.
  repeat match goal with
  | |- context [String.eqb s ?k] =>
      destruct (String.eqb_spec s k) as [-> | _];
      [exfalso; apply Hs; set_solver | cbn [negb]]
  end.
  reflexivity.
Qed.

Lemma date_unit_of_string_None (s : string) :
  s ∉ ["s"; "ms"; "us"; "ns"]%string ->
  date_unit_of_string s = None.
Proof.
  intros Hs. unfold date_unit_of_string.
  repeat match goal with
  | |- context [String.eqb s ?k] =>
      destruct (String.eqb_spec s k) as [-> | _];
      [exfalso; apply Hs; set_solver | ]
  end.
  reflexivity.
Qed.

Lemma configure_encoder_rejects {Obj} (MAXD : Z) (a : Args Obj) :
  invalid_option MAXD a ->
  exists e, configure_encoder MAXD a = inl e /\ exc_class e = PyExc_ValueError.
Proof.
  intros Hbad. unfold configure_encoder.
  destruct ((MAXD <? idoublePrecision a) || (idoublePrecision a <? 0)) eqn:Hp.
  { eexists; split; reflexivity. }
  apply orb_false_iff in Hp as [Hp1 Hp2].
  apply Z.ltb_ge in Hp1, Hp2.
  destruct Hbad as [(s & Hs & Hn) | [(s & Hs & Hn) | Hr]].
  - rewrite Hs, (orient_of_string_None s Hn). eexists; split; reflexivity.
  - rewrite Hs, (date_unit_of_string_None s Hn).
    destruct (sOrient a) as [so|]; [destruct (orient_of_string so)|];
      eexists; split; reflexivity.
  - exfalso. apply Hr. lia.
Qed.

Lemma configure_encoder_defaults {Obj} (MAXD : Z) (a : Args Obj) enc :
  configure_encoder MAXD a = inr enc ->
  (sOrient a = None ->
   outputFormat enc = COLUMNS /\ originalOutputFormat enc = COLUMNS) /\
  (sdateFormat a = None -> datetimeUnit enc = NPY_FR_ms).
Proof.
  unfold configure_encoder.
  destruct ((MAXD <? idoublePrecision a) || (idoublePrecision a <? 0)); [discriminate|].
  destruct (sOrient a) as [so|] eqn:Ho, (sdateFormat a) as [sd|] eqn:Hd;
    repeat match goal with
    | |- context [match ?x with _ => _ end] => destruct x eqn:?; try discriminate
    end;
    intros [= <-]; cbn; split; intros; try discriminate; auto; congruence.
Qed.

(** C7: an orient outside {records, index, split, values, columns}, a
    date_unit outside {s, ms, us, ns} or a double_precision outside 0..max
    makes [objToJSON] return NULL with a ValueError before the writer is
    called (the event log is empty, so no output exists); when the options
    are accepted, a missing orient leaves the orientation at COLUMNS and a
    missing date_unit leaves the unit at milliseconds, and the writer is
    called with exactly that encoder. *)
Theorem objToJSON_option_errors {Obj} (MAXD : Z)
    (w : Obj -> PyObjectEncoder -> EncodeResult) (a : Args Obj) :
  (invalid_option MAXD a ->
   exists e, objToJSON MAXD w a = (RetNULL e, []) /\
             exc_class e = PyExc_ValueError) /\
  (forall enc, configure_encoder MAXD a = inr enc ->
     head (snd (objToJSON MAXD w a)) = Some (EvEncode enc) /\
     (sOrient a = None -> outputFormat enc = COLUMNS) /\
     (sdateFormat a = None -> datetimeUnit enc = NPY_FR_ms)).
Proof.
  split.
  - intros Hbad.
    destruct (configure_encoder_rejects MAXD a Hbad) as (e & He & Hc).
    exists e. unfold objToJSON. rewrite He. auto.
  - intros enc Henc.
    destruct (configure_encoder_defaults MAXD a enc Henc) as [Ho Hd].
    unfold objToJSON. rewrite Henc.
    destruct (finish_encode (w (oinput a) enc)) as [v evs]. cbn.
    repeat split; auto. intros H; apply Ho in H; tauto.
Qed.

(** An unknown orient is rejected; with no options the defaults apply. *)
Lemma objToJSON_option_errors_witness :
  (exists e,
     objToJSON 15 (sample_writer (mkEncodeResult StackBuffer [] None None))
               (sample_args (Some "rows"%string) None 10) = (RetNULL e, []) /\
     exc_class e = PyExc_ValueError) /\
  (head (snd (objToJSON 15 (sample_writer (mkEncodeResult StackBuffer [] None None))
                        (sample_args None None 10)))
   = Some (EvEncode (mkEncoder true false 10 (-1) false NPY_FR_ms COLUMNS COLUMNS false)) /\
   (sOrient (sample_args None None 10) = None ->
    outputFormat (mkEncoder true false 10 (-1) false NPY_FR_ms COLUMNS COLUMNS false)
    = COLUMNS) /\
   (sdateFormat (sample_args None None 10) = None ->
    datetimeUnit (mkEncoder true false 10 (-1) false NPY_FR_ms COLUMNS COLUMNS false)
    = NPY_FR_ms)).
Proof.
  split.
  - apply (proj1 (objToJSON_option_errors 15
                    (sample_writer (mkEncodeResult StackBuffer [] None None))
                    (sample_args (Some "rows"%string) None 10))).
    left. exists "rows"%string. split; [reflexivity|].
    intros H. repeat (apply elem_of_cons in H as [H|H]; [discriminate|]).
    inversion H.
  - apply (proj2 (objToJSON_option_errors 15
                    (sample_writer (mkEncodeResult StackBuffer [] None None))
                    (sample_args None None 10))).
    reflexivity.
Defined.

Lemma finish_encode_failure (r : EncodeResult) :
  (PyErr_Occurred r <> None \/ errorMsg r <> None) ->
  call_failed (fst (finish_encode r)) = true /\
  output_text (fst (finish_encode r)) = None.
Proof.
  unfold finish_encode.
  destruct (PyErr_Occurred r), (errorMsg r); cbn; intros [H|H]; auto; congruence.
Qed.

Lemma finish_encode_errorMsg_frees (r : EncodeResult) msg :
  PyErr_Occurred r = None -> errorMsg r = Some msg -> ret r <> StackBuffer ->
  snd (finish_encode r) = [EvFree (ret r)].
Proof.
  unfold finish_encode. intros -> -> Hne. cbn.
  destruct (decide (ret r = StackBuffer)); congruence.
Qed.

(** C9: when the writer reports a failure through its [errorMsg] slot and no
    Python exception is pending, [objToJSON] raises OverflowError carrying
    that message, whatever the message (and so whatever kind of failure
    produced it). *)
Theorem objToJSON_errorMsg_is_overflow {Obj} (MAXD : Z)
    (w : Obj -> PyObjectEncoder -> EncodeResult) (a : Args Obj)
    (enc : PyObjectEncoder) (msg : string) :
  configure_encoder MAXD a = inr enc ->
  PyErr_Occurred (w (oinput a) enc) = None ->
  errorMsg (w (oinput a) enc) = Some msg ->
  fst (objToJSON MAXD w a) = RetNULL (mkPyErr PyExc_OverflowError msg).
Proof.
  intros Hc Hp Hm. unfold objToJSON. rewrite Hc.
  unfold finish_encode. rewrite Hp, Hm. reflexivity.
Qed.

(** A writer that could not reserve memory: OverflowError. *)
Lemma objToJSON_errorMsg_is_overflow_witness :
  fst (objToJSON 15
         (sample_writer (mkEncodeResult NullPtr [] None
                           (Some "Could not reserve memory block"%string)))
         (sample_args None None 10))
  = RetNULL (mkPyErr PyExc_OverflowError "Could not reserve memory block").
Proof.
  apply (objToJSON_errorMsg_is_overflow 15
           (sample_writer (mkEncodeResult NullPtr [] None
                             (Some "Could not reserve memory block"%string)))
           (sample_args None None 10)
           (mkEncoder true false 10 (-1) false NPY_FR_ms COLUMNS COLUMNS false));
    reflexivity.
Defined.

(** C2 at its failing input: the writer hands back a heap block and a Python
    exception is pending (here the OverflowError of an integer that does not
    fit), with the writer's [errorMsg] unset.  [objToJSON] returns NULL and
    no text, but the event log holds no [EvFree]: the block is not released,
    unlike on the [errorMsg] path and on the success path. *)
Theorem objToJSON_pending_exception_keeps_heap_block :
  let enc := mkEncoder true false 10 (-1) false NPY_FR_ms COLUMNS COLUMNS false in
  let r := mkEncodeResult HeapBuffer [x5b; x31; x2c] (Some overflow_error) None in
  objToJSON 15 (sample_writer r) (sample_args None None 10)
  = (RetNULL overflow_error, [EvEncode enc]) /\
  (EvFree HeapBuffer ∉ snd (objToJSON 15 (sample_writer r) (sample_args None None 10))) /\
  snd (finish_encode (mkEncodeResult HeapBuffer [x5b; x31; x2c] None
                        (Some "Could not reserve memory block"%string)))
  = [EvFree HeapBuffer] /\
  snd (finish_encode (mkEncodeResult HeapBuffer [x5b; x31; x5d] None None))
  = [EvFree HeapBuffer].
Proof.
  cbn. repeat split.
  intros H. apply elem_of_cons in H as [H|H]; [discriminate|inversion H].
Qed.

(** ** Table driver and orientation *)

Lemma DataFrame_iterBegin_snapshot obj enc tc :
  originalOutputFormat (fst (DataFrame_iterBegin obj enc tc)) = outputFormat enc.
Proof.
  unfold DataFrame_iterBegin.
  repeat (case_decide || case_match); reflexivity.
Qed.

Lemma DataFrame_iterBegin_split obj enc tc :
  outputFormat enc = SPLIT ->
  outputFormat (fst (DataFrame_iterBegin obj enc tc)) = VALUES.
Proof.
  intros H. unfold DataFrame_iterBegin. cbn. rewrite H.
  rewrite decide_True by reflexivity. reflexivity.
Qed.

Lemma DataFrame_iterBegin_records cols idx vals its rows l enc tc :
  outputFormat enc = RECORDS -> rows = Some l ->
  outputFormat (fst (DataFrame_iterBegin (PdDataFrame cols idx vals its rows) enc tc))
  = INDEX.
Proof.
  intros H ->. unfold DataFrame_iterBegin. cbn. rewrite H. reflexivity.
Qed.

Lemma DataFrame_iterEnd_restores enc tc enc' :
  DataFrame_iterEnd enc tc = Done enc' ->
  outputFormat enc' = originalOutputFormat enc /\
  originalOutputFormat enc' = originalOutputFormat enc.
Proof.
  unfold DataFrame_iterEnd.
  repeat (case_decide || case_match); intros [= <-]; auto.
Qed.

(** A table of scalars is encoded, under each of the five orientations, with
    the encoder unchanged afterwards. *)
Example encode_flat_frame (fmt : PANDAS_FORMAT) :
  encode 10 (encoder_with fmt) flat_frame = Done (encoder_with fmt).
Proof. destruct fmt; reflexivity. Qed.

(** A sequence driver over table-free items leaves the encoder alone, as
    long as each item does. *)
Lemma iterate_sequence child d obj k enc tc enc' :
  d = List_iter \/ d = NpyArr_iter ->
  (forall x e, x ∈ tc_seq tc -> child enc x = Done e -> e = enc) ->
  iterate child d obj k enc tc = Done enc' ->
  enc' = enc.
Proof.
  intros Hd. revert tc. induction k as [|k IH]; intros tc Hch; cbn; [discriminate|].
  assert (iterNext d obj enc tc = Done (List_iterNext tc)) as ->
      by (destruct Hd as [-> | ->]; reflexivity).
  unfold List_iterNext.
  destruct (tc_seq tc !! Z.to_nat (tc_index tc)) as [x|] eqn:Hx.
  - destruct (child enc x) as [e| |] eqn:He; try discriminate.
    apply Hch in He; [|eapply list_elem_of_lookup_2; eassumption]. subst e.
    apply IH. exact Hch.
  - destruct Hd as [-> | ->]; cbn; congruence.
Qed.

Lemma forallb_elem_of {A} (f : A -> bool) l x :
  forallb f l = true -> x ∈ l -> f x = true.
Proof.
  intros H Hx. rewrite forallb_forall in H. apply H.
  apply list_elem_of_In. exact Hx.
Qed.

(** Outside SPLIT orientation, encoding an object that holds no table does
    not change the encoder at all. *)
Lemma encode_frame_free fuel : forall enc obj enc',
  frame_free obj = true -> outputFormat enc <> SPLIT ->
  encode fuel enc obj = Done enc' -> enc' = enc.
Proof.
  induction fuel as [|f IH]; intros enc obj enc' Hff Hfmt; cbn; [discriminate|].
  assert (Hseq : forall d l, (d = List_iter \/ d = NpyArr_iter) ->
            forallb frame_free l = true ->
            iterate (encode f) d obj f enc (mkTC 0 false None l) = Done enc' ->
            enc' = enc).
  { intros d l Hd Hl. apply iterate_sequence; [exact Hd|].
    cbn. intros x e Hx He.
    eapply IH; [eapply forallb_elem_of; eassumption | exact Hfmt | exact He]. }
  destruct obj as [|l|l|n vs|n i vs|]; cbn in Hff |- *; try discriminate.
  - congruence.
  - apply Hseq; auto.
  - apply Hseq; auto.
  - rewrite decide_False by exact Hfmt. cbn.
    apply andb_true_iff in Hff as [_ Hvs]. apply Hseq; auto.
  - rewrite decide_False by exact Hfmt.
    apply andb_true_iff in Hff as [_ Hvs].
    case_decide; cbn; apply Hseq; auto.
Qed.

Lemma DataFrame_iterBegin_not_split obj enc tc :
  outputFormat (fst (DataFrame_iterBegin obj enc tc)) <> SPLIT.
Proof.
  unfold DataFrame_iterBegin.
  repeat (case_decide || case_match); cbn in *; congruence.
Qed.

Lemma iterate_flat_table f cols idx vals its rows k enc tc enc' :
  frame_free cols = true -> frame_free idx = true ->
  forallb frame_free vals = true ->
  outputFormat enc <> SPLIT -> frame_rows_free tc ->
  iterate (encode f) DataFrame_iter (PdDataFrame cols idx vals its rows) k enc tc
  = Done enc' ->
  outputFormat enc' = originalOutputFormat enc /\
  originalOutputFormat enc' = originalOutputFormat enc.
Proof.
  intros Hc Hi Hv Hfmt. revert tc.
  induction k as [|k IH]; intros tc Hrows; cbn; [discriminate|].
  assert (Hchild : forall x tc', frame_free x = true -> frame_rows_free tc' ->
            match encode f enc x with
            | Done e => iterate (encode f) DataFrame_iter
                          (PdDataFrame cols idx vals its rows) k e tc'
            | o => o
            end = Done enc' ->
            outputFormat enc' = originalOutputFormat enc /\
            originalOutputFormat enc' = originalOutputFormat enc).
  { intros x tc' Hx Htc'. destruct (encode f enc x) as [e| |] eqn:He; try discriminate.
    apply encode_frame_free in He; auto. subst e. apply IH. exact Htc'. }
  assert (Hbump : frame_rows_free (bump tc)) by exact Hrows.
  repeat case_decide.
  - destruct (tc_cStr tc); [|discriminate]. apply Hchild; auto.
  - destruct (tc_cStr tc); [|discriminate]. apply Hchild; auto.
  - destruct (tc_cStr tc); [|discriminate]. apply Hchild; auto.
  - apply DataFrame_iterEnd_restores.
  - destruct (tc_frame tc) as [[|x rest]|] eqn:Hfr; try discriminate.
    + apply DataFrame_iterEnd_restores.
    + specialize (Hrows _ Hfr). cbn in Hrows.
      apply andb_true_iff in Hrows as [Hx Hrest].
      apply Hchild; auto.
      intros l [= <-]. exact Hrest.
Qed.

(** A table whose labels, cells, rows and columns hold no table is encoded
    with the orientation back at its snapshot afterwards. *)
Lemma encode_flat_table fuel enc cols idx vals its rows enc' :
  frame_free cols = true -> frame_free idx = true ->
  forallb frame_free vals = true ->
  (forall l, its = Some l -> forallb frame_free l = true) ->
  (forall l, rows = Some l -> forallb frame_free l = true) ->
  encode fuel enc (PdDataFrame cols idx vals its rows) = Done enc' ->
  outputFormat enc' = outputFormat enc /\
  originalOutputFormat enc' = outputFormat enc.
Proof.
  intros Hc Hi Hv Hits Hrows.
  destruct fuel as [|f]; cbn -[DataFrame_iterBegin]; [discriminate|].
  intros H. apply iterate_flat_table in H; auto.
  - rewrite DataFrame_iterBegin_snapshot in H. exact H.
  - apply DataFrame_iterBegin_not_split.
  - unfold frame_rows_free, DataFrame_iterBegin. cbn.
    repeat (case_decide || case_match); cbn; intros l0 [= <-]; subst; auto;
      discriminate.
Qed.

Lemma obj_size_pos obj : (1 <= obj_size obj)%nat.
Proof. destruct obj; cbn; lia. Qed.

Lemma sum_list_elem (l : list PyObject) x :
  x ∈ l -> (obj_size x <= sum_list (map obj_size l))%nat.
Proof.
  induction l as [|y l IH]; intros H; [inversion H|].
  apply elem_of_cons in H as [->|H]; cbn; [lia|]. specialize (IH H). lia.
Qed.

Lemma sum_list_length (l : list PyObject) :
  (length l <= sum_list (map obj_size l))%nat.
Proof.
  induction l as [|y l IH]; cbn; [lia|]. pose proof (obj_size_pos y). lia.
Qed.

(** A sequence driver ends when its items do. *)
Lemma iterate_sequence_total child d obj enc : forall k tc,
  d = List_iter \/ d = NpyArr_iter ->
  (forall x, x ∈ tc_seq tc -> child enc x = Done enc) ->
  0 <= tc_index tc ->
  (length (tc_seq tc) - Z.to_nat (tc_index tc) < k)%nat ->
  iterate child d obj k enc tc = Done enc.
Proof.
  induction k as [|k IH]; intros tc Hd Hch Hi Hk; [lia|]. cbn.
  assert (iterNext d obj enc tc = Done (List_iterNext tc)) as ->
      by (destruct Hd as [-> | ->]; reflexivity).
  unfold List_iterNext.
  destruct (tc_seq tc !! Z.to_nat (tc_index tc)) as [x|] eqn:Hx.
  - rewrite (Hch x (list_elem_of_lookup_2 _ _ _ Hx)).
    apply lookup_lt_Some in Hx.
    apply IH; auto; cbn; lia.
  - destruct Hd as [-> | ->]; reflexivity.
Qed.

(** Outside SPLIT orientation, an object that holds no table is encoded, with
    fuel above its size, and the encoder is unchanged. *)
Lemma encode_frame_free_total fuel : forall enc obj,
  frame_free obj = true -> outputFormat enc <> SPLIT ->
  (obj_size obj < fuel)%nat ->
  encode fuel enc obj = Done enc.
Proof.
  induction fuel as [|f IH]; intros enc obj Hff Hfmt Hsz; [lia|].
  assert (Hseq : forall d l, (d = List_iter \/ d = NpyArr_iter) ->
            forallb frame_free l = true ->
            (sum_list (map obj_size l) < f)%nat ->
            iterate (encode f) d obj f enc (mkTC 0 false None l) = Done enc).
  { intros d l Hd Hl Hlt. apply iterate_sequence_total; cbn; auto; try lia.
    - intros x Hx. apply IH; auto.
      + eapply forallb_elem_of; eassumption.
      + pose proof (sum_list_elem l x Hx). lia.
    - pose proof (sum_list_length l). lia. }
  destruct obj as [|l|l|n vs|n i vs|]; cbn in Hff, Hsz |- *; try discriminate.
  - reflexivity.
  - apply Hseq; auto; lia.
  - apply Hseq; auto; lia.
  - rewrite decide_False by exact Hfmt. cbn.
    apply andb_true_iff in Hff as [_ Hvs]. apply Hseq; auto; lia.
  - rewrite decide_False by exact Hfmt.
    apply andb_true_iff in Hff as [_ Hvs].
    case_decide; cbn; apply Hseq; auto; lia.
Qed.

(** The table driver over an iterable of table-free rows or columns runs to
    its end and restores the orientation from the saved slot. *)
Lemma iterate_rows_total f obj enc : forall l k tc,
  (exists c i v its rows, obj = PdDataFrame c i v its rows) ->
  originalOutputFormat enc <> SPLIT -> outputFormat enc <> SPLIT ->
  tc_frame tc = Some l -> forallb frame_free l = true ->
  (sum_list (map obj_size l) < f)%nat -> (length l < k)%nat ->
  iterate (encode f) DataFrame_iter obj k enc tc
  = Done (set_outputFormat (originalOutputFormat enc) enc).
Proof.
  induction l as [|x rest IH]; intros k tc Hobj Ho Hfmt Hfr Hff Hsz Hk;
    (destruct k as [|k]; [cbn in Hk; lia|]);
    destruct Hobj as (c & i & v & its & rows & ->); cbn;
    rewrite decide_False by exact Ho; rewrite Hfr.
  - unfold DataFrame_iterEnd. rewrite decide_False by exact Ho. rewrite Hfr. reflexivity.
  - cbn in Hff, Hsz, Hk. apply andb_true_iff in Hff as [Hx Hrest].
    rewrite (encode_frame_free_total f enc x Hx Hfmt ltac:(lia)).
    apply IH; eauto 10; cbn; lia.
Qed.

(** Under a saved SPLIT orientation the table driver exposes its three
    attributes and ends. *)
Lemma iterate_split_total f cols idx vals its rows enc fr sq k :
  frame_free cols = true -> frame_free idx = true ->
  forallb frame_free vals = true ->
  originalOutputFormat enc = SPLIT -> outputFormat enc <> SPLIT ->
  (obj_size cols < f)%nat -> (obj_size idx < f)%nat ->
  (obj_size (NdArray vals) < f)%nat -> (4 <= k)%nat ->
  iterate (encode f) DataFrame_iter (PdDataFrame cols idx vals its rows) k enc
          (mkTC 0 true fr sq)
  = Done (set_outputFormat SPLIT enc).
Proof.
  intros Hc Hi Hv Ho Hfmt Hsc Hsi Hsv Hk.
  destruct k as [|[|[|[|k]]]]; try lia.
  cbn [iterate iterNext DataFrame_iterNext tc_index tc_cStr bump].
  rewrite !(decide_True (P := originalOutputFormat enc = SPLIT)) by exact Ho.
  rewrite (decide_True (P := 0 = 0)) by reflexivity.
  rewrite (encode_frame_free_total f enc cols Hc Hfmt Hsc).
  cbn [iterate iterNext DataFrame_iterNext tc_index tc_cStr bump].
  rewrite !(decide_True (P := originalOutputFormat enc = SPLIT)) by exact Ho.
  rewrite (decide_False (P := 0 + 1 = 0)) by lia.
  rewrite (decide_True (P := 0 + 1 = 1)) by reflexivity.
  rewrite (encode_frame_free_total f enc idx Hi Hfmt Hsi).
  cbn [iterate iterNext DataFrame_iterNext tc_index tc_cStr bump].
  rewrite !(decide_True (P := originalOutputFormat enc = SPLIT)) by exact Ho.
  rewrite (decide_False (P := 0 + 1 + 1 = 0)) by lia.
  rewrite (decide_False (P := 0 + 1 + 1 = 1)) by lia.
  rewrite (decide_True (P := 0 + 1 + 1 = 2)) by reflexivity.
  rewrite (encode_frame_free_total f enc (NdArray vals) Hv Hfmt Hsv).
  cbn [iterate iterNext DataFrame_iterNext tc_index tc_cStr bump].
  rewrite !(decide_True (P := originalOutputFormat enc = SPLIT)) by exact Ho.
  rewrite (decide_False (P := 0 + 1 + 1 + 1 = 0)) by lia.
  rewrite (decide_False (P := 0 + 1 + 1 + 1 = 1)) by lia.
  rewrite (decide_False (P := 0 + 1 + 1 + 1 = 2)) by lia.
  cbn [iterEnd]. unfold DataFrame_iterEnd.
  rewrite decide_True by exact Ho. rewrite Ho. reflexivity.
Qed.

(** A table whose labels, cells, rows and columns hold no table, and whose
    [items] and [iterrows] calls succeed, is encoded with fuel above its
    size, under every orientation, and afterwards the orientation is the one
    it was entered with. *)
Lemma encode_flat_table_total fuel enc cols idx vals its rows li lr :
  frame_free cols = true -> frame_free idx = true ->
  forallb frame_free vals = true ->
  its = Some li -> rows = Some lr ->
  forallb frame_free li = true -> forallb frame_free lr = true ->
  (obj_size (PdDataFrame cols idx vals its rows) < fuel)%nat ->
  exists enc',
    encode fuel enc (PdDataFrame cols idx vals its rows) = Done enc' /\
    outputFormat enc' = outputFormat enc /\
    originalOutputFormat enc' = outputFormat enc.
Proof.
  intros Hc Hi Hv -> -> Hli Hlr Hsz.
  destruct fuel as [|f]; [lia|]. cbn in Hsz.
  pose proof (sum_list_length li). pose proof (sum_list_length lr).
  cbn [encode dispatch_container iterBegin].
  destruct (decide (outputFormat enc = SPLIT)) as [Hs|Hs].
  - (* SPLIT: three fixed items, then the end *)
    unfold DataFrame_iterBegin. cbn [outputFormat set_originalOutputFormat].
    rewrite decide_True by exact Hs.
    cbn [fst snd tc_index tc_frame tc_seq tc_cStr createTypeContext].
    eexists. split.
    + apply iterate_split_total; auto; cbn; try lia; try discriminate.
    + cbn. auto.
  - (* the other orientations: the rows or the columns *)
    unfold DataFrame_iterBegin. cbn [outputFormat set_originalOutputFormat].
    rewrite decide_False by exact Hs.
    destruct (decide (outputFormat enc = COLUMNS)) as [Hcol|Hcol];
      destruct (decide (outputFormat enc = RECORDS)) as [Hrec|Hrec];
      try congruence; cbn [fst snd]; eexists;
      (split;
       [eapply iterate_rows_total;
        [eauto 10 | cbn; auto | cbn; try discriminate; auto
        | reflexivity | eassumption | lia | lia]
       | cbn; auto]).
Qed.

(** C3 at its failing input: a table holding a table in an object cell.
    Under RECORDS the outer driver snapshots RECORDS and forces INDEX; the
    inner table's begin overwrites the saved slot with INDEX, so after the
    outer end the orientation is INDEX, not the snapshot.  Under SPLIT the
    inner begin overwrites the slot with VALUES and the outer driver's next
    call reads its iterable through the NULL [frame] pointer. *)
Theorem DataFrame_nested_table_loses_snapshot :
  originalOutputFormat
    (fst (DataFrame_iterBegin nested_frame (encoder_with RECORDS) createTypeContext))
  = RECORDS /\
  outputFormat
    (fst (DataFrame_iterBegin nested_frame (encoder_with RECORDS) createTypeContext))
  = INDEX /\
  (exists enc',
     encode 10 (encoder_with RECORDS) nested_frame = Done enc' /\
     outputFormat enc' = INDEX /\
     outputFormat enc' <> outputFormat (encoder_with RECORDS)) /\
  encode 10 (encoder_with SPLIT) nested_frame = Crash.
Proof.
  repeat split; try reflexivity.
  eexists. split; [reflexivity|]. split; [reflexivity|]. discriminate.
Qed.

(** ** Strider *)

Example walk_2x3_leaves :
  option_map (fun r => (leaves (fst r), snd r))
             (NpyArr_encode (fun _ => false) 20 array_2x3 false zero_index)
  = Some (6, false).
Proof. vm_compute. reflexivity. Qed.

Example walk_2x3_transposed_ptrs :
  option_map (fun r => map (fun e => match e with EvLeaf i _ => item_ptr i | _ => -1 end)
                        (filter (fun e => is_leaf e = true) (fst r)))
             (NpyArr_encode (fun _ => false) 20 array_2x3 true zero_index)
  = Some [1000; 1024; 1008; 1032; 1016; 1040].
Proof. vm_compute. reflexivity. Qed.

Example walk_2x3x2_leaves :
  option_map (fun r => leaves (fst r))
             (NpyArr_encode (fun _ => false) 20 array_2x3x2 true zero_index)
  = Some 12.
Proof. vm_compute. reflexivity. Qed.

(** A leaf whose encoding raises cuts the walk short: the later [iterNext]
    calls return 0 and the walk ends with the error pending. *)
Example walk_2x3_aborted :
  option_map (fun r => (leaves (fst r), snd r))
             (NpyArr_encode (raises_at 1008) 20 array_2x3 false zero_index)
  = Some (2, true).
Proof. vm_compute. reflexivity. Qed.

Lemma zget_zset_eq l i v :
  0 <= i < Z.of_nat (length l) -> zget (zset l i v) i = v.
Proof.
  intros H. unfold zget, zset.
  destruct (i <? 0) eqn:E; [apply Z.ltb_lt in E; lia|].
  rewrite list_lookup_insert_eq by lia. reflexivity.
Qed.

Lemma zget_zset_ne l i j v : i <> j -> zget (zset l i v) j = zget l j.
Proof.
  intros H. unfold zget, zset.
  destruct (j <? 0) eqn:Ej; [reflexivity|].
  destruct (i <? 0) eqn:Ei; [reflexivity|].
  apply Z.ltb_ge in Ej, Ei.
  rewrite list_lookup_insert_ne by lia. reflexivity.
Qed.

Lemma length_zset l i v : length (zset l i v) = length l.
Proof. unfold zset. destruct (i <? 0); [reflexivity|apply length_insert]. Qed.

Lemma zget_nonneg l i : Forall (fun d => 0 <= d) l -> 0 <= zget l i.
Proof.
  intros H. unfold zget. destruct (i <? 0); [lia|].
  destruct (l !! Z.to_nat i) as [x|] eqn:E; cbn; [|lia].
  rewrite Forall_forall in H. apply (H x).
  eapply list_elem_of_lookup_2; eassumption.
Qed.

Lemma sum_upto_ext n f g :
  (forall j, 0 <= j < Z.of_nat n -> f j = g j) -> sum_upto n f = sum_upto n g.
Proof.
  induction n as [|n IH]; intros H; cbn; [reflexivity|].
  rewrite IH by (intros; apply H; lia). rewrite H by lia. reflexivity.
Qed.

Lemma axis_inj tr nd i j : axis tr nd i = axis tr nd j -> i = j.
Proof. unfold axis. destruct tr; lia. Qed.

Lemma axis_range tr nd d : 0 <= d <= nd -> 0 <= axis tr nd d <= nd.
Proof. unfold axis. destruct tr; lia. Qed.

Lemma outer_offset_ext tr n' n :
  array n' = array n -> ndim n' = ndim n -> curdim n' = curdim n ->
  (forall j, 0 <= j < curdim n ->
     zget (index n') (axis tr (ndim n) j) = zget (index n) (axis tr (ndim n) j)) ->
  outer_offset tr n' = outer_offset tr n.
Proof.
  intros Ha Hn Hc Hj. unfold outer_offset. rewrite Ha, Hn, Hc.
  apply sum_upto_ext. intros j Hr. rewrite Hj by lia. reflexivity.
Qed.

Lemma leaves_leaf item n evs : leaves (EvLeaf item n :: evs) = 1 + leaves evs.
Proof. unfold leaves. rewrite filter_cons_True by reflexivity. cbn [length]. lia. Qed.

Lemma leaves_descend n1 evs1 n3 evs2 :
  leaves (EvDescend n1 :: evs1 ++ EvPop n3 :: evs2) = leaves evs1 + leaves evs2.
Proof.
  unfold leaves. rewrite filter_cons_False by (cbn; discriminate).
  rewrite filter_app, filter_cons_False by (cbn; discriminate).
  rewrite length_app. lia.
Qed.

Section StriderInvariant.
Variable obj : PyArrayObject.
Variable tr : bool.
Hypothesis Hwf : wf_array obj.

Lemma dim_nonneg i : 0 <= PyArray_DIM obj i.
Proof. apply zget_nonneg. apply Hwf. Qed.

Lemma NpyArr_iterBegin_inv garbage :
  Z.of_nat (length garbage) = NPY_MAXDIMS ->
  strider_inv obj tr (NpyArr_iterBegin obj tr garbage).
Proof.
  intros Hlen. destruct Hwf as [Hnd _].
  unfold NpyArr_iterBegin.
  destruct tr; constructor; unfold outer_offset; cbn; rewrite ?length_zset;
    try reflexivity; try lia; try (intros; lia);
    rewrite ?zget_zset_eq by lia; try (split; [lia|apply dim_nonneg]);
    change (Z.to_nat 0) with O; cbn [sum_upto]; lia.
Qed.

(** Leaf step. *)
Lemma NpyArr_iterNextItem_inv n item n1 :
  strider_inv obj tr n ->
  NpyArr_iterNextItem false n = (Some item, n1) ->
  strider_inv obj tr n1 /\ curdim n1 = curdim n /\
  zget (index n1) (stridedim n) = zget (index n) (stridedim n) + 1 /\
  zget (index n) (stridedim n) < dim n /\
  (forall j, 0 <= j < curdim n ->
     zget (index n1) (axis tr (ndim n) j) = zget (index n) (axis tr (ndim n) j)).
Proof.
  intros [Ha Hn Hi Hc Hs Hd Hst Hl Hix Ho Hp]. unfold NpyArr_iterNextItem. cbn.
  destruct (dim n <=? zget (index n) (stridedim n)) eqn:E; [discriminate|].
  apply Z.leb_gt in E. intros [= _ <-]. cbn.
  assert (Hsd : 0 <= stridedim n < Z.of_nat (length (index n))).
  { rewrite Hs. pose proof (axis_range tr (ndim n) (curdim n) Hc). lia. }
  assert (Hne : forall j, 0 <= j < curdim n -> stridedim n <> axis tr (ndim n) j).
  { intros j Hj Heq. rewrite Hs in Heq. apply axis_inj in Heq. lia. }
  split; [|split; [reflexivity|split; [apply zget_zset_eq; exact Hsd|split; [exact E|]]]].
  - constructor; cbn; rewrite ?length_zset; auto.
    + rewrite zget_zset_eq by exact Hsd. lia.
    + intros j Hj. rewrite zget_zset_ne by (apply Hne; exact Hj). apply Ho. exact Hj.
    + rewrite zget_zset_eq by exact Hsd. rewrite Hp.
      match goal with
      | |- _ = _ + outer_offset tr ?m =>
          rewrite (outer_offset_ext tr m n); [ring|reflexivity..|]
      end.
      intros j Hj. cbn. apply zget_zset_ne, Hne, Hj.
  - intros j Hj. apply zget_zset_ne. apply Hne. exact Hj.
Qed.

(** Descent step. *)
Lemma NpyArr_iterNext_descend n :
  strider_inv obj tr n ->
  curdim n < ndim n -> zget (index n) (stridedim n) < dim n ->
  exists n1,
    NpyArr_iterNext false n = (Fn_NpyArr_iterNext, Some ItemArray, n1) /\
    strider_inv obj tr n1 /\ curdim n1 = curdim n + 1 /\
    zget (index n1) (stridedim n1) = 0 /\
    zget (index n1) (stridedim n) = zget (index n) (stridedim n) + 1 /\
    (forall j, 0 <= j < curdim n ->
       zget (index n1) (axis tr (ndim n) j) = zget (index n) (axis tr (ndim n) j)).
Proof.
  intros [Ha Hn Hi Hc Hs Hd Hst Hl Hix Ho Hp] Hdeep Hlt.
  unfold NpyArr_iterNext. cbn.
  destruct (ndim n <=? curdim n) eqn:E1; [apply Z.leb_le in E1; lia|].
  destruct (dim n <=? zget (index n) (stridedim n)) eqn:E2;
    [apply Z.leb_le in E2; lia|].
  cbn. eexists. split; [reflexivity|]. cbn.
  assert (Hnext : stridedim n + inc n = axis tr (ndim n) (curdim n + 1)).
  { rewrite Hs, Hi. unfold axis. destruct tr; lia. }
  assert (Hsd : 0 <= stridedim n < Z.of_nat (length (index n))).
  { rewrite Hs. pose proof (axis_range tr (ndim n) (curdim n) Hc). lia. }
  assert (Hsd' : 0 <= stridedim n + inc n < Z.of_nat (length (index n))).
  { rewrite Hnext.
    pose proof (axis_range tr (ndim n) (curdim n + 1) ltac:(lia)). lia. }
  assert (Hne : stridedim n + inc n <> stridedim n) by (rewrite Hi; destruct tr; lia).
  assert (Hne1 : forall j, 0 <= j < curdim n -> stridedim n <> axis tr (ndim n) j).
  { intros j Hj Heq. rewrite Hs in Heq. apply axis_inj in Heq. lia. }
  assert (Hne2 : forall j, 0 <= j < curdim n ->
                   stridedim n + inc n <> axis tr (ndim n) j).
  { intros j Hj Heq. rewrite Hnext in Heq. apply axis_inj in Heq. lia. }
  assert (Hkeep : forall j, 0 <= j < curdim n ->
            zget (zset (zset (index n) (stridedim n)
                             (zget (index n) (stridedim n) + 1))
                       (stridedim n + inc n) 0) (axis tr (ndim n) j)
            = zget (index n) (axis tr (ndim n) j)).
  { intros j Hj. rewrite zget_zset_ne by (apply Hne2, Hj).
    apply zget_zset_ne, Hne1, Hj. }
  assert (Hcur : zget (zset (zset (index n) (stridedim n)
                                  (zget (index n) (stridedim n) + 1))
                            (stridedim n + inc n) 0) (stridedim n)
                 = zget (index n) (stridedim n) + 1).
  { rewrite zget_zset_ne by exact Hne. apply zget_zset_eq, Hsd. }
  assert (Hnew : zget (zset (zset (index n) (stridedim n)
                                  (zget (index n) (stridedim n) + 1))
                            (stridedim n + inc n) 0) (stridedim n + inc n) = 0).
  { apply zget_zset_eq. rewrite length_zset. exact Hsd'. }
  split; [|repeat split; auto].
  constructor; cbn; rewrite ?length_zset; auto; try lia.
  - rewrite Ha. reflexivity.
  - rewrite Ha. reflexivity.
  - rewrite Hnew. split; [lia|]. rewrite Ha. apply dim_nonneg.
  - intros j Hj. destruct (decide (j = curdim n)) as [->|Hjc].
    + rewrite <- Hs, Hcur. split; [lia|]. rewrite <- Hd. lia.
    + rewrite Hkeep by lia. apply Ho. lia.
  - rewrite Hnew, Hp. unfold outer_offset at 2. cbn.
    replace (Z.to_nat (curdim n + 1)) with (S (Z.to_nat (curdim n))) by lia.
    cbn [sum_upto]. rewrite Z2Nat.id by lia. rewrite <- Hs, Hcur.
    match goal with
    | |- _ = _ + (sum_upto ?k ?f + _) =>
        rewrite (sum_upto_ext k f
                   (fun j => PyArray_STRIDE (array n) (axis tr (ndim n) j)
                             * (zget (index n) (axis tr (ndim n) j) - 1)))
    end.
    + unfold outer_offset. rewrite Hst, Ha. ring.
    + intros j Hj. rewrite Hkeep by lia. reflexivity.
Qed.

(** Level pop. *)
Lemma NpyArrPassThru_iterEnd_inv n :
  strider_inv obj tr n -> 1 <= curdim n ->
  strider_inv obj tr (NpyArrPassThru_iterEnd n) /\
  curdim (NpyArrPassThru_iterEnd n) = curdim n - 1 /\
  index (NpyArrPassThru_iterEnd n) = index n.
Proof.
  intros [Ha Hn Hi Hc Hs Hd Hst Hl Hix Ho Hp] Hge.
  assert (Hprev : stridedim n - inc n = axis tr (ndim n) (curdim n - 1)).
  { rewrite Hs, Hi. unfold axis. destruct tr; lia. }
  split; [|split; reflexivity].
  unfold NpyArrPassThru_iterEnd.
  constructor; cbn; auto; try lia.
  - rewrite Ha. reflexivity.
  - rewrite Ha. reflexivity.
  - rewrite Hprev, Ha. specialize (Ho (curdim n - 1) ltac:(lia)). lia.
  - intros j Hj. apply Ho. lia.
  - rewrite Hp. unfold outer_offset. cbn.
    replace (Z.to_nat (curdim n)) with (S (Z.to_nat (curdim n - 1))) by lia.
    cbn [sum_upto]. rewrite Z2Nat.id by lia. rewrite <- Hprev, Ha. ring.
Qed.

(** Whatever [iterNext] does, it stops without touching the strider,
    takes a leaf, or goes one level down. *)
Lemma Object_iterNext_npy_cases fn pyerr n :
  strider_inv obj tr n ->
  match Object_iterNext_npy fn pyerr n with
  | (_, None, n1) => n1 = n
  | (fn', Some ItemArray, n1) =>
      fn' = Fn_NpyArr_iterNext /\ strider_inv obj tr n1 /\
      curdim n1 = curdim n + 1
  | (fn', Some _, n1) =>
      fn' = Fn_NpyArr_iterNextItem /\ strider_inv obj tr n1 /\
      curdim n1 = curdim n
  end.
Proof.
  intros Hinv.
  assert (Hleaf : match NpyArr_iterNextItem pyerr n with
                  | (None, n1) => n1 = n
                  | (Some ItemArray, n1) => False
                  | (Some _, n1) => strider_inv obj tr n1 /\ curdim n1 = curdim n
                  end).
  { destruct pyerr; [reflexivity|].
    destruct (NpyArr_iterNextItem false n) as [[item|] n1] eqn:E.
    - pose proof (NpyArr_iterNextItem_inv n item n1 Hinv E) as (H1 & H2 & _).
      unfold NpyArr_iterNextItem in E. cbn in E.
      destruct (dim n <=? zget (index n) (stridedim n)); [discriminate|].
      destruct (PyTypeNum_ISDATETIME (PyArray_TYPE (array n)));
        injection E as <- <-; auto.
    - unfold NpyArr_iterNextItem in E. cbn in E.
      destruct (dim n <=? zget (index n) (stridedim n)); congruence. }
  destruct fn; cbn.
  - unfold NpyArr_iterNext. destruct pyerr; [reflexivity|].
    destruct ((ndim n <=? curdim n) || (dim n <=? zget (index n) (stridedim n)))
      eqn:E.
    + destruct (NpyArr_iterNextItem false n) as [[[p|p|]|] n1]; cbn; tauto.
    + apply orb_false_iff in E as [E1 E2]. apply Z.leb_gt in E1, E2.
      destruct (NpyArr_iterNext_descend n Hinv E1 E2) as (n1 & Hn1 & Hi1 & Hc1 & _).
      unfold NpyArr_iterNext in Hn1. cbn in Hn1.
      apply Z.leb_gt in E1, E2. rewrite E1, E2 in Hn1. cbn in Hn1.
      injection Hn1 as <-. auto.
  - destruct (NpyArr_iterNextItem pyerr n) as [[[p|p|]|] n1]; cbn; tauto.
Qed.

Lemma walk_invariant raises fuel : forall fn pyerr n evs pe n',
  strider_inv obj tr n ->
  walk raises fuel fn pyerr n = Some (evs, pe, n') ->
  Forall (fun e => strider_inv obj tr (event_state e)) evs /\
  strider_inv obj tr n' /\ curdim n' = curdim n.
Proof.
  induction fuel as [|f IH]; intros fn pyerr n evs pe n' Hinv; cbn; [discriminate|].
  pose proof (Object_iterNext_npy_cases fn pyerr n Hinv) as Hc.
  destruct (Object_iterNext_npy fn pyerr n) as [[fn' [item|]] n1].
  - assert (Hleafcase : forall p, item = ItemScalar p \/ item = ItemStaged p ->
              strider_inv obj tr n1 -> curdim n1 = curdim n ->
              match walk raises f fn' (raises (item_ptr item)) n1 with
              | Some (evs0, pyerr1, n2) => Some (EvLeaf item n1 :: evs0, pyerr1, n2)
              | None => None
              end = Some (evs, pe, n') ->
              Forall (fun e => strider_inv obj tr (event_state e)) evs /\
              strider_inv obj tr n' /\ curdim n' = curdim n).
    { intros p _ Hi1 Hc1.
      destruct (walk raises f fn' (raises (item_ptr item)) n1)
        as [[[evs0 pe0] n2]|] eqn:Ew; [|discriminate].
      intros [= <- <- <-].
      destruct (IH _ _ _ _ _ _ Hi1 Ew) as (Hf & Hi2 & Hc2).
      split; [constructor; [exact Hi1|exact Hf]|]. split; [exact Hi2|lia]. }
    destruct item as [p|p|].
    + destruct Hc as (_ & Hi1 & Hc1). apply (Hleafcase p); auto.
    + destruct Hc as (_ & Hi1 & Hc1). apply (Hleafcase p); auto.
    + destruct Hc as (_ & Hi1 & Hc1).
      destruct (walk raises f Fn_NpyArr_iterNext pyerr n1)
        as [[[evs1 pe1] n2]|] eqn:Ew1; [|discriminate].
      destruct (IH _ _ _ _ _ _ Hi1 Ew1) as (Hf1 & Hi2 & Hc2).
      destruct (NpyArrPassThru_iterEnd_inv n2 Hi2 ltac:(destruct Hinv; lia))
        as (Hi3 & Hc3 & _).
      destruct (walk raises f fn' pe1 (NpyArrPassThru_iterEnd n2))
        as [[[evs2 pe2] n4]|] eqn:Ew2; [|discriminate].
      destruct (IH _ _ _ _ _ _ Hi3 Ew2) as (Hf2 & Hi4 & Hc4).
      intros [= <- <- <-].
      split; [|split; [exact Hi4|lia]].
      constructor; [exact Hi1|]. apply Forall_app. split; [exact Hf1|].
      constructor; [exact Hi3|exact Hf2].
  - subst n1. intros [= <- <- <-]. auto.
Qed.

Lemma inv_same_level n n1 :
  strider_inv obj tr n -> strider_inv obj tr n1 -> curdim n1 = curdim n ->
  ndim n1 = ndim n /\ stridedim n1 = stridedim n /\ dim n1 = dim n.
Proof.
  intros H H1 Hc.
  assert (ndim n1 = ndim n) as Hn by (destruct H, H1; congruence).
  assert (stridedim n1 = stridedim n) as Hs by (destruct H, H1; congruence).
  repeat split; auto. destruct H, H1; congruence.
Qed.

Lemma walk_mono raises fuel : forall fuel' fn pyerr n res,
  walk raises fuel fn pyerr n = Some res -> (fuel <= fuel')%nat ->
  walk raises fuel' fn pyerr n = Some res.
Proof.
  induction fuel as [|f IH]; intros fuel' fn pyerr n res; cbn; [discriminate|].
  intros H Hle. destruct fuel' as [|f']; [lia|]. cbn.
  destruct (Object_iterNext_npy fn pyerr n) as [[fn' [item|]] n1]; [|exact H].
  assert (Hleaf :
    match walk raises f fn' (raises (item_ptr item)) n1 with
    | Some (evs, pyerr1, n2) => Some (EvLeaf item n1 :: evs, pyerr1, n2)
    | None => None
    end = Some res ->
    match walk raises f' fn' (raises (item_ptr item)) n1 with
    | Some (evs, pyerr1, n2) => Some (EvLeaf item n1 :: evs, pyerr1, n2)
    | None => None
    end = Some res).
  { destruct (walk raises f fn' (raises (item_ptr item)) n1) as [r1|] eqn:E;
      [|discriminate].
    rewrite (IH f' _ _ _ _ E) by lia. auto. }
  destruct item as [p|p|]; auto.
  destruct (walk raises f Fn_NpyArr_iterNext pyerr n1) as [[[evs1 pe1] n2]|] eqn:E1;
    [|discriminate].
  rewrite (IH f' _ _ _ _ E1) by lia.
  destruct (walk raises f fn' pe1 (NpyArrPassThru_iterEnd n2)) as [r2|] eqn:E2;
    [|discriminate].
  rewrite (IH f' _ _ _ _ E2) by lia. exact H.
Qed.

Lemma walk_pending_error raises fn n :
  walk raises 1 fn true n = Some ([], true, n).
Proof. destruct fn; reflexivity. Qed.

Lemma walk_exhausted raises fn n :
  dim n <= zget (index n) (stridedim n) ->
  walk raises 1 fn false n = Some ([], false, n).
Proof.
  intros H. apply Z.leb_le in H. cbn.
  destruct fn; cbn; unfold NpyArr_iterNext, NpyArr_iterNextItem; cbn;
    rewrite H, ?orb_true_r; reflexivity.
Qed.

Lemma walk_leaf_step raises fn n :
  (fn = Fn_NpyArr_iterNext -> ndim n <= curdim n) ->
  zget (index n) (stridedim n) < dim n ->
  exists item n1,
    NpyArr_iterNextItem false n = (Some item, n1) /\
    forall f, walk raises (S f) fn false n
              = match walk raises f Fn_NpyArr_iterNextItem
                            (raises (item_ptr item)) n1 with
                | Some (evs, pe, n2) => Some (EvLeaf item n1 :: evs, pe, n2)
                | None => None
                end.
Proof.
  intros Hfn Hlt.
  destruct (NpyArr_iterNextItem false n) as [item n1] eqn:E.
  unfold NpyArr_iterNextItem in E. cbn in E.
  apply Z.leb_gt in Hlt. rewrite Hlt in E.
  assert (Hnext : Object_iterNext_npy fn false n
                  = (Fn_NpyArr_iterNextItem, item, n1)).
  { destruct fn; cbn; unfold NpyArr_iterNext, NpyArr_iterNextItem; cbn.
    - specialize (Hfn eq_refl). apply Z.leb_le in Hfn. rewrite Hfn, Hlt. cbn.
      injection E as <- <-. reflexivity.
    - rewrite Hlt. injection E as <- <-. reflexivity. }
  destruct item as [item|]; [|destruct (PyTypeNum_ISDATETIME _); discriminate].
  exists item, n1. split; [reflexivity|].
  intros f. cbn [walk]. rewrite Hnext.
  destruct item as [p|p|]; try reflexivity.
  destruct (PyTypeNum_ISDATETIME _); discriminate.
Qed.

Lemma walk_descend_step raises n :
  strider_inv obj tr n ->
  curdim n < ndim n -> zget (index n) (stridedim n) < dim n ->
  exists n1,
    NpyArr_iterNext false n = (Fn_NpyArr_iterNext, Some ItemArray, n1) /\
    forall f, walk raises (S f) Fn_NpyArr_iterNext false n
              = match walk raises f Fn_NpyArr_iterNext false n1 with
                | None => None
                | Some (evs1, pe1, n2) =>
                    match walk raises f Fn_NpyArr_iterNext pe1
                               (NpyArrPassThru_iterEnd n2) with
                    | None => None
                    | Some (evs2, pe2, n4) =>
                        Some (EvDescend n1
                               :: evs1 ++ EvPop (NpyArrPassThru_iterEnd n2) :: evs2,
                              pe2, n4)
                    end
                end.
Proof.
  intros Hinv H1 H2.
  destruct (NpyArr_iterNext_descend n Hinv H1 H2) as (n1 & Hn1 & _).
  exists n1. split; [exact Hn1|].
  intros f. cbn [walk Object_iterNext_npy]. rewrite Hn1. reflexivity.
Qed.

(** Every context of the walk ends, and when it ends without a pending
    error it has emitted the rest of its axis times everything below. *)
Lemma walk_level raises : forall r n fn pyerr,
  strider_inv obj tr n -> Z.to_nat (ndim n - curdim n) = r ->
  (fn = Fn_NpyArr_iterNextItem ->
   ndim n <= curdim n \/ dim n <= zget (index n) (stridedim n)) ->
  exists fuel evs pe n',
    walk raises fuel fn pyerr n = Some (evs, pe, n') /\
    (pe = false -> level_post obj tr n n' evs r).
Proof.
  induction r as [|r IHr]; intros n;
    remember (Z.to_nat (dim n - zget (index n) (stridedim n))) as m eqn:Hm;
    revert n Hm; induction m as [|m IHm]; intros n Hm fn pyerr Hinv Hr Hfn.
  all: (destruct pyerr;
        [exists 1%nat, [], true, n;
         split; [apply walk_pending_error | discriminate] |]).
  all: pose proof (inv_index _ _ _ Hinv) as Hix;
       pose proof (inv_curdim _ _ _ Hinv) as Hcd.
  - (* leaf depth, axis exhausted *)
    exists 1%nat, [], false, n. split; [apply walk_exhausted; lia|].
    intros _. repeat split; auto; [|lia].
    replace (dim n - zget (index n) (stridedim n)) with 0 by lia. reflexivity.
  - (* leaf depth, one more leaf *)
    assert (Hlt : zget (index n) (stridedim n) < dim n) by lia.
    destruct (walk_leaf_step raises fn n ltac:(intros _; lia) Hlt)
      as (item & n1 & Hitem & Hstep).
    destruct (NpyArr_iterNextItem_inv n item n1 Hinv Hitem)
      as (Hinv1 & Hc1 & Hidx1 & _ & Hkeep1).
    destruct (inv_same_level n n1 Hinv Hinv1 Hc1) as (Hnd1 & Hsd1 & Hdim1).
    destruct (IHm n1 ltac:(rewrite Hdim1, Hsd1, Hidx1; lia)
                  Fn_NpyArr_iterNextItem (raises (item_ptr item)) Hinv1
                  ltac:(rewrite Hnd1, Hc1; exact Hr)
                  ltac:(intros _; left; lia))
      as (fuel & evs & pe & n' & Hw & Hpost).
    exists (S fuel), (EvLeaf item n1 :: evs), pe, n'.
    split; [rewrite Hstep, Hw; reflexivity|].
    intros Hpe. destruct (Hpost Hpe) as (Hl & Hi & Hk).
    rewrite Hsd1, Hdim1, Hnd1, Hc1 in *. rewrite Hidx1 in Hl.
    repeat split.
    + rewrite leaves_leaf, Hl. cbn [level_product]. lia.
    + exact Hi.
    + intros j Hj. rewrite Hk by exact Hj. apply Hkeep1, Hj.
  - (* inner depth, axis exhausted *)
    exists 1%nat, [], false, n. split; [apply walk_exhausted; lia|].
    intros _. repeat split; auto; [|lia].
    replace (dim n - zget (index n) (stridedim n)) with 0 by lia.
    rewrite Z.mul_0_l. reflexivity.
  - (* inner depth, one more sub-array *)
    assert (Hlt : zget (index n) (stridedim n) < dim n) by lia.
    assert (Hdeep : curdim n < ndim n) by lia.
    destruct fn; [|destruct (Hfn eq_refl); lia].
    destruct (walk_descend_step raises n Hinv Hdeep Hlt) as (n1 & Hn1 & Hstep).
    destruct (NpyArr_iterNext_descend n Hinv Hdeep Hlt)
      as (n1' & Hn1' & Hinv1 & Hc1 & Hzero & Hidx1 & Hkeep1).
    rewrite Hn1 in Hn1'. injection Hn1' as <-.
    assert (Hnd1 : ndim n1 = ndim n) by (destruct Hinv, Hinv1; congruence).
    destruct (IHr n1 Fn_NpyArr_iterNext false Hinv1
                  ltac:(rewrite Hnd1, Hc1; lia) ltac:(discriminate))
      as (fuel1 & evs1 & pe1 & n2 & Hw1 & Hpost1).
    destruct (walk_invariant raises _ _ _ _ _ _ _ Hinv1 Hw1) as (_ & Hinv2 & Hc2).
    destruct (NpyArrPassThru_iterEnd_inv n2 Hinv2 ltac:(lia)) as (Hinv3 & Hc3 & Hidx3).
    set (n3 := NpyArrPassThru_iterEnd n2) in *.
    assert (Hc3' : curdim n3 = curdim n) by lia.
    destruct (inv_same_level n n3 Hinv Hinv3 Hc3') as (Hnd3 & Hsd3 & Hdim3).
    destruct pe1.
    + exists (S (Nat.max fuel1 1)), (EvDescend n1 :: evs1 ++ EvPop n3 :: []), true, n3.
      split; [|discriminate].
      rewrite Hstep. rewrite (walk_mono raises _ _ _ _ _ _ Hw1) by lia.
      fold n3. rewrite (walk_mono raises _ _ _ _ _ _ (walk_pending_error raises _ n3))
        by lia.
      reflexivity.
    + destruct (Hpost1 eq_refl) as (Hl1 & Hi1 & Hk1).
      assert (Hsd_n : axis tr (ndim n1) (curdim n) = stridedim n)
        by (rewrite Hnd1; symmetry; apply (inv_stridedim _ _ _ Hinv)).
      assert (Hcur3 : zget (index n3) (stridedim n3)
                      = zget (index n) (stridedim n) + 1).
      { rewrite Hsd3, Hidx3, <- Hsd_n, Hk1 by lia. rewrite Hsd_n. exact Hidx1. }
      destruct (IHm n3 ltac:(rewrite Hdim3, Hcur3; lia) Fn_NpyArr_iterNext false
                    Hinv3 ltac:(rewrite Hnd3, Hc3'; exact Hr) ltac:(discriminate))
        as (fuel2 & evs2 & pe2 & n4 & Hw2 & Hpost2).
      exists (S (Nat.max fuel1 fuel2)),
             (EvDescend n1 :: evs1 ++ EvPop n3 :: evs2), pe2, n4.
      split.
      * rewrite Hstep. rewrite (walk_mono raises _ _ _ _ _ _ Hw1) by lia.
        fold n3. rewrite (walk_mono raises _ _ _ _ _ _ Hw2) by lia. reflexivity.
      * intros Hpe2. destruct (Hpost2 Hpe2) as (Hl2 & Hi2 & Hk2).
        rewrite Hsd3, Hdim3, Hnd3, Hc3' in *.
        repeat split.
        -- rewrite leaves_descend, Hl1, Hl2, Hcur3, Hzero, Hc1.
           cbn [level_product].
           rewrite (inv_dim _ _ _ Hinv1), (inv_stridedim _ _ _ Hinv1), Hnd1, Hc1.
           rewrite (inv_ndim _ _ _ Hinv). ring.
        -- exact Hi2.
        -- intros j Hj. rewrite Hk2 by exact Hj. rewrite Hidx3.
           rewrite <- Hnd1, Hk1 by lia. rewrite Hnd1. apply Hkeep1, Hj.
Qed.

Lemma walk_no_error raises fuel : forall fn n evs pe n',
  (forall p, raises p = false) ->
  walk raises fuel fn false n = Some (evs, pe, n') -> pe = false.
Proof.
  induction fuel as [|f IH]; intros fn n evs pe n' Hr; cbn; [discriminate|].
  destruct (Object_iterNext_npy fn false n) as [[fn' [item|]] n1];
    [|intros [= _ <- _]; reflexivity].
  assert (Hleaf :
    match walk raises f fn' (raises (item_ptr item)) n1 with
    | Some (evs0, pyerr1, n2) => Some (EvLeaf item n1 :: evs0, pyerr1, n2)
    | None => None
    end = Some (evs, pe, n') -> pe = false).
  { rewrite Hr.
    destruct (walk raises f fn' false n1) as [[[evs0 pe0] n2]|] eqn:E;
      [|discriminate].
    intros [= _ <- _]. eapply IH; eauto. }
  destruct item as [p|p|]; auto.
  destruct (walk raises f Fn_NpyArr_iterNext false n1) as [[[evs1 pe1] n2]|] eqn:E1;
    [|discriminate].
  apply IH in E1; [|exact Hr]. subst pe1.
  destruct (walk raises f fn' false (NpyArrPassThru_iterEnd n2))
    as [[[evs2 pe2] n4]|] eqn:E2; [|discriminate].
  intros [= _ <- _]. eapply IH; eauto.
Qed.
End StriderInvariant.

Lemma shape_product_app l1 l2 :
  shape_product (l1 ++ l2) = shape_product l1 * shape_product l2.
Proof.
  unfold shape_product. induction l1 as [|x l1 IH]; cbn; [lia|].
  rewrite IH. ring.
Qed.

Lemma zget_lookup l (i : nat) x : l !! i = Some x -> zget l (Z.of_nat i) = x.
Proof.
  intros H. unfold zget. destruct (Z.of_nat i <? 0) eqn:E; [apply Z.ltb_lt in E; lia|].
  rewrite Nat2Z.id, H. reflexivity.
Qed.

(** Walked first axis to last, the sizes below depth [d] are the tail of the
    shape. *)
Lemma level_product_forward obj : forall r (d : nat),
  (S (d + r) = length (PyArray_DIMS obj))%nat ->
  level_product obj false (Z.of_nat d) r = shape_product (drop (S d) (PyArray_DIMS obj)).
Proof.
  induction r as [|r IH]; intros d Hlen; cbn [level_product].
  - rewrite drop_ge by lia. reflexivity.
  - destruct (PyArray_DIMS obj !! S d) as [x|] eqn:Hx;
      [|apply lookup_ge_None in Hx; lia].
    rewrite (drop_S _ _ _ Hx). unfold axis.
    replace (Z.of_nat d + 1) with (Z.of_nat (S d)) by lia.
    unfold PyArray_DIM. rewrite (zget_lookup _ _ _ Hx).
    rewrite IH by lia. reflexivity.
Qed.

(** Walked last axis to first, they are the front of the shape. *)
Lemma level_product_backward obj : forall r (d : nat),
  (S (d + r) = length (PyArray_DIMS obj))%nat ->
  level_product obj true (Z.of_nat d) r = shape_product (take r (PyArray_DIMS obj)).
Proof.
  induction r as [|r IH]; intros d Hlen; cbn [level_product].
  - reflexivity.
  - destruct (PyArray_DIMS obj !! r) as [x|] eqn:Hx;
      [|apply lookup_ge_None in Hx; lia].
    rewrite (take_S_r _ _ _ Hx), shape_product_app. unfold axis, PyArray_NDIM.
    replace (Z.of_nat (length (PyArray_DIMS obj)) - 1 - (Z.of_nat d + 1))
      with (Z.of_nat r) by lia.
    unfold PyArray_DIM. rewrite (zget_lookup _ _ _ Hx).
    replace (Z.of_nat d + 1) with (Z.of_nat (S d)) by lia.
    rewrite IH by lia. unfold shape_product. cbn. ring.
Qed.

Lemma level_product_total obj tr :
  (1 <= length (PyArray_DIMS obj))%nat ->
  PyArray_DIM obj (axis tr (PyArray_NDIM obj - 1) 0)
  * level_product obj tr 0 (Z.to_nat (PyArray_NDIM obj - 1))
  = shape_product (PyArray_DIMS obj).
Proof.
  intros Hlen. unfold PyArray_NDIM.
  replace (Z.to_nat (Z.of_nat (length (PyArray_DIMS obj)) - 1))
    with (length (PyArray_DIMS obj) - 1)%nat by lia.
  destruct tr; unfold axis.
  - rewrite (level_product_backward obj _ 0) by lia.
    destruct (PyArray_DIMS obj !! (length (PyArray_DIMS obj) - 1)%nat) as [x|] eqn:Hx;
      [|apply lookup_ge_None in Hx; lia].
    replace (Z.of_nat (length (PyArray_DIMS obj)) - 1 - 0)
      with (Z.of_nat (length (PyArray_DIMS obj) - 1)) by lia.
    unfold PyArray_DIM. rewrite (zget_lookup _ _ _ Hx).
    rewrite <- (take_drop (length (PyArray_DIMS obj) - 1) (PyArray_DIMS obj)) at 3.
    rewrite shape_product_app, (drop_S _ _ _ Hx), drop_ge by lia.
    unfold shape_product. cbn. ring.
  - rewrite (level_product_forward obj _ 0) by lia.
    destruct (PyArray_DIMS obj !! 0%nat) as [x|] eqn:Hx;
      [|apply lookup_ge_None in Hx; lia].
    unfold PyArray_DIM. change 0 with (Z.of_nat 0) at 1.
    rewrite (zget_lookup _ _ _ Hx).
    rewrite <- (take_drop 1 (PyArray_DIMS obj)) at 2.
    rewrite shape_product_app.
    destruct (PyArray_DIMS obj) as [|y l]; [discriminate|].
    cbn in Hx. injection Hx as ->. cbn. rewrite take_0. unfold shape_product. cbn. ring.
Qed.

Lemma leaves_begin n evs : leaves (EvBegin n :: evs) = leaves evs.
Proof. unfold leaves. rewrite filter_cons_False by (cbn; discriminate). reflexivity. Qed.

Lemma NpyArr_iterBegin_fields obj tr garbage :
  1 <= PyArray_NDIM obj <= Z.of_nat (length garbage) ->
  let n0 := NpyArr_iterBegin obj tr garbage in
  curdim n0 = 0 /\ ndim n0 = PyArray_NDIM obj - 1 /\
  dim n0 = PyArray_DIM obj (axis tr (PyArray_NDIM obj - 1) 0) /\
  zget (index n0) (stridedim n0) = 0.
Proof.
  intros H. unfold NpyArr_iterBegin, axis.
  destruct tr; cbn; rewrite ?Z.sub_0_r, zget_zset_eq by lia; auto.
Qed.

(** The whole walk of an array ends, whatever the leaves raise. *)
Lemma NpyArr_encode_terminates raises obj tr garbage :
  wf_array obj -> Z.of_nat (length garbage) = NPY_MAXDIMS ->
  exists fuel0 evs pe,
    (forall fuel, (fuel0 <= fuel)%nat ->
       NpyArr_encode raises fuel obj tr garbage = Some (evs, pe)) /\
    (pe = false -> leaves evs = shape_product (PyArray_DIMS obj)) /\
    ((forall p, raises p = false) -> pe = false).
Proof.
  intros Hwf Hlen.
  pose proof (NpyArr_iterBegin_inv obj tr Hwf garbage Hlen) as Hinv.
  destruct (walk_level obj tr Hwf raises _ (NpyArr_iterBegin obj tr garbage)
              Fn_NpyArr_iterNext false Hinv eq_refl ltac:(discriminate))
    as (fuel0 & evs & pe & n' & Hw & Hpost).
  exists fuel0, (EvBegin (NpyArr_iterBegin obj tr garbage) :: evs), pe.
  split; [|split].
  - intros fuel Hle. unfold NpyArr_encode.
    rewrite (walk_mono raises _ _ _ _ _ _ Hw Hle). reflexivity.
  - intros Hpe. destruct (Hpost Hpe) as (Hl & _).
    rewrite leaves_begin, Hl.
    destruct Hwf as (Hnd & _ & _).
    destruct (NpyArr_iterBegin_fields obj tr garbage ltac:(lia))
      as (Hc & Hn & Hd & Hz).
    rewrite Hz, Hd, Hc, Hn, !Z.sub_0_r.
    apply level_product_total. unfold PyArray_NDIM in Hnd. lia.
  - intros Hraise. exact (walk_no_error raises _ _ _ _ _ _ Hraise Hw).
Qed.



(** C5, amended: the walk of an array ends, and after begin, after every
    descent-phase next, every leaf-phase next and every level pop, the data
    pointer is the buffer base plus stride times index on the current axis
    plus, for each axis already descended through, stride times (index - 1);
    the index on the current axis lies between 0 and the size of that axis,
    the size included. *)
Theorem strider_position_invariant raises obj tr garbage :
  wf_array obj -> Z.of_nat (length garbage) = NPY_MAXDIMS ->
  (exists fuel0 res,
     forall fuel, (fuel0 <= fuel)%nat ->
       NpyArr_encode raises fuel obj tr garbage = Some res) /\
  (forall fuel evs pe,
     NpyArr_encode raises fuel obj tr garbage = Some (evs, pe) ->
     Forall (fun e => strider_position obj tr (event_state e)) evs).
Proof.
  intros Hwf Hlen. split.
  { destruct (NpyArr_encode_terminates raises obj tr garbage Hwf Hlen)
      as (fuel0 & evs & pe & H & _).
    exists fuel0, (evs, pe). exact H. }
  intros fuel evs pe. unfold NpyArr_encode.
  pose proof (NpyArr_iterBegin_inv obj tr Hwf garbage Hlen) as Hinv.
  destruct (walk raises fuel Fn_NpyArr_iterNext false (NpyArr_iterBegin obj tr garbage))
    as [[[evs0 pe0] n']|] eqn:Hw; [|discriminate].
  intros [= <- <-].
  destruct (walk_invariant obj tr Hwf raises _ _ _ _ _ _ _ Hinv Hw) as (Hall & _).
  assert (Hpos : forall n, strider_inv obj tr n -> strider_position obj tr n).
  { intros n Hn. split; [apply (inv_dataptr _ _ _ Hn)|].
    rewrite <- (inv_dim _ _ _ Hn). apply (inv_index _ _ _ Hn). }
  constructor; [apply Hpos, Hinv|].
  eapply Forall_impl; [exact Hall|]. intros e He. apply Hpos, He.
Qed.

(** The position invariant on the 2x3 array. *)
Lemma strider_position_invariant_witness :
  (exists fuel0 res,
     forall fuel, (fuel0 <= fuel)%nat ->
       NpyArr_encode (fun _ => false) fuel array_2x3 false zero_index = Some res) /\
  (forall fuel evs pe,
     NpyArr_encode (fun _ => false) fuel array_2x3 false zero_index = Some (evs, pe) ->
     Forall (fun e => strider_position array_2x3 false (event_state e)) evs).
Proof.
  apply (strider_position_invariant (fun _ => false) array_2x3 false zero_index).
  - unfold wf_array, PyArray_NDIM, NPY_MAXDIMS. cbn.
    repeat split; try lia. repeat constructor; lia.
  - reflexivity.
Defined.

(** C5 as stated fails on a 2x3 array: after the first descent-phase next
    the index of axis 0 is already 1 while the data pointer is still the
    base, so the pointer is not the base plus the sum of stride times index;
    and after the last leaf of a row the index of axis 1 equals its size. *)
Lemma spec_strider_inv_fails :
  exists evs e1 e2,
    NpyArr_encode (fun _ => false) 20 array_2x3 false zero_index = Some (evs, false) /\
    evs !! 1%nat = Some (EvDescend e1) /\
    dataptr e1 <> PyArray_DATA (array e1) + all_axes_offset e1 /\
    ~ spec_strider_inv e1 /\
    evs !! 4%nat = Some (EvLeaf (ItemScalar 1016) e2) /\
    ~ zget (index e2) (stridedim e2) < PyArray_DIM (array e2) (stridedim e2) /\
    ~ spec_strider_inv e2.
Proof.
  eexists _, _, _. split; [vm_compute; reflexivity|].
  split; [reflexivity|].
  assert (H1 : forall a b : Z, (a =? b) = false -> a <> b)
    by (intros a b H; apply Z.eqb_neq; exact H).
  split; [apply H1; vm_compute; reflexivity|].
  split; [intros [H _]; revert H; apply H1; vm_compute; reflexivity|].
  split; [reflexivity|].
  split; [vm_compute; intros H; discriminate H|].
  intros [_ [_ H]]. vm_compute in H. discriminate H.
Qed.

(** ** Attribute-dir driver *)

Example Dir_iterNext_sample :
  Dir_iterNext sample_attrs None None (Dir_iterBegin sample_attrs)
  = (true, mkDir 5 5 (Some [x64]) (Some (mkAttrValue 3 false)), None).
Proof. reflexivity. Qed.

Lemma Dir_scan_clears n : forall attrList index i pe r,
  Dir_scan n attrList index None = (i, pe, r) -> pe = None.
Proof.
  induction n as [|n IH]; intros attrList index i pe r; cbn.
  - intros [= _ <- _]. reflexivity.
  - destruct (attrList !! Z.to_nat index) as [a|]; [|intros [= _ <- _]; reflexivity].
    destruct (starts_with_underscore (attr_name a)); [apply IH|].
    destruct (attr_fetch a) as [e|v]; [apply IH|].
    destruct (av_callable v); [apply IH|].
    intros [= _ <- _]. reflexivity.
Qed.

Lemma Dir_scan_skip n attrList index a :
  attrList !! Z.to_nat index = Some a -> Dir_skipped a ->
  Dir_scan (S n) attrList index None = Dir_scan n attrList (index + 1) None.
Proof.
  intros Ha Hs. cbn. rewrite Ha.
  destruct (starts_with_underscore (attr_name a)) eqn:Hn; [reflexivity|].
  destruct Hs as [Hu | [(e & ->) | (v & -> & ->)]];
    [congruence | reflexivity | reflexivity].
Qed.

Lemma Dir_scan_found n : forall attrList index i pe name v,
  Dir_scan n attrList index None = (i, pe, Some (name, v)) ->
  exists a, attrList !! Z.to_nat (i - 1) = Some a /\
            attr_name a = name /\ attr_fetch a = inr v /\
            starts_with_underscore name = false /\ av_callable v = false.
Proof.
  induction n as [|n IH]; intros attrList index i pe name v; cbn; [discriminate|].
  destruct (attrList !! Z.to_nat index) as [a|] eqn:Ha; [|discriminate].
  destruct (starts_with_underscore (attr_name a)) eqn:Hu; [apply IH|].
  destruct (attr_fetch a) as [e|w] eqn:Hf; [apply IH|].
  destruct (av_callable w) eqn:Hc; [apply IH|].
  intros [= <- _ <- <-]. exists a.
  replace (index + 1 - 1) with index by lia. auto.
Qed.

(** The loop passes over a run of skipped names and stops at the first
    attribute that is public, fetched and not callable. *)
Lemma Dir_scan_first n : forall attrList index k a v,
  0 <= index <= k -> (Z.to_nat (k - index) < n)%nat ->
  (forall j b, index <= j < k -> attrList !! Z.to_nat j = Some b -> Dir_skipped b) ->
  attrList !! Z.to_nat k = Some a ->
  starts_with_underscore (attr_name a) = false ->
  attr_fetch a = inr v -> av_callable v = false ->
  Dir_scan n attrList index None = (k + 1, None, Some (attr_name a, v)).
Proof.
  induction n as [|n IH]; intros attrList index k a v Hr Hn Hskip Ha Hu Hf Hc; [lia|].
  destruct (decide (index = k)) as [->|Hne].
  - cbn. rewrite Ha, Hu, Hf, Hc. reflexivity.
  - destruct (attrList !! Z.to_nat index) as [b|] eqn:Hb.
    2: { apply lookup_ge_None in Hb. apply lookup_lt_Some in Ha. lia. }
    rewrite (Dir_scan_skip n attrList index b Hb (Hskip index b ltac:(lia) Hb)).
    apply IH; auto; try lia.
    intros j c Hj. apply Hskip. lia.
Qed.

(** C10: an attribute at the driver's position whose name starts with an
    underscore, whose fetch raises, or whose value is callable is passed
    over: [Dir_iterNext] behaves as if it had started at the next name.  A
    call that starts with no error pending ends with no error pending (the
    error of a failed fetch was cleared) and does not touch the writer's
    error slot, so a failed fetch does not abort the encoding; an item it
    exposes is an attribute that is public, was fetched and is not callable;
    and the iteration does go on: when the names from the driver's position
    up to some position are all passed over and the attribute there is
    public, fetched and not callable, the call returns true and exposes that
    attribute. *)
Theorem Dir_iterNext_skips (attrList : list Attr) (tc : DirContext) :
  (forall a, 0 <= dir_index tc < dir_size tc ->
     attrList !! Z.to_nat (dir_index tc) = Some a -> Dir_skipped a ->
     Dir_iterNext attrList None None tc
     = Dir_iterNext attrList None None
         (mkDir (dir_index tc + 1) (dir_size tc) (dir_itemName tc) (dir_itemValue tc))) /\
  snd (Dir_iterNext attrList None None tc) = None /\
  (forall tc' pe, Dir_iterNext attrList None None tc = (true, tc', pe) ->
     exists a name v,
       a ∈ attrList /\ ~ Dir_skipped a /\
       attr_name a = name /\ attr_fetch a = inr v /\
       dir_itemName tc' = Some name /\ dir_itemValue tc' = Some v) /\
  (forall k a v, 0 <= dir_index tc <= k -> k < dir_size tc ->
     (forall j b, dir_index tc <= j < k ->
        attrList !! Z.to_nat j = Some b -> Dir_skipped b) ->
     attrList !! Z.to_nat k = Some a ->
     starts_with_underscore (attr_name a) = false ->
     attr_fetch a = inr v -> av_callable v = false ->
     Dir_iterNext attrList None None tc
     = (true, mkDir (k + 2) (dir_size tc) (Some (attr_name a)) (Some v), None)).
Proof.
  split; [|split; [|split]].
  - intros a Hr Ha Hs. unfold Dir_iterNext. cbn.
    replace (Z.to_nat (dir_size tc - dir_index tc))
      with (S (Z.to_nat (dir_size tc - (dir_index tc + 1)))) by lia.
    rewrite (Dir_scan_skip _ _ _ a Ha Hs). reflexivity.
  - unfold Dir_iterNext. cbn.
    destruct (Dir_scan _ attrList (dir_index tc) None) as [[i pe] [[name v]|]] eqn:E;
      cbn; eapply Dir_scan_clears; eassumption.
  - intros tc' pe. unfold Dir_iterNext. cbn.
    destruct (Dir_scan _ attrList (dir_index tc) None) as [[i pe'] [[name v]|]] eqn:E.
    2: { intros H. discriminate H. }
    intros [= <- <-]. cbn.
    destruct (Dir_scan_found _ _ _ _ _ _ _ E) as (a & Ha & Hn & Hf & Hu & Hc).
    exists a, name, v. repeat split; auto.
    + eapply list_elem_of_lookup_2; eassumption.
    + intros [H | [(e & H) | (w & H & H')]]; congruence.
  - intros k a v Hr Hk Hskip Ha Hu Hf Hc. unfold Dir_iterNext. cbn.
    rewrite (Dir_scan_first (Z.to_nat (dir_size tc - dir_index tc)) attrList
               (dir_index tc) k a v Hr ltac:(lia) Hskip Ha Hu Hf Hc).
    replace (k + 1 + 1) with (k + 2) by lia. reflexivity.
Qed.

(** The property that raises, second in the sample object, is passed over;
    and from the start the private name, the property that raises and the
    method are passed over and the first data attribute is exposed. *)
Lemma Dir_iterNext_skips_witness :
  Dir_iterNext sample_attrs None None (mkDir 1 5 None None)
  = Dir_iterNext sample_attrs None None (mkDir 2 5 None None) /\
  Dir_iterNext sample_attrs None None (Dir_iterBegin sample_attrs)
  = (true, mkDir 5 5 (Some [x64]) (Some (mkAttrValue 3 false)), None).
Proof.
  split.
  - apply (proj1 (Dir_iterNext_skips sample_attrs (mkDir 1 5 None None))
             (mkAttr [x62] (inl (mkPyErr PyExc_RuntimeError "boom")))).
    + cbn. lia.
    + reflexivity.
    + right. left. eexists. reflexivity.
  - apply (proj2 (proj2 (proj2
             (Dir_iterNext_skips sample_attrs (Dir_iterBegin sample_attrs))))
             3 (mkAttr [x64] (inr (mkAttrValue 3 false))) (mkAttrValue 3 false)).
    + cbn. lia.
    + cbn. lia.
    + intros j b Hj. cbn in Hj.
      assert (Hcase : j = 0 \/ j = 1 \/ j = 2) by lia.
      destruct Hcase as [-> | [-> | ->]]; intros [= <-].
      * left. reflexivity.
      * right. left. eexists. reflexivity.
      * right. right. eexists. split; reflexivity.
    + reflexivity.
    + reflexivity.
    + reflexivity.
    + reflexivity.
Defined.

(** ** Label pre-encoder *)

Example encodeLabels_text :
  NpyArr_encodeLabels (fun _ => true) sample_label_writer (fun _ => true)
                      (Some text_labels) 2
  = Labels [[x22; x61; x62; x22; x3a; x00]; [x22; x63; x22; x3a; x00]].
Proof. reflexivity. Qed.

Example encodeLabels_numbers :
  NpyArr_encodeLabels (fun _ => true) sample_label_writer (fun _ => true)
                      (Some number_labels) 2
  = Labels [[x22; x37; x22; x3a; x00]; [x22; x38; x22; x3a; x00]].
Proof. reflexivity. Qed.

Example trim_label_text : trim_label [x22; x61; x62; x22; x3a; x00] = [x61; x62].
Proof. reflexivity. Qed.

Section EncodeLabelsFacts.
Context {L : Type}.
Variable getitem_ok : L -> bool.
Variable W : bool -> L -> EncodedLabel.
Variable malloc_ok : Z -> bool.

Lemma encodeLabels_loop_slices staged : forall items ret,
  encodeLabels_loop getitem_ok W malloc_ok staged items = Labels ret ->
  ret = map (fun x => label_slice (el_out (W staged x))) items.
Proof.
  induction items as [|x rest IH]; intros ret; cbn.
  - intros [= <-]. reflexivity.
  - destruct (negb staged && negb (getitem_ok x)); [discriminate|].
    destruct (el_failed (W staged x)); [discriminate|].
    destruct (negb (malloc_ok (label_len (el_out (W staged x))))); [discriminate|].
    destruct (encodeLabels_loop getitem_ok W malloc_ok staged rest) as [e|r];
      [discriminate|].
    intros [= <-]. rewrite (IH r eq_refl). reflexivity.
Qed.

Lemma encodeLabels_loop_raised staged : forall items e,
  encodeLabels_loop getitem_ok W malloc_ok staged items = LabelsNULL (Some e) ->
  e = no_memory.
Proof.
  induction items as [|x rest IH]; intros e; cbn; [discriminate|].
  destruct (negb staged && negb (getitem_ok x)); [discriminate|].
  destruct (el_failed (W staged x)); [discriminate|].
  destruct (negb (malloc_ok (label_len (el_out (W staged x)))));
    [intros [= <-]; reflexivity|].
  destruct (encodeLabels_loop getitem_ok W malloc_ok staged rest) as [e'|r];
    [|discriminate].
  intros [= ->]. apply IH. reflexivity.
Qed.

Lemma NpyArr_encodeLabels_slices (arr : LabelArray L) (num : Z) ret :
  NpyArr_encodeLabels getitem_ok W malloc_ok (Some arr) num = Labels ret ->
  length ret = Z.to_nat num /\
  ret = map (fun x => label_slice (el_out (W (label_is_staged (la_type arr)) x)))
            (take (Z.to_nat num) (la_items arr)).
Proof.
  unfold NpyArr_encodeLabels.
  destruct (Z.of_nat (length (la_items arr)) <? num) eqn:E; [discriminate|].
  destruct (negb (malloc_ok (8 * num))); [discriminate|].
  intros H. apply encodeLabels_loop_slices in H. subst ret.
  apply Z.ltb_ge in E. split; [|reflexivity].
  rewrite length_map, length_take. lia.
Qed.

(** C6, amended: the pre-encoder fails with "Label array sizes do not match
    corresponding data shape" exactly when it is given a label array whose
    length is less than the label count; when it does not fail it returns
    one slice per expected label, the slices of the first [num] labels in
    order. *)
Theorem NpyArr_encodeLabels_size_check (labels : option (LabelArray L)) (num : Z) :
  (NpyArr_encodeLabels getitem_ok W malloc_ok labels num
   = LabelsNULL (Some label_size_mismatch)
   <-> exists arr, labels = Some arr /\ Z.of_nat (length (la_items arr)) < num) /\
  (forall ret,
     NpyArr_encodeLabels getitem_ok W malloc_ok labels num = Labels ret ->
     length ret = Z.to_nat num /\
     exists arr,
       labels = Some arr /\
       ret = map (fun x => label_slice (el_out (W (label_is_staged (la_type arr)) x)))
                 (take (Z.to_nat num) (la_items arr))).
Proof.
  unfold NpyArr_encodeLabels. split; [split|].
  - destruct labels as [arr|]; [|discriminate].
    destruct (Z.of_nat (length (la_items arr)) <? num) eqn:E.
    + intros _. exists arr. split; [reflexivity|]. apply Z.ltb_lt. exact E.
    + destruct (negb (malloc_ok (8 * num))); [discriminate|].
      intros H. apply encodeLabels_loop_raised in H. discriminate H.
  - intros (arr & -> & Hlt). apply Z.ltb_lt in Hlt. rewrite Hlt. reflexivity.
  - intros ret. destruct labels as [arr|]; [|discriminate].
    intros H. apply NpyArr_encodeLabels_slices in H as [Hlen Hret].
    split; [exact Hlen|]. exists arr. split; [reflexivity|exact Hret].
Qed.
End EncodeLabelsFacts.

(** Three labels and a count of four: the size check fails. *)
Lemma NpyArr_encodeLabels_size_check_witness :
  NpyArr_encodeLabels (fun _ => true) sample_label_writer (fun _ => true)
                      (Some text_labels) 4
  = LabelsNULL (Some label_size_mismatch).
Proof.
  apply (proj1 (NpyArr_encodeLabels_size_check (fun _ => true) sample_label_writer
                  (fun _ => true) (Some text_labels) 4)).
  exists text_labels. split; [reflexivity|]. cbn. lia.
Defined.

(** C6 as stated fails: with three labels and a count of two the count is
    less than the array's length, yet the pre-encoder succeeds; with a count
    of four the count is not less than the length, yet it fails with that
    message. *)
Lemma NpyArr_encodeLabels_claimed_direction_fails :
  (2 < Z.of_nat (length (la_items text_labels)) /\
   NpyArr_encodeLabels (fun _ => true) sample_label_writer (fun _ => true)
                       (Some text_labels) 2
   = Labels [[x22; x61; x62; x22; x3a; x00]; [x22; x63; x22; x3a; x00]]) /\
  (~ 4 < Z.of_nat (length (la_items text_labels)) /\
   NpyArr_encodeLabels (fun _ => true) sample_label_writer (fun _ => true)
                       (Some text_labels) 4
   = LabelsNULL (Some label_size_mismatch)).
Proof.
  cbn. repeat split; lia.
Qed.

Lemma byte_eqb_true a b : Byte.eqb a b = true <-> a = b.
Proof. split; [apply Byte.byte_dec_bl|apply Byte.byte_dec_lb]. Qed.

Lemma strlen_no_nul l r : NUL ∉ l -> strlen (l ++ NUL :: r) = length l.
Proof.
  induction l as [|c l IH]; intros H; cbn; [reflexivity|].
  destruct (Byte.eqb c NUL) eqn:E.
  - apply byte_eqb_true in E. subst c. exfalso. apply H. left.
  - rewrite IH; [reflexivity|]. intros Hin. apply H. right. exact Hin.
Qed.

Lemma trim_label_quoted inner :
  NUL ∉ inner -> trim_label ([QUOTE] ++ inner ++ [QUOTE; COLON; NUL]) = inner.
Proof.
  intros H. unfold trim_label.
  replace ([QUOTE] ++ inner ++ [QUOTE; COLON; NUL])
    with (([QUOTE] ++ inner ++ [QUOTE; COLON]) ++ NUL :: [])
    by (rewrite <- !app_assoc; reflexivity).
  rewrite strlen_no_nul.
  - cbn [app]. rewrite <- app_assoc. cbn [drop length app]. rewrite length_app.
    cbn [length].
    replace (Z.to_nat (Z.of_nat (S (length inner + 2)) - 3)) with (length inner) by lia.
    apply take_app_length.
  - intros Hin. apply elem_of_app in Hin as [Hin|Hin].
    + apply list_elem_of_singleton in Hin. discriminate Hin.
    + apply elem_of_app in Hin as [Hin|Hin]; [exact (H Hin)|].
      repeat (apply elem_of_cons in Hin as [Hin|Hin]; [discriminate Hin|]).
      inversion Hin.
Qed.

Lemma hd_app_nul body : hd NUL (body ++ [NUL]) = hd NUL body.
Proof. destruct body; reflexivity. Qed.

(** The slice of a label is the label's inner bytes between quotes, then a
    colon and the terminator, whichever branch built it. *)
Lemma label_slice_layout out body :
  writer_output out body ->
  label_slice out = [QUOTE] ++ label_inner body ++ [QUOTE; COLON; NUL] /\
  NUL ∉ label_inner body.
Proof.
  intros (-> & Hnul & Hq). unfold label_slice, label_len, need_quotes, label_inner.
  rewrite hd_app_nul, length_app. cbn [length].
  destruct (Byte.eqb (hd NUL body) QUOTE) eqn:E; cbn [negb].
  - apply byte_eqb_true in E. destruct (Hq E) as (inner & Hb).
    assert (Hin : NUL ∉ inner).
    { intros H. apply Hnul. rewrite Hb. apply elem_of_app. right.
      apply elem_of_app. left. exact H. }
    replace (Z.to_nat (Z.of_nat (length body + 1) + 1 + 2 * 0 - 2))
      with (length body) by lia.
    rewrite take_app_length. subst body.
    assert (Hinner : take (length ([QUOTE] ++ inner ++ [QUOTE]) - 2)
                          (drop 1 ([QUOTE] ++ inner ++ [QUOTE])) = inner).
    { cbn [app drop length]. rewrite length_app. cbn [length].
      replace (S (length inner + 1) - 2)%nat with (length inner) by lia.
      apply take_app_length. }
    rewrite Hinner. rewrite <- !app_assoc. cbn. auto.
  - replace (Z.to_nat (Z.of_nat (length body + 1) + 1 + 2 * 1 - 4))
      with (length body) by lia.
    rewrite take_app_length. auto.
Qed.

(** C8: given what the writer leaves for each label (the encoded text
    without NUL bytes, NUL-terminated, and quoted at both ends when it starts
    with a quote), the i-th slice the pre-encoder returns is a quote, the
    inner bytes of the i-th label, then a quote, a colon and a NUL, whether
    the encoded label came with quotes or not; and under COLUMNS or INDEX the
    table driver's get-name for that position (drop the first character, cut
    the last two) returns exactly those inner bytes. *)
Theorem label_slices_are_quoted {L : Type} (getitem_ok : L -> bool)
    (W : bool -> L -> EncodedLabel) (malloc_ok : Z -> bool)
    (arr : LabelArray L) (num : Z) (ret : list (list byte)) :
  (forall x, x ∈ la_items arr ->
     exists body, writer_output (el_out (W (label_is_staged (la_type arr)) x)) body) ->
  NpyArr_encodeLabels getitem_ok W malloc_ok (Some arr) num = Labels ret ->
  forall (i : nat) s, ret !! i = Some s ->
    exists x body,
      la_items arr !! i = Some x /\
      writer_output (el_out (W (label_is_staged (la_type arr)) x)) body /\
      s = [QUOTE] ++ label_inner body ++ [QUOTE; COLON; NUL] /\
      (forall enc cStr,
         originalOutputFormat enc = COLUMNS \/ originalOutputFormat enc = INDEX ->
         DataFrame_iterGetName enc (Z.of_nat i + 1) cStr ret = Some (label_inner body)).
Proof.
  intros Hw Hret i s Hs.
  destruct (NpyArr_encodeLabels_slices getitem_ok W malloc_ok arr num ret Hret)
    as (_ & Hmap).
  pose proof Hs as Hs'. rewrite Hmap, list_lookup_fmap in Hs'.
  destruct (take (Z.to_nat num) (la_items arr) !! i) as [x|] eqn:Hx; [|discriminate].
  cbn in Hs'. injection Hs' as <-.
  apply lookup_take_Some in Hx as [Hx _].
  destruct (Hw x (list_elem_of_lookup_2 _ _ _ Hx)) as (body & Hb).
  destruct (label_slice_layout _ _ Hb) as (Hl & Hn).
  exists x, body.
  split; [exact Hx|]. split; [exact Hb|]. split; [exact Hl|].
  intros enc cStr Ho. unfold DataFrame_iterGetName.
  rewrite decide_False by (destruct Ho as [Ho|Ho]; rewrite Ho; discriminate).
  rewrite decide_True by exact Ho.
  replace (Z.to_nat (Z.of_nat i + 1 - 1)) with i by lia.
  rewrite Hs. cbn. rewrite Hl, trim_label_quoted by exact Hn. reflexivity.
Qed.

Lemma sample_label_writer_output staged x :
  NUL ∉ x -> hd NUL x <> QUOTE ->
  exists body, writer_output (el_out (sample_label_writer staged x)) body.
Proof.
  intros Hx Hq. destruct staged; cbn.
  - exists x. split; [reflexivity|]. split; [exact Hx|]. intros H. contradiction.
  - exists ([QUOTE] ++ x ++ [QUOTE]). split; [rewrite <- !app_assoc; reflexivity|].
    split; [|intros _; exists x; reflexivity].
    intros H. apply elem_of_cons in H as [H|H]; [discriminate H|].
    apply elem_of_app in H as [H|H]; [exact (Hx H)|].
    apply list_elem_of_singleton in H. discriminate H.
Qed.

(** The second of the text labels, through the pre-encoder and the trim. *)
Lemma label_slices_are_quoted_witness :
  exists x body,
    la_items text_labels !! 1%nat = Some x /\
    writer_output
      (el_out (sample_label_writer (label_is_staged (la_type text_labels)) x)) body /\
    [x22; x63; x22; x3a; x00] = [QUOTE] ++ label_inner body ++ [QUOTE; COLON; NUL] /\
    (forall enc cStr,
       originalOutputFormat enc = COLUMNS \/ originalOutputFormat enc = INDEX ->
       DataFrame_iterGetName enc (Z.of_nat 1 + 1) cStr
         [[x22; x61; x62; x22; x3a; x00]; [x22; x63; x22; x3a; x00]]
       = Some (label_inner body)).
Proof.
  apply (label_slices_are_quoted (fun _ => true) sample_label_writer (fun _ => true)
           text_labels 2
           [[x22; x61; x62; x22; x3a; x00]; [x22; x63; x22; x3a; x00]]).
  - intros x Hx. apply sample_label_writer_output.
    + repeat (apply elem_of_cons in Hx as [->|Hx];
              [intros H; repeat (apply elem_of_cons in H as [H|H]; [discriminate H|]);
               inversion H|]).
      inversion Hx.
    + repeat (apply elem_of_cons in Hx as [->|Hx]; [discriminate|]). inversion Hx.
  - reflexivity.
  - reflexivity.
Defined.

(** ** Not-a-time values in the dispatcher *)

(** A NaT date or datetime object, a NaT [datetime64] scalar and a NaT
    element of a datetime array are dispatched as null under both date
    modes and every unit. *)
Lemma nat_datetime_is_null (enc : PyObjectEncoder) (raw : NpyRaw) :
  (npyType enc < 0 ->
   d_type (Object_beginTypeContext enc raw (PyDateTime true)) = JT_NULL /\
   d_type (Object_beginTypeContext enc raw (NpyDatetimeScalar get_nat)) = JT_NULL) /\
  (PyTypeNum_ISDATETIME (npyType enc) = true -> raw_int64 raw = get_nat ->
   forall obj, d_type (Object_beginTypeContext enc raw obj) = JT_NULL).
Proof.
  unfold Object_beginTypeContext. split.
  - intros H. apply Z.leb_gt in H. rewrite H. cbn. auto.
  - intros Ht Hr obj.
    assert ((0 <=? npyType enc) = true) as ->.
    { unfold PyTypeNum_ISDATETIME, NPY_DATETIME in Ht.
      apply andb_true_iff in Ht as [Ht _]. apply Z.leb_le in Ht. apply Z.leb_le. lia. }
    unfold NpyTypeToJSONType.
    assert (PyTypeNum_ISFLOAT (npyType enc) = false) as ->.
    { unfold PyTypeNum_ISDATETIME, PyTypeNum_ISFLOAT, NPY_DATETIME, NPY_TIMEDELTA,
        NPY_FLOAT, NPY_LONGDOUBLE, NPY_HALF in *. lia. }
    rewrite Ht, Hr. cbn. reflexivity.
Qed.

(** A timedelta whose nanosecond value is NaT is dispatched as null when the
    unit is nanoseconds. *)
Lemma nat_timedelta_ns_is_null iso total :
  d_type (Object_beginTypeContext (date_encoder iso NPY_FR_ns) no_raw
            (PyDelta (Some get_nat) total)) = JT_NULL.
Proof. reflexivity. Qed.

(** With any other unit the scaled value is never NaT: the comparison in the
    timedelta branch cannot succeed. *)
Lemma scale_timedelta_never_nat unit value :
  unit <> NPY_FR_ns -> fits_int64 value = true ->
  scale_timedelta unit value <> get_nat.
Proof.
  intros Hu Hv. unfold fits_int64, NPY_MIN_INT64, NPY_MAX_INT64 in Hv.
  apply andb_true_iff in Hv as [Hlo Hhi]. apply Z.leb_le in Hlo, Hhi.
  assert (Hq : forall k, 1000 <= k -> Z.quot value k <> - 2 ^ 63).
  { intros k Hk Heq.
    pose proof (Z.quot_rem' value k) as Hqr. rewrite Heq in Hqr.
    destruct (Z_le_gt_dec 0 value) as [Hpos|Hneg].
    - pose proof (Z.rem_bound_pos_pos value k ltac:(lia) Hpos). nia.
    - pose proof (Z.rem_bound_pos_neg value k ltac:(lia) ltac:(lia)). nia. }
  unfold scale_timedelta, get_nat, NPY_MIN_INT64.
  destruct unit; try congruence; apply Hq; lia.
Qed.

Lemma timedelta_is_long_unless_ns iso unit value total :
  unit <> NPY_FR_ns -> fits_int64 value = true ->
  d_type (Object_beginTypeContext (date_encoder iso unit) no_raw
            (PyDelta (Some value) total)) = JT_LONG.
Proof.
  intros Hu Hv. unfold Object_beginTypeContext. cbn. rewrite Hv. cbn.
  rewrite decide_False by (apply scale_timedelta_never_nat; assumption).
  reflexivity.
Qed.

(** C1 at its failing input: a timedelta whose [value] is NaT, with the unit
    at milliseconds (the default), microseconds or seconds.  The value is
    divided before it is compared with NaT, so the comparison fails and the
    dispatcher publishes a long, not null, under either date mode. *)
Theorem nat_timedelta_is_not_null (iso : bool) :
  Object_beginTypeContext (date_encoder iso NPY_FR_ms) no_raw (PyDelta (Some get_nat) 0)
  = mkDispatched JT_LONG (Some PyLongToINT64) (-9223372036854) None
                 (date_encoder iso NPY_FR_ms) /\
  d_longValue (Object_beginTypeContext (date_encoder iso NPY_FR_us) no_raw
                 (PyDelta (Some get_nat) 0)) = -9223372036854775 /\
  d_longValue (Object_beginTypeContext (date_encoder iso NPY_FR_s) no_raw
                 (PyDelta (Some get_nat) 0)) = -9223372036 /\
  writer_literal
    (d_type (Object_beginTypeContext (date_encoder iso NPY_FR_ms) no_raw
               (PyDelta (Some get_nat) 0))) <> Some "null"%string.
Proof.
  repeat split; try reflexivity. cbn. discriminate.
Qed.

(** * Further properties of the drivers *)

(** ** Attribute-dir driver: a whole iteration *)








(** ** Entry point: outcomes *)

Lemma orient_of_string_Some (s : string) :
  s ∈ ["records"; "index"; "split"; "values"; "columns"]%string ->
  orient_of_string s <> None.
Proof.
  intros Hs.
  repeat (apply elem_of_cons in Hs as [->|Hs]; [discriminate|]).
  inversion Hs.
Qed.

Lemma date_unit_of_string_Some (s : string) :
  s ∈ ["s"; "ms"; "us"; "ns"]%string -> date_unit_of_string s <> None.
Proof.
  intros Hs.
  repeat (apply elem_of_cons in Hs as [->|Hs]; [discriminate|]).
  inversion Hs.
Qed.

(** X3: the options are accepted exactly when double_precision lies in
    0..max, orient and date_unit (when passed) are one of their spellings,
    and the default handler (when passed and not None) is callable. *)
Theorem configure_encoder_accepts_iff {Obj} (MAXD : Z) (a : Args Obj) :
  (exists enc, configure_encoder MAXD a = inr enc) <->
  ~ invalid_option MAXD a /\ odefHandler a <> Some HandlerNotCallable.
Proof.
  split.
  - intros (enc & Henc). split.
    + intros Hbad. destruct (configure_encoder_rejects MAXD a Hbad) as (e & He & _).
      congruence.
    + intros Hh. unfold configure_encoder in Henc. rewrite Hh in Henc.
      repeat match type of Henc with
      | context [match ?x with _ => _ end] => destruct x; try discriminate
      end.
  - intros [Hok Hh]. unfold configure_encoder.
    destruct ((MAXD <? idoublePrecision a) || (idoublePrecision a <? 0)) eqn:Hp.
    { exfalso. apply Hok. right. right. intros Hr.
      apply orb_true_iff in Hp as [Hp|Hp]; apply Z.ltb_lt in Hp; lia. }
    assert (Ho : exists fmt,
              match sOrient a with
              | Some s => orient_of_string s
              | None => Some (outputFormat initial_encoder)
              end = Some fmt).
    { destruct (sOrient a) as [s|] eqn:Hs; [|eexists; reflexivity].
      destruct (orient_of_string s) as [fmt|] eqn:Hf; [eexists; reflexivity|].
      exfalso. apply Hok. left. exists s. split; [exact Hs|].
      intros Hin. exact (orient_of_string_Some s Hin Hf). }
    destruct Ho as (fmt & ->).
    assert (Hd : exists u,
              match sdateFormat a with
              | Some s => date_unit_of_string s
              | None => Some (datetimeUnit initial_encoder)
              end = Some u).
    { destruct (sdateFormat a) as [s|] eqn:Hs; [|eexists; reflexivity].
      destruct (date_unit_of_string s) as [u|] eqn:Hf; [eexists; reflexivity|].
      exfalso. apply Hok. right. left. exists s. split; [exact Hs|].
      intros Hin. exact (date_unit_of_string_Some s Hin Hf). }
    destruct Hd as (u & ->).
    destruct (odefHandler a) as [[| |]|]; try congruence; eexists; reflexivity.
Qed.

(** X4: [objToJSON] returns a text exactly when the options are accepted,
    the writer comes back with no Python exception pending and no [errorMsg],
    the pointer it returned is not NULL and the bytes there decode as UTF-8;
    the text is then the one at that pointer.  With everything else in place
    a NULL pointer is dereferenced, and bytes that do not decode give NULL
    with the decoder's exception. *)
Theorem objToJSON_returns_text_iff {Obj} (MAXD : Z)
    (w : Obj -> PyObjectEncoder -> EncodeResult) (utf8 : list byte -> bool)
    (a : Args Obj) (s : list byte) :
  (objToJSON_return MAXD w utf8 a = Done (RetUnicode s) <->
   exists enc, configure_encoder MAXD a = inr enc /\
               PyErr_Occurred (w (oinput a) enc) = None /\
               errorMsg (w (oinput a) enc) = None /\
               ret (w (oinput a) enc) <> NullPtr /\
               utf8 (ret_text (w (oinput a) enc)) = true /\
               s = ret_text (w (oinput a) enc)) /\
  (objToJSON_return MAXD w utf8 a = Crash <->
   exists enc, configure_encoder MAXD a = inr enc /\
               PyErr_Occurred (w (oinput a) enc) = None /\
               errorMsg (w (oinput a) enc) = None /\
               ret (w (oinput a) enc) = NullPtr) /\
  (forall enc, configure_encoder MAXD a = inr enc ->
     PyErr_Occurred (w (oinput a) enc) = None ->
     errorMsg (w (oinput a) enc) = None ->
     ret (w (oinput a) enc) <> NullPtr ->
     utf8 (ret_text (w (oinput a) enc)) = false ->
     objToJSON_return MAXD w utf8 a = Done (RetNULL unicode_decode_error)).
Proof.
  unfold objToJSON_return, finish_encode, PyUnicode_FromString.
  destruct (configure_encoder MAXD a) as [e|enc].
  { split; [|split].
    - split; [discriminate|]. intros (enc & H & _). discriminate.
    - split; [discriminate|]. intros (enc & H & _). discriminate.
    - intros enc H. discriminate. }
  destruct (PyErr_Occurred (w (oinput a) enc)) as [e|] eqn:Hp;
    [|destruct (errorMsg (w (oinput a) enc)) as [m|] eqn:Hm]; cbn.
  - split; [|split].
    + split; [discriminate|]. intros (enc' & [= <-] & H & _). congruence.
    + split; [discriminate|]. intros (enc' & [= <-] & H & _). congruence.
    + intros enc' [= <-] H. congruence.
  - split; [|split].
    + split; [discriminate|]. intros (enc' & [= <-] & _ & H & _). congruence.
    + split; [discriminate|]. intros (enc' & [= <-] & _ & H & _). congruence.
    + intros enc' [= <-] _ H. congruence.
  - destruct (decide (ret (w (oinput a) enc) = NullPtr)) as [Hn|Hn].
    + split; [|split].
      * split; [discriminate|]. intros (enc' & [= <-] & _ & _ & H & _). congruence.
      * split; [intros _; exists enc; auto | reflexivity].
      * intros enc' [= <-] _ _ H. congruence.
    + destruct (utf8 (ret_text (w (oinput a) enc))) eqn:Hu.
      * split; [|split].
        -- split.
           ++ intros [= <-]. exists enc. auto 10.
           ++ intros (enc' & [= <-] & _ & _ & _ & _ & ->). reflexivity.
        -- split; [discriminate|]. intros (enc' & [= <-] & _ & _ & H). congruence.
        -- intros enc' [= <-] _ _ _ H. congruence.
      * split; [|split].
        -- split; [discriminate|].
           intros (enc' & [= <-] & _ & _ & _ & H & _). congruence.
        -- split; [discriminate|]. intros (enc' & [= <-] & _ & _ & H). congruence.
        -- intros enc' [= <-] _ _ _ _. reflexivity.
Qed.

(** X5: whatever the options and the writer do, [objToJSON] calls the writer
    at most once, with the configured encoder, and afterwards releases at
    most one block, which is the pointer the writer returned and never the
    stack buffer. *)
Theorem objToJSON_event_log {Obj} (MAXD : Z)
    (w : Obj -> PyObjectEncoder -> EncodeResult) (a : Args Obj) :
  (snd (objToJSON MAXD w a) = [] /\
   exists e, configure_encoder MAXD a = inl e) \/
  (exists enc, configure_encoder MAXD a = inr enc /\
     (snd (objToJSON MAXD w a) = [EvEncode enc] \/
      snd (objToJSON MAXD w a) = [EvEncode enc; EvFree (ret (w (oinput a) enc))] /\
      ret (w (oinput a) enc) <> StackBuffer /\
      PyErr_Occurred (w (oinput a) enc) = None)).
Proof.
  unfold objToJSON, finish_encode.
  destruct (configure_encoder MAXD a) as [e|enc]; cbn.
  - left. split; [reflexivity|]. exists e. reflexivity.
  - right. exists enc. split; [reflexivity|].
    destruct (PyErr_Occurred (w (oinput a) enc)) as [e|]; cbn; [left; reflexivity|].
    destruct (errorMsg (w (oinput a) enc)) as [m|]; cbn;
      destruct (decide (ret (w (oinput a) enc) = StackBuffer)); auto.
Qed.

(** ** Type dispatcher: invariants *)

(** X6: whatever it is given, the dispatcher leaves nothing staged on the
    encoder: a staged array element is consumed by the call that sees it.
    And unless the default handler is invoked (a staged element of an
    unhandled dtype with a handler installed), the configuration the call
    leaves is the one it found: the ASCII and HTML flags, the precision, the
    date mode and unit, the orientation with its saved copy, and the
    handler. *)
Theorem dispatch_clears_staging (enc : PyObjectEncoder) (raw : NpyRaw)
    (obj : PyScalarObject) :
  let r := Object_beginTypeContext enc raw obj in
  npyType (d_enc r) < 0 /\
  (~ (0 <= npyType enc /\ d_type r = JT_INVALID /\ defaultHandler enc = true) ->
   forceASCII (d_enc r) = forceASCII enc /\
   encodeHTMLChars (d_enc r) = encodeHTMLChars enc /\
   doublePrecision (d_enc r) = doublePrecision enc /\
   datetimeIso (d_enc r) = datetimeIso enc /\
   datetimeUnit (d_enc r) = datetimeUnit enc /\
   outputFormat (d_enc r) = outputFormat enc /\
   originalOutputFormat (d_enc r) = originalOutputFormat enc /\
   defaultHandler (d_enc r) = defaultHandler enc).
Proof.
  unfold Object_beginTypeContext.
  destruct (0 <=? npyType enc) eqn:E.
  - destruct (NpyTypeToJSONType enc (npyType enc) raw) as [[ty co] lv]. cbn.
    split; [lia|]. intros _. repeat split; reflexivity.
  - apply Z.leb_gt in E.
    match goal with
    | |- context [d_enc ?t] =>
        assert (Hd : d_enc t = enc)
          by (destruct obj; cbn; repeat case_match; reflexivity)
    end.
    cbv zeta. rewrite Hd. split; [exact E|]. intros _. repeat split; reflexivity.
Qed.





(** ** Label pre-encoder: success and the keys written from its slices *)

Section EncodeLabelsOutcome.
Context {L : Type}.
Variable getitem_ok : L -> bool.
Variable W : bool -> L -> EncodedLabel.
Variable malloc_ok : Z -> bool.

Lemma encodeLabels_loop_Labels_iff staged : forall items ret,
  encodeLabels_loop getitem_ok W malloc_ok staged items = Labels ret <->
  forallb (label_encodes getitem_ok W malloc_ok staged) items = true /\
  ret = map (fun x => label_slice (el_out (W staged x))) items.
Proof.
  induction items as [|x rest IH]; intros ret; cbn.
  - split; [intros [= <-]; auto | intros [_ ->]; reflexivity].
  - unfold label_encodes at 1. rewrite <- negb_orb.
    destruct (staged || getitem_ok x); cbn;
      [|split; [discriminate | intros [H _]; discriminate H]].
    destruct (el_failed (W staged x)); cbn;
      [split; [discriminate | intros [H _]; discriminate H]|].
    destruct (malloc_ok (label_len (el_out (W staged x)))); cbn;
      [|split; [discriminate | intros [H _]; discriminate H]].
    destruct (encodeLabels_loop getitem_ok W malloc_ok staged rest) as [e|r] eqn:E.
    + split; [discriminate|]. intros [Hall ->].
      pose proof (proj2 (IH _) (conj Hall eq_refl)) as H. discriminate H.
    + destruct (proj1 (IH r) eq_refl) as [Hall Hr].
      split.
      * intros [= <-]. split; [exact Hall|]. rewrite Hr. reflexivity.
      * intros [_ ->]. rewrite Hr. reflexivity.
Qed.

(** X9: the pre-encoder returns slices exactly when the label array has at
    least [num] entries, the pointer array is allocated, and every one of the
    first [num] labels is fetched, encoded without failure and given a block;
    then the result holds the slices of exactly those labels, in order.  One
    label that fails makes the whole call return NULL, and labels past the
    first [num] are never looked at. *)
Theorem NpyArr_encodeLabels_all_or_nothing (arr : LabelArray L) (num : Z)
    (ret : list (list byte)) :
  NpyArr_encodeLabels getitem_ok W malloc_ok (Some arr) num = Labels ret <->
  num <= Z.of_nat (length (la_items arr)) /\
  malloc_ok (8 * num) = true /\
  forallb (label_encodes getitem_ok W malloc_ok (label_is_staged (la_type arr)))
          (take (Z.to_nat num) (la_items arr)) = true /\
  ret = map (fun x => label_slice (el_out (W (label_is_staged (la_type arr)) x)))
            (take (Z.to_nat num) (la_items arr)).
Proof.
  unfold NpyArr_encodeLabels.
  destruct (Z.of_nat (length (la_items arr)) <? num) eqn:E.
  { apply Z.ltb_lt in E. split; [discriminate|]. intros [H _]. lia. }
  apply Z.ltb_ge in E.
  destruct (malloc_ok (8 * num)); cbn.
  - rewrite encodeLabels_loop_Labels_iff. tauto.
  - split; [discriminate|]. intros (_ & H & _). discriminate H.
Qed.
End EncodeLabelsOutcome.

(** X10: from a slice of the pre-encoder, the array driver's get-name
    writes the key with its quotes and the colon, and nothing else: the
    bytes of the slice up to its terminator. *)
Theorem NpyArr_getLabel_writes_key (buffer out body : list byte)
    (labels : list (list byte)) (i : nat) :
  writer_output out body -> labels !! i = Some (label_slice out) ->
  NpyArr_getLabel buffer (Z.of_nat i) labels
  = Some (buffer ++ [QUOTE] ++ label_inner body ++ [QUOTE; COLON]).
Proof.
  intros Hw Hl. unfold NpyArr_getLabel.
  destruct (Z.of_nat i <? 0) eqn:E; [apply Z.ltb_lt in E; lia|].
  rewrite Nat2Z.id, Hl.
  destruct (label_slice_layout out body Hw) as [-> Hn].
  replace ([QUOTE] ++ label_inner body ++ [QUOTE; COLON; NUL])
    with (([QUOTE] ++ label_inner body ++ [QUOTE; COLON]) ++ NUL :: [])
    by (rewrite <- !app_assoc; reflexivity).
  rewrite strlen_no_nul.
  - rewrite take_app_length. reflexivity.
  - intros Hin. apply elem_of_app in Hin as [Hin|Hin].
    + apply list_elem_of_singleton in Hin. discriminate Hin.
    + apply elem_of_app in Hin as [Hin|Hin]; [exact (Hn Hin)|].
      repeat (apply elem_of_cons in Hin as [Hin|Hin]; [discriminate Hin|]).
      inversion Hin.
Qed.

(** The key of the text label [ab]. *)
Lemma NpyArr_getLabel_writes_key_witness :
  NpyArr_getLabel [x7b] 0 [label_slice [x22; x61; x62; x22; x00]]
  = Some ([x7b] ++ [QUOTE] ++ label_inner [x22; x61; x62; x22] ++ [QUOTE; COLON]).
Proof.
  apply (NpyArr_getLabel_writes_key [x7b] [x22; x61; x62; x22; x00]
           [x22; x61; x62; x22] [label_slice [x22; x61; x62; x22; x00]] 0).
  - split; [reflexivity|]. split.
    + intros H. repeat (apply elem_of_cons in H as [H|H]; [discriminate H|]).
      inversion H.
    + intros _. exists [x61; x62]. reflexivity.
  - reflexivity.
Defined.

(** ** Orientation across a whole value *)

Lemma set_outputFormat_restore (enc : PyObjectEncoder) (f : PANDAS_FORMAT) :
  originalOutputFormat enc = outputFormat enc ->
  set_outputFormat (originalOutputFormat (set_outputFormat f enc))
                   (set_outputFormat f enc) = enc.
Proof. destruct enc; cbn. intros ->. reflexivity. Qed.

Lemma iterate_step_item child d obj k enc tc x tc' enc' :
  iterNext d obj enc tc = Done (NextItem x tc') -> child enc x = Done enc' ->
  iterate child d obj (S k) enc tc = iterate child d obj k enc' tc'.
Proof. intros Hn Hc. cbn [iterate]. rewrite Hn, Hc. reflexivity. Qed.

Lemma iterate_step_stop child d obj k enc tc tc' :
  iterNext d obj enc tc = Done (NextStop tc') ->
  iterate child d obj (S k) enc tc = iterEnd d enc tc'.
Proof. intros Hn. cbn [iterate]. rewrite Hn. reflexivity. Qed.

(** An object that holds no table leaves the encoder as it found it, under
    every orientation: the vector driver forces VALUES under SPLIT and puts
    the saved orientation back. *)
Lemma encode_frame_free_any fuel : forall enc obj,
  originalOutputFormat enc = outputFormat enc ->
  frame_free obj = true -> (obj_size obj + 2 < fuel)%nat ->
  encode fuel enc obj = Done enc.
Proof.
  induction fuel as [|f IH]; intros enc obj Ho Hff Hsz; [lia|].
  destruct (decide (outputFormat enc = SPLIT)) as [Hs|Hs];
    [|apply encode_frame_free_total; auto; lia].
  assert (Hseq : forall d l, (d = List_iter \/ d = NpyArr_iter) ->
            forallb frame_free l = true ->
            (sum_list (map obj_size l) + 3 < S f)%nat ->
            iterate (encode f) d obj f enc (mkTC 0 false None l) = Done enc).
  { intros d l Hd Hl Hlt. apply iterate_sequence_total; cbn; auto; try lia.
    - intros x Hx. apply IH; auto.
      + eapply forallb_elem_of; eassumption.
      + pose proof (sum_list_elem l x Hx). lia.
    - pose proof (sum_list_length l). lia. }
  destruct obj as [|l|l|n vs|n i vs|]; cbn in Hff, Hsz; try discriminate.
  - reflexivity.
  - cbn. apply Hseq; auto; lia.
  - cbn. apply Hseq; auto; lia.
  - (* an index under SPLIT: name, data *)
    apply andb_true_iff in Hff as [Hn Hvs].
    pose proof (obj_size_pos n) as Hpn.
    cbn [encode dispatch_container]. rewrite decide_True by exact Hs.
    cbn [iterBegin fst snd]. unfold Index_iterBegin, createTypeContext.
    cbn [tc_frame tc_seq].
    destruct f as [|[|[|k]]]; try lia.
    erewrite iterate_step_item;
      [|reflexivity|apply (IH enc n Ho Hn); lia].
    erewrite iterate_step_item;
      [|reflexivity|apply (IH enc (NdArray vs) Ho Hvs); cbn; lia].
    erewrite iterate_step_stop; reflexivity.
  - (* a vector under SPLIT: name, index, data under VALUES, then restore *)
    apply andb_true_iff in Hff as [Hni Hvs].
    apply andb_true_iff in Hni as [Hn Hi].
    pose proof (obj_size_pos n) as Hpn. pose proof (obj_size_pos i) as Hpi.
    cbn [encode dispatch_container]. rewrite decide_True by exact Hs.
    cbn [iterBegin fst snd]. unfold Series_iterBegin, createTypeContext.
    cbn [tc_frame tc_seq].
    assert (Hv : outputFormat (set_outputFormat VALUES enc) <> SPLIT)
      by (cbn; discriminate).
    destruct f as [|[|[|[|k]]]]; try lia.
    erewrite iterate_step_item;
      [|reflexivity|apply (encode_frame_free_total _ _ n Hn Hv); lia].
    erewrite iterate_step_item;
      [|reflexivity|apply (encode_frame_free_total _ _ i Hi Hv); lia].
    erewrite iterate_step_item;
      [|reflexivity
       |apply (encode_frame_free_total _ _ (NdArray vs) Hvs Hv); cbn; lia].
    erewrite iterate_step_stop; [|reflexivity].
    cbn [iterEnd]. unfold Series_iterEnd.
    rewrite set_outputFormat_restore by exact Ho. reflexivity.
Qed.

(** A table whose labels, cells, rows and columns hold no table is encoded
    with every encoder field as before, except that the saved orientation is
    now the orientation. *)
Lemma encode_flat_table_exact fuel enc cols idx vals li lr :
  frame_free cols = true -> frame_free idx = true ->
  forallb frame_free vals = true ->
  forallb frame_free li = true -> forallb frame_free lr = true ->
  (obj_size (PdDataFrame cols idx vals (Some li) (Some lr)) < fuel)%nat ->
  encode fuel enc (PdDataFrame cols idx vals (Some li) (Some lr))
  = Done (set_originalOutputFormat (outputFormat enc) enc).
Proof.
  intros Hc Hi Hv Hli Hlr Hsz.
  destruct fuel as [|f]; [lia|]. cbn in Hsz.
  pose proof (sum_list_length li). pose proof (sum_list_length lr).
  cbn [encode dispatch_container iterBegin].
  destruct (decide (outputFormat enc = SPLIT)) as [Hs|Hs].
  - unfold DataFrame_iterBegin. cbn [outputFormat set_originalOutputFormat].
    rewrite decide_True by exact Hs.
    cbn [fst snd tc_index tc_frame tc_seq tc_cStr createTypeContext].
    etransitivity.
    + apply iterate_split_total; auto; cbn; try lia; try discriminate.
    + destruct enc; cbn in *; subst; reflexivity.
  - unfold DataFrame_iterBegin. cbn [outputFormat set_originalOutputFormat].
    rewrite decide_False by exact Hs.
    destruct (decide (outputFormat enc = COLUMNS)) as [Hcol|Hcol];
      destruct (decide (outputFormat enc = RECORDS)) as [Hrec|Hrec];
      try congruence; cbn [fst snd];
      (etransitivity;
       [eapply iterate_rows_total;
        [eauto 10 | cbn; auto | cbn; try discriminate; auto
        | reflexivity | eassumption | lia | lia]
       | destruct enc; cbn in *; subst; reflexivity]).
Qed.

(** X11: a value whose tables hold no table and sit at the top or in lists
    and arrays, encoded by an encoder whose saved orientation equals its
    orientation (as [objToJSON] sets it up), is encoded to the end under any
    of the five orientations, and the encoder is afterwards exactly as it
    was: every table and vector in it saw the configured orientation. *)
Theorem encode_keeps_orientation (fuel : nat) : forall enc obj,
  originalOutputFormat enc = outputFormat enc ->
  tables_flat obj = true -> (obj_size obj + 2 < fuel)%nat ->
  encode fuel enc obj = Done enc.
Proof.
  induction fuel as [|f IH]; intros enc obj Ho Htf Hsz; [lia|].
  assert (Hseq : forall d l, (d = List_iter \/ d = NpyArr_iter) ->
            forallb tables_flat l = true ->
            (sum_list (map obj_size l) + 3 < S f)%nat ->
            iterate (encode f) d obj f enc (mkTC 0 false None l) = Done enc).
  { intros d l Hd Hl Hlt. apply iterate_sequence_total; cbn; auto; try lia.
    - intros x Hx. apply IH; auto.
      + eapply forallb_elem_of; eassumption.
      + pose proof (sum_list_elem l x Hx). lia.
    - pose proof (sum_list_length l). lia. }
  destruct obj as [|l|l|n vs|n i vs|c i vs its rows].
  - reflexivity.
  - cbn in Htf, Hsz |- *. apply Hseq; auto; lia.
  - cbn in Htf, Hsz |- *. apply Hseq; auto; lia.
  - apply encode_frame_free_any; auto.
  - apply encode_frame_free_any; auto.
  - cbn [tables_flat] in Htf.
    destruct its as [li|]; [|rewrite andb_false_r in Htf; discriminate].
    destruct rows as [lr|]; [|rewrite andb_false_r in Htf; discriminate].
    repeat (apply andb_true_iff in Htf as [Htf ?]).
    rewrite encode_flat_table_exact by (auto; lia).
    f_equal. destruct enc; cbn in *; subst; reflexivity.
Qed.

(** Two tables and a vector in a list, under SPLIT. *)
Lemma encode_keeps_orientation_witness :
  encode 60 (encoder_with SPLIT) frames_and_series = Done (encoder_with SPLIT).
Proof.
  apply (encode_keeps_orientation 60 (encoder_with SPLIT) frames_and_series).
  - reflexivity.
  - reflexivity.
  - cbn. lia.
Defined.

(** ** Iterator driver (sets) *)

Lemma Iter_iterate_releases {A : Type} (k : nat) : forall (cur : option A) rest,
  Iter_iterate k (mkIter cur (Some rest))
  = Done (map Some (take k rest),
          Iter_release (mkIter cur (Some rest))
          ++ map Py_DECREF_item (take k rest) ++ [Py_DECREF_iterator]).
Proof.
  induction k as [|k IH]; intros cur rest.
  - reflexivity.
  - destruct rest as [|x rest]; cbn [Iter_iterate Iter_iterNext it_iterator].
    + reflexivity.
    + rewrite IH. reflexivity.
Qed.

(** X12: however many items the writer takes from a set before it ends the
    iteration, the driver exposes the items in the order the iterator yields
    them, releases each item [PyIter_Next] gave it exactly once, in that
    order, and then the iterator once. *)
Theorem Iter_releases_each_item_once {A : Type} (k : nat) (items : list A) :
  Iter_iterate k (Iter_iterBegin items)
  = Done (map Some (take k items),
          map Py_DECREF_item (take k items) ++ [Py_DECREF_iterator]).
Proof. unfold Iter_iterBegin. rewrite Iter_iterate_releases. reflexivity. Qed.

(** ** Strider: the elements visited *)

Lemma leaf_cells_descend n1 evs1 n3 evs2 :
  leaf_cells (EvDescend n1 :: evs1 ++ EvPop n3 :: evs2)
  = leaf_cells evs1 ++ leaf_cells evs2.
Proof.
  unfold leaf_cells. cbn [omap list_omap].
  induction evs1 as [|e evs1 IH]; [reflexivity|].
  cbn [app omap list_omap]. destruct e; cbn; rewrite ?IH; reflexivity.
Qed.

Lemma leaf_addresses_cells evs : leaf_addresses evs = map fst (leaf_cells evs).
Proof.
  unfold leaf_addresses, leaf_cells.
  induction evs as [|e evs IH]; [reflexivity|].
  cbn [omap list_omap]. destruct e; cbn; rewrite ?IH; reflexivity.
Qed.

Lemma leaf_names_cells columnLabels rowLabels evs :
  leaf_names columnLabels rowLabels evs
  = map (fun c => NpyArr_getLabel [] (snd c) columnLabels) (leaf_cells evs).
Proof.
  unfold leaf_names, leaf_cells.
  induction evs as [|e evs IH]; [reflexivity|].
  cbn [omap list_omap]. destruct e; cbn; first [exact IH | f_equal; exact IH].
Qed.

Lemma walk_sticky raises fuel fn n evs pe n' :
  walk raises fuel fn true n = Some (evs, pe, n') -> pe = true.
Proof.
  destruct fuel as [|f]; [discriminate|].
  destruct fn; cbn; intros [= _ <- _]; reflexivity.
Qed.

Lemma NpyArr_iterNextItem_fields n item n1 :
  NpyArr_iterNextItem false n = (Some item, n1) ->
  item_ptr item = dataptr n /\ dataptr n1 = dataptr n + stride n /\
  stride n1 = stride n.
Proof.
  unfold NpyArr_iterNextItem. cbn.
  destruct (dim n <=? zget (index n) (stridedim n)); [discriminate|].
  intros [= <- <-]. cbn.
  destruct (PyTypeNum_ISDATETIME _); auto.
Qed.

Lemma NpyArr_iterNext_descend_dataptr n n1 :
  NpyArr_iterNext false n = (Fn_NpyArr_iterNext, Some ItemArray, n1) ->
  dataptr n1 = dataptr n.
Proof.
  unfold NpyArr_iterNext. cbn.
  destruct ((ndim n <=? curdim n) || (dim n <=? zget (index n) (stridedim n)));
    [discriminate|].
  intros [= <-]. reflexivity.
Qed.

(** One step along an axis: the cells below the current position, then the
    rest of the axis. *)
Lemma level_cells_step obj tr n n' :
  zget (index n) (stridedim n) < dim n ->
  curdim n' = curdim n -> ndim n' = ndim n -> stride n' = stride n ->
  dim n' = dim n -> stridedim n' = stridedim n ->
  zget (index n') (stridedim n) = zget (index n) (stridedim n) + 1 ->
  dataptr n' = dataptr n + stride n ->
  level_cells obj tr n
  = sub_cells obj tr (curdim n) (Z.to_nat (ndim n - curdim n)) (dataptr n)
              (zget (index n) (stridedim n))
    ++ level_cells obj tr n'.
Proof.
  intros Hlt Hc Hn Hs Hd Hsd Hi Hp. unfold level_cells.
  rewrite Hc, Hn, Hs, Hd, Hsd, Hi, Hp.
  replace (Z.to_nat (dim n - zget (index n) (stridedim n)))
    with (S (Z.to_nat (dim n - (zget (index n) (stridedim n) + 1)))) by lia.
  cbn [seq map concat]. rewrite <- seq_shift, map_map.
  f_equal.
  - f_equal; lia.
  - f_equal. apply map_ext. intros j. f_equal; lia.
Qed.

Section StriderElements.
Variable obj : PyArrayObject.
Variable tr : bool.
Hypothesis Hwf : wf_array obj.

(** What [walk_level] promises for some fuel holds of every run that ends
    without error. *)
Lemma walk_post raises fuel fn n evs n' :
  strider_inv obj tr n ->
  (fn = Fn_NpyArr_iterNextItem ->
   ndim n <= curdim n \/ dim n <= zget (index n) (stridedim n)) ->
  walk raises fuel fn false n = Some (evs, false, n') ->
  level_post obj tr n n' evs (Z.to_nat (ndim n - curdim n)).
Proof.
  intros Hinv Hfn Hw.
  destruct (walk_level obj tr Hwf raises _ n fn false Hinv eq_refl Hfn)
    as (fuel0 & evs0 & pe0 & n0 & Hw0 & Hpost).
  pose proof (walk_mono raises _ (Nat.max fuel fuel0) _ _ _ _ Hw ltac:(lia)) as H1.
  pose proof (walk_mono raises _ (Nat.max fuel fuel0) _ _ _ _ Hw0 ltac:(lia)) as H2.
  rewrite H1 in H2. injection H2 as <- <- <-. apply Hpost. reflexivity.
Qed.

(** A context of the walk that ends without error has exposed exactly the
    cells of the rest of its axis, in order. *)
Lemma walk_cells raises fuel : forall fn n evs n',
  strider_inv obj tr n ->
  (fn = Fn_NpyArr_iterNextItem ->
   ndim n <= curdim n \/ dim n <= zget (index n) (stridedim n)) ->
  walk raises fuel fn false n = Some (evs, false, n') ->
  leaf_cells evs = level_cells obj tr n.
Proof.
  induction fuel as [|f IH]; intros fn n evs n' Hinv Hfn Hw; [discriminate|].
  pose proof (inv_index _ _ _ Hinv) as Hix.
  pose proof (inv_curdim _ _ _ Hinv) as Hcd.
  destruct (Z_le_gt_dec (dim n) (zget (index n) (stridedim n))) as [Hex|Hlt].
  { (* the axis is exhausted *)
    pose proof (walk_mono raises _ (S f) _ _ _ _ (walk_exhausted raises fn n Hex)
                  ltac:(lia)) as H1.
    rewrite H1 in Hw. injection Hw as <- <-.
    unfold level_cells.
    replace (Z.to_nat (dim n - zget (index n) (stridedim n))) with O by lia.
    reflexivity. }
  destruct (Z_le_gt_dec (ndim n) (curdim n)) as [Hleaf|Hdeep].
  - (* a leaf *)
    destruct (walk_leaf_step raises fn n ltac:(intros _; lia) ltac:(lia))
      as (item & n1 & Hitem & Hstep).
    rewrite Hstep in Hw.
    destruct (NpyArr_iterNextItem_inv obj tr n item n1 Hinv Hitem)
      as (Hinv1 & Hc1 & Hidx1 & _ & _).
    destruct (inv_same_level obj tr n n1 Hinv Hinv1 Hc1) as (Hnd1 & Hsd1 & Hdim1).
    destruct (NpyArr_iterNextItem_fields n item n1 Hitem) as (Hptr & Hdp & Hst).
    destruct (raises (item_ptr item)).
    { destruct (walk raises f Fn_NpyArr_iterNextItem true n1)
        as [[[evs0 pe0] n2]|] eqn:E; [|discriminate].
      apply walk_sticky in E. congruence. }
    destruct (walk raises f Fn_NpyArr_iterNextItem false n1)
      as [[[evs0 pe0] n2]|] eqn:E; [|discriminate].
    injection Hw as <- -> <-.
    rewrite (level_cells_step obj tr n n1) by (auto; lia).
    rewrite <- (IH Fn_NpyArr_iterNextItem n1 evs0 n2 Hinv1
                  ltac:(intros _; left; lia) E).
    replace (Z.to_nat (ndim n - curdim n)) with O by lia.
    unfold leaf_cells. cbn [omap list_omap sub_cells app].
    rewrite Hptr, Hsd1, Hidx1. do 2 f_equal. lia.
  - (* a sub-array *)
    destruct fn; [|destruct (Hfn eq_refl); lia].
    destruct (walk_descend_step obj tr Hwf raises n Hinv ltac:(lia) ltac:(lia))
      as (n1 & Hn1 & Hstep).
    destruct (NpyArr_iterNext_descend obj tr Hwf n Hinv ltac:(lia) ltac:(lia))
      as (n1' & Hn1' & Hinv1 & Hc1 & Hzero & Hidx1 & Hkeep1).
    rewrite Hn1 in Hn1'. injection Hn1' as <-.
    pose proof (NpyArr_iterNext_descend_dataptr n n1 Hn1) as Hdp1.
    assert (Hnd1 : ndim n1 = ndim n) by (destruct Hinv, Hinv1; congruence).
    rewrite Hstep in Hw.
    destruct (walk raises f Fn_NpyArr_iterNext false n1)
      as [[[evs1 pe1] n2]|] eqn:Hw1; [|discriminate].
    destruct (walk raises f Fn_NpyArr_iterNext pe1 (NpyArrPassThru_iterEnd n2))
      as [[[evs2 pe2] n4]|] eqn:Hw2; [|discriminate].
    injection Hw as <- -> <-.
    destruct pe1; [apply walk_sticky in Hw2; discriminate|].
    destruct (walk_invariant obj tr Hwf raises _ _ _ _ _ _ _ Hinv1 Hw1)
      as (_ & Hinv2 & Hc2).
    destruct (NpyArrPassThru_iterEnd_inv obj tr n2 Hinv2 ltac:(lia))
      as (Hinv3 & Hc3 & Hidx3).
    set (n3 := NpyArrPassThru_iterEnd n2) in *.
    assert (Hc3' : curdim n3 = curdim n) by lia.
    destruct (inv_same_level obj tr n n3 Hinv Hinv3 Hc3') as (Hnd3 & Hsd3 & Hdim3).
    destruct (walk_post raises f Fn_NpyArr_iterNext n1 evs1 n2 Hinv1
                ltac:(discriminate) Hw1)
      as (_ & _ & Hk1).
    assert (Hsd_n : axis tr (ndim n1) (curdim n) = stridedim n)
      by (rewrite Hnd1; symmetry; apply (inv_stridedim _ _ _ Hinv)).
    assert (Hcur3 : zget (index n3) (stridedim n)
                    = zget (index n) (stridedim n) + 1).
    { rewrite Hidx3, <- Hsd_n, Hk1 by lia. rewrite Hsd_n. exact Hidx1. }
    assert (Hst3 : stride n3 = stride n).
    { rewrite (inv_stride _ _ _ Hinv3), (inv_stride _ _ _ Hinv), Hsd3. reflexivity. }
    assert (Hout : outer_offset tr n3 = outer_offset tr n).
    { apply outer_offset_ext.
      - rewrite (inv_array _ _ _ Hinv3), (inv_array _ _ _ Hinv). reflexivity.
      - exact Hnd3.
      - exact Hc3'.
      - intros j Hj. rewrite Hidx3. rewrite <- Hnd1, Hk1 by lia.
        rewrite Hnd1. apply Hkeep1, Hj. }
    assert (Hdp3 : dataptr n3 = dataptr n + stride n).
    { rewrite (inv_dataptr _ _ _ Hinv3), (inv_dataptr _ _ _ Hinv).
      rewrite Hst3, Hsd3, Hcur3, Hout. ring. }
    rewrite leaf_cells_descend.
    rewrite (level_cells_step obj tr n n3) by (auto; lia).
    rewrite (IH Fn_NpyArr_iterNext n1 evs1 n2 Hinv1 ltac:(discriminate) Hw1).
    rewrite (IH Fn_NpyArr_iterNext n3 evs2 n4 Hinv3 ltac:(discriminate) Hw2).
    f_equal.
    replace (Z.to_nat (ndim n - curdim n))
      with (S (Z.to_nat (ndim n1 - curdim n1))) by lia.
    cbn [sub_cells]. unfold level_cells.
    rewrite Hzero, Hdp1, Hc1, Z.sub_0_r.
    rewrite (inv_dim _ _ _ Hinv1), (inv_stride _ _ _ Hinv1),
      (inv_stridedim _ _ _ Hinv1), Hnd1, Hc1, (inv_ndim _ _ _ Hinv).
    reflexivity.
Qed.
End StriderElements.

(** Walked first axis to last, the cells below depth [d] lie at the
    addresses given by the tail of the shape. *)
Lemma sub_cells_forward obj : forall r (d : nat) p k,
  (S (d + r) = length (PyArray_DIMS obj))%nat ->
  length (PyArray_STRIDES obj) = length (PyArray_DIMS obj) ->
  map fst (sub_cells obj false (Z.of_nat d) r p k)
  = element_addresses p (drop (S d) (PyArray_DIMS obj))
                      (drop (S d) (PyArray_STRIDES obj)).
Proof.
  induction r as [|r IH]; intros d p k Hlen Hst; cbn [sub_cells].
  - rewrite !drop_ge by lia. reflexivity.
  - destruct (PyArray_DIMS obj !! S d) as [x|] eqn:Hx;
      [|apply lookup_ge_None in Hx; lia].
    destruct (PyArray_STRIDES obj !! S d) as [s|] eqn:Hs;
      [|apply lookup_ge_None in Hs; lia].
    rewrite (drop_S _ _ _ Hx), (drop_S _ _ _ Hs). cbn [element_addresses].
    unfold axis. replace (Z.of_nat d + 1) with (Z.of_nat (S d)) by lia.
    unfold PyArray_DIM, PyArray_STRIDE.
    rewrite (zget_lookup _ _ _ Hx), (zget_lookup _ _ _ Hs).
    rewrite concat_map, map_map. f_equal. apply map_ext. intros j.
    apply IH; lia.
Qed.

(** Walked last axis to first, they are given by the front of the shape,
    reversed. *)
Lemma sub_cells_backward obj : forall r (d : nat) p k,
  (S (d + r) = length (PyArray_DIMS obj))%nat ->
  length (PyArray_STRIDES obj) = length (PyArray_DIMS obj) ->
  map fst (sub_cells obj true (Z.of_nat d) r p k)
  = element_addresses p (rev (take r (PyArray_DIMS obj)))
                      (rev (take r (PyArray_STRIDES obj))).
Proof.
  induction r as [|r IH]; intros d p k Hlen Hst; cbn [sub_cells].
  - reflexivity.
  - destruct (PyArray_DIMS obj !! r) as [x|] eqn:Hx;
      [|apply lookup_ge_None in Hx; lia].
    destruct (PyArray_STRIDES obj !! r) as [s|] eqn:Hs;
      [|apply lookup_ge_None in Hs; lia].
    rewrite (take_S_r _ _ _ Hx), (take_S_r _ _ _ Hs), !rev_unit.
    cbn [element_addresses].
    unfold axis, PyArray_NDIM.
    replace (Z.of_nat (length (PyArray_DIMS obj)) - 1 - (Z.of_nat d + 1))
      with (Z.of_nat r) by lia.
    unfold PyArray_DIM, PyArray_STRIDE.
    rewrite (zget_lookup _ _ _ Hx), (zget_lookup _ _ _ Hs).
    rewrite concat_map, map_map. f_equal. apply map_ext. intros j.
    replace (Z.of_nat d + 1) with (Z.of_nat (S d)) by lia.
    apply IH; lia.
Qed.

(** The cells of a whole array, as the first context of its walk has them
    before it. *)
Lemma level_cells_begin obj tr garbage :
  wf_array obj -> Z.of_nat (length garbage) = NPY_MAXDIMS ->
  map fst (level_cells obj tr (NpyArr_iterBegin obj tr garbage))
  = element_addresses (PyArray_DATA obj) (walk_order tr (PyArray_DIMS obj))
                      (walk_order tr (PyArray_STRIDES obj)).
Proof.
  intros (Hnd & Hst & _) Hlen. unfold PyArray_NDIM, NPY_MAXDIMS in *.
  unfold level_cells, NpyArr_iterBegin, walk_order, PyArray_NDIM.
  destruct tr; cbn [curdim ndim dataptr stride dim index stridedim].
  - (* last axis first *)
    set (m := (length (PyArray_DIMS obj) - 1)%nat).
    replace (Z.of_nat (length (PyArray_DIMS obj)) - 1) with (Z.of_nat m) by lia.
    rewrite zget_zset_eq by lia.
    destruct (PyArray_DIMS obj !! m) as [x|] eqn:Hx;
      [|apply lookup_ge_None in Hx; lia].
    destruct (PyArray_STRIDES obj !! m) as [s|] eqn:Hs;
      [|apply lookup_ge_None in Hs; lia].
    assert (Hrd : rev (PyArray_DIMS obj) = x :: rev (take m (PyArray_DIMS obj))).
    { rewrite <- (take_drop m (PyArray_DIMS obj)) at 1.
      rewrite (drop_S _ _ _ Hx), drop_ge by lia. apply rev_unit. }
    assert (Hrs : rev (PyArray_STRIDES obj)
                  = s :: rev (take m (PyArray_STRIDES obj))).
    { rewrite <- (take_drop m (PyArray_STRIDES obj)) at 1.
      rewrite (drop_S _ _ _ Hs), drop_ge by lia. apply rev_unit. }
    rewrite Hrd, Hrs. cbn [element_addresses].
    unfold PyArray_DIM, PyArray_STRIDE.
    rewrite (zget_lookup _ _ _ Hx), (zget_lookup _ _ _ Hs), !Z.sub_0_r.
    rewrite concat_map, map_map. f_equal. apply map_ext. intros j.
    change 0 with (Z.of_nat 0) at 1. rewrite Nat2Z.id.
    apply sub_cells_backward; lia.
  - (* first axis first *)
    rewrite zget_zset_eq by lia.
    destruct (PyArray_DIMS obj) as [|x dims] eqn:Hd; [cbn in Hnd; lia|].
    destruct (PyArray_STRIDES obj) as [|s strides] eqn:Hs; [discriminate|].
    cbn [element_addresses].
    unfold PyArray_DIM, PyArray_STRIDE. rewrite Hd, Hs.
    change (zget (x :: dims) 0) with x. change (zget (s :: strides) 0) with s.
    rewrite !Z.sub_0_r.
    rewrite concat_map, map_map. f_equal. apply map_ext. intros j.
    change 0 with (Z.of_nat 0) at 1.
    replace (Z.to_nat (Z.of_nat (length (x :: dims)) - 1))
      with (length dims) by (cbn [length]; lia).
    rewrite (sub_cells_forward obj (length dims) 0); rewrite ?Hd, ?Hs; cbn; auto.
Qed.

(** X13: the walk of an array ends, and when it ends without a Python error
    pending it has exposed every element exactly once: the addresses of the
    leaves, in order, are the base plus the sum of stride times position over
    the axes, with the last axis varying fastest (the first one under
    transpose). *)
Theorem strider_visits_each_element raises obj tr garbage :
  wf_array obj -> Z.of_nat (length garbage) = NPY_MAXDIMS ->
  exists fuel0 evs pe,
    (forall fuel, (fuel0 <= fuel)%nat ->
       NpyArr_encode raises fuel obj tr garbage = Some (evs, pe)) /\
    (pe = false ->
     leaf_addresses evs
     = element_addresses (PyArray_DATA obj) (walk_order tr (PyArray_DIMS obj))
                         (walk_order tr (PyArray_STRIDES obj))) /\
    ((forall p, raises p = false) -> pe = false).
Proof.
  intros Hwf Hlen.
  destruct (NpyArr_encode_terminates raises obj tr garbage Hwf Hlen)
    as (fuel0 & evs & pe & Hrun & _ & Hno).
  exists fuel0, evs, pe. split; [exact Hrun|]. split; [|exact Hno].
  intros ->. specialize (Hrun fuel0 ltac:(lia)). unfold NpyArr_encode in Hrun.
  destruct (walk raises fuel0 Fn_NpyArr_iterNext false (NpyArr_iterBegin obj tr garbage))
    as [[[evs0 pe0] n']|] eqn:Hw; [|discriminate].
  injection Hrun as <- ->.
  pose proof (NpyArr_iterBegin_inv obj tr Hwf garbage Hlen) as Hinv.
  rewrite leaf_addresses_cells. unfold leaf_cells. cbn [omap list_omap].
  fold (leaf_cells evs0).
  rewrite (walk_cells obj tr Hwf raises fuel0 Fn_NpyArr_iterNext _ evs0 n' Hinv
             ltac:(discriminate) Hw).
  apply level_cells_begin; assumption.
Qed.

(** The transposed 2x3 array: column by column. *)
Lemma strider_visits_each_element_witness :
  exists fuel0 evs pe,
    (forall fuel, (fuel0 <= fuel)%nat ->
       NpyArr_encode (fun _ => false) fuel array_2x3 true zero_index
       = Some (evs, pe)) /\
    (pe = false -> leaf_addresses evs = [1000; 1024; 1008; 1032; 1016; 1040]) /\
    ((forall p, (fun _ : Z => false) p = false) -> pe = false).
Proof.
  apply (strider_visits_each_element (fun _ => false) array_2x3 true zero_index).
  - unfold wf_array, PyArray_NDIM, NPY_MAXDIMS. cbn.
    repeat split; try lia. repeat constructor; lia.
  - reflexivity.
Defined.

Lemma map_seq_lookup {A B : Type} (l : list A) : forall (g : nat -> B) (h : A -> B),
  (forall j x, l !! j = Some x -> g j = h x) ->
  map g (seq 0 (length l)) = map h l.
Proof.
  induction l as [|a l IH]; intros g h H; [reflexivity|].
  cbn [length seq map]. rewrite <- seq_shift, map_map.
  rewrite (H O a eq_refl). f_equal.
  apply IH. intros j x Hj. apply (H (S j) x). exact Hj.
Qed.

Lemma concat_map_singleton {A B : Type} (c : A -> B) (l : list A) :
  concat (map (fun j => [c j]) l) = map c l.
Proof. induction l as [|a l IH]; cbn; [reflexivity|]. rewrite IH. reflexivity. Qed.

(** X14: for an array of one axis that comes with as many column labels as
    it has elements (a vector under INDEX or COLUMNS), the walk ends, and
    when it ends without a Python error pending the name written after the
    i-th leaf is the i-th label, up to its terminator: each element is
    written under its own label, and no read falls outside the label
    array. *)
Theorem labelled_vector_names raises obj tr garbage
    (columnLabels rowLabels : list (list byte)) :
  wf_array obj -> PyArray_NDIM obj = 1 ->
  Z.of_nat (length garbage) = NPY_MAXDIMS ->
  Z.of_nat (length columnLabels) = PyArray_DIM obj 0 ->
  exists fuel0 evs pe,
    (forall fuel, (fuel0 <= fuel)%nat ->
       NpyArr_encode raises fuel obj tr garbage = Some (evs, pe)) /\
    (pe = false ->
     leaf_names columnLabels rowLabels evs
     = map (fun l => Some (take (strlen l) l)) columnLabels) /\
    ((forall p, raises p = false) -> pe = false).
Proof.
  intros Hwf Hone Hlen Hlab.
  destruct (NpyArr_encode_terminates raises obj tr garbage Hwf Hlen)
    as (fuel0 & evs & pe & Hrun & _ & Hno).
  exists fuel0, evs, pe. split; [exact Hrun|]. split; [|exact Hno].
  intros ->. specialize (Hrun fuel0 ltac:(lia)). unfold NpyArr_encode in Hrun.
  destruct (walk raises fuel0 Fn_NpyArr_iterNext false (NpyArr_iterBegin obj tr garbage))
    as [[[evs0 pe0] n']|] eqn:Hw; [|discriminate].
  injection Hrun as <- ->.
  pose proof (NpyArr_iterBegin_inv obj tr Hwf garbage Hlen) as Hinv.
  rewrite leaf_names_cells. unfold leaf_cells. cbn [omap list_omap].
  fold (leaf_cells evs0).
  rewrite (walk_cells obj tr Hwf raises fuel0 Fn_NpyArr_iterNext _ evs0 n' Hinv
             ltac:(discriminate) Hw).
  unfold level_cells, NpyArr_iterBegin. rewrite Hone.
  unfold NPY_MAXDIMS in Hlen.
  destruct tr; cbn [curdim ndim dataptr stride dim index stridedim];
    change (1 - 1) with 0; rewrite zget_zset_eq by lia;
    change (Z.to_nat (0 - 0)) with O; cbn [sub_cells];
    rewrite concat_map_singleton, map_map, Z.sub_0_r, <- Hlab, Nat2Z.id;
    apply map_seq_lookup; intros j x Hj; cbn [snd];
    unfold NpyArr_getLabel;
    (destruct (0 + Z.of_nat j <? 0) eqn:E; [apply Z.ltb_lt in E; lia|]);
    replace (Z.to_nat (0 + Z.of_nat j)) with j by lia;
    rewrite Hj; reflexivity.
Qed.

(** A vector of three elements and its three labels. *)
Lemma labelled_vector_names_witness :
  exists fuel0 evs pe,
    (forall fuel, (fuel0 <= fuel)%nat ->
       NpyArr_encode (fun _ => false) fuel array_3 false zero_index
       = Some (evs, pe)) /\
    (pe = false ->
     leaf_names labels_3 [] evs
     = [Some [x22; x61; x22; x3a]; Some [x22; x62; x22; x3a];
        Some [x22; x63; x22; x3a]]) /\
    ((forall p, (fun _ : Z => false) p = false) -> pe = false).
Proof.
  apply (labelled_vector_names (fun _ => false) array_3 false zero_index
           labels_3 []).
  - unfold wf_array, PyArray_NDIM, NPY_MAXDIMS. cbn.
    repeat split; try lia. repeat constructor; lia.
  - reflexivity.
  - reflexivity.
  - reflexivity.
Defined.

(** ** Strider: a leaf that raises *)

Lemma until_raise_app {A : Type} (bad : A -> bool) (l1 l2 : list A) :
  until_raise bad (l1 ++ l2)
  = if existsb bad l1 then until_raise bad l1 else l1 ++ until_raise bad l2.
Proof.
  induction l1 as [|x l1 IH]; cbn; [reflexivity|].
  destruct (bad x); cbn; [reflexivity|]. rewrite IH.
  destruct (existsb bad l1); reflexivity.
Qed.

Lemma until_raise_none {A : Type} (bad : A -> bool) (l : list A) :
  existsb bad l = false -> until_raise bad l = l.
Proof.
  induction l as [|x l IH]; cbn; [reflexivity|].
  destruct (bad x); cbn; [discriminate|]. intros H. rewrite IH by exact H.
  reflexivity.
Qed.

Lemma until_raise_map {A B : Type} (f : A -> B) (bad : B -> bool) (l : list A) :
  map f (until_raise (fun c => bad (f c)) l) = until_raise bad (map f l) /\
  existsb (fun c => bad (f c)) l = existsb bad (map f l).
Proof.
  induction l as [|x l [IH1 IH2]]; cbn; [auto|].
  destruct (bad (f x)); cbn; [auto|]. rewrite IH1, IH2. auto.
Qed.

Lemma walk_sticky_nil raises fuel fn n evs pe n' :
  walk raises fuel fn true n = Some (evs, pe, n') -> evs = [] /\ pe = true.
Proof.
  destruct fuel as [|f]; [discriminate|].
  destruct fn; cbn; intros [= <- <- _]; auto.
Qed.

Lemma level_cells_head obj tr n :
  zget (index n) (stridedim n) < dim n ->
  exists rest,
    level_cells obj tr n
    = sub_cells obj tr (curdim n) (Z.to_nat (ndim n - curdim n)) (dataptr n)
                (zget (index n) (stridedim n)) ++ rest.
Proof.
  intros Hlt. unfold level_cells.
  replace (Z.to_nat (dim n - zget (index n) (stridedim n)))
    with (S (Z.to_nat (dim n - (zget (index n) (stridedim n) + 1)))) by lia.
  cbn [seq map concat]. eexists. f_equal. f_equal; lia.
Qed.

(** Below a position: the cells of the context one level down. *)
Lemma level_cells_descend obj tr n n1 :
  strider_inv obj tr n -> strider_inv obj tr n1 ->
  curdim n < ndim n -> curdim n1 = curdim n + 1 ->
  zget (index n1) (stridedim n1) = 0 -> dataptr n1 = dataptr n ->
  forall k,
    sub_cells obj tr (curdim n) (Z.to_nat (ndim n - curdim n)) (dataptr n) k
    = level_cells obj tr n1.
Proof.
  intros Hinv Hinv1 Hdeep Hc1 Hzero Hdp1 k.
  assert (Hnd1 : ndim n1 = ndim n) by (destruct Hinv, Hinv1; congruence).
  replace (Z.to_nat (ndim n - curdim n))
    with (S (Z.to_nat (ndim n1 - curdim n1))) by lia.
  cbn [sub_cells]. unfold level_cells.
  rewrite Hzero, Hdp1, Hc1, Z.sub_0_r.
  rewrite (inv_dim _ _ _ Hinv1), (inv_stride _ _ _ Hinv1),
    (inv_stridedim _ _ _ Hinv1), Hnd1, Hc1, (inv_ndim _ _ _ Hinv).
  reflexivity.
Qed.

Section StriderAbort.
Variable obj : PyArrayObject.
Variable tr : bool.
Hypothesis Hwf : wf_array obj.
Variable raises : Z -> bool.

(** A context of the walk exposes the cells of the rest of its axis up to
    and including the first whose encoding raises, and ends with an error
    pending exactly when there is one. *)
Lemma walk_cells_until fuel : forall fn n evs pe n',
  strider_inv obj tr n ->
  (fn = Fn_NpyArr_iterNextItem ->
   ndim n <= curdim n \/ dim n <= zget (index n) (stridedim n)) ->
  walk raises fuel fn false n = Some (evs, pe, n') ->
  leaf_cells evs = until_raise (fun c => raises (fst c)) (level_cells obj tr n) /\
  pe = existsb (fun c => raises (fst c)) (level_cells obj tr n).
Proof.
  induction fuel as [|f IH]; intros fn n evs pe n' Hinv Hfn Hw; [discriminate|].
  pose proof (inv_index _ _ _ Hinv) as Hix.
  pose proof (inv_curdim _ _ _ Hinv) as Hcd.
  destruct (Z_le_gt_dec (dim n) (zget (index n) (stridedim n))) as [Hex|Hlt].
  { pose proof (walk_mono raises _ (S f) _ _ _ _ (walk_exhausted raises fn n Hex)
                  ltac:(lia)) as H1.
    rewrite H1 in Hw. injection Hw as <- <- <-.
    unfold level_cells.
    replace (Z.to_nat (dim n - zget (index n) (stridedim n))) with O by lia.
    split; reflexivity. }
  destruct (Z_le_gt_dec (ndim n) (curdim n)) as [Hleaf|Hdeep].
  - (* a leaf *)
    destruct (walk_leaf_step raises fn n ltac:(intros _; lia) ltac:(lia))
      as (item & n1 & Hitem & Hstep).
    rewrite Hstep in Hw.
    destruct (NpyArr_iterNextItem_inv obj tr n item n1 Hinv Hitem)
      as (Hinv1 & Hc1 & Hidx1 & _ & _).
    destruct (inv_same_level obj tr n n1 Hinv Hinv1 Hc1) as (Hnd1 & Hsd1 & Hdim1).
    destruct (NpyArr_iterNextItem_fields n item n1 Hitem) as (Hptr & Hdp & Hst).
    destruct (walk raises f Fn_NpyArr_iterNextItem (raises (item_ptr item)) n1)
      as [[[evs0 pe0] n2]|] eqn:E; [|discriminate].
    injection Hw as <- <- <-.
    rewrite (level_cells_step obj tr n n1) by (auto; lia).
    replace (Z.to_nat (ndim n - curdim n)) with O by lia.
    unfold leaf_cells at 1. cbn [omap list_omap sub_cells app until_raise existsb fst].
    fold (leaf_cells evs0).
    rewrite Hsd1, Hidx1, Hptr in *.
    replace (zget (index n) (stridedim n) + 1 - 1)
      with (zget (index n) (stridedim n)) by lia.
    destruct (raises (dataptr n)).
    + apply walk_sticky_nil in E as [-> ->]. split; reflexivity.
    + destruct (IH Fn_NpyArr_iterNextItem n1 evs0 pe0 n2 Hinv1
                  ltac:(intros _; left; lia) E) as [H1 H2].
      rewrite H1, H2. split; reflexivity.
  - (* a sub-array *)
    destruct fn; [|destruct (Hfn eq_refl); lia].
    destruct (walk_descend_step obj tr Hwf raises n Hinv ltac:(lia) ltac:(lia))
      as (n1 & Hn1 & Hstep).
    destruct (NpyArr_iterNext_descend obj tr Hwf n Hinv ltac:(lia) ltac:(lia))
      as (n1' & Hn1' & Hinv1 & Hc1 & Hzero & Hidx1 & Hkeep1).
    rewrite Hn1 in Hn1'. injection Hn1' as <-.
    pose proof (NpyArr_iterNext_descend_dataptr n n1 Hn1) as Hdp1.
    assert (Hnd1 : ndim n1 = ndim n) by (destruct Hinv, Hinv1; congruence).
    rewrite Hstep in Hw.
    destruct (walk raises f Fn_NpyArr_iterNext false n1)
      as [[[evs1 pe1] n2]|] eqn:Hw1; [|discriminate].
    destruct (walk raises f Fn_NpyArr_iterNext pe1 (NpyArrPassThru_iterEnd n2))
      as [[[evs2 pe2] n4]|] eqn:Hw2; [|discriminate].
    injection Hw as <- <- <-.
    destruct (IH Fn_NpyArr_iterNext n1 evs1 pe1 n2 Hinv1 ltac:(discriminate) Hw1)
      as [Hl1 Hp1].
    pose proof (level_cells_descend obj tr n n1 Hinv Hinv1 ltac:(lia) Hc1 Hzero Hdp1
                  (zget (index n) (stridedim n))) as Hsub.
    rewrite leaf_cells_descend.
    destruct pe1.
    + (* the sub-array raised: nothing more is exposed *)
      apply walk_sticky_nil in Hw2 as [-> ->].
      destruct (level_cells_head obj tr n ltac:(lia)) as (rest & ->).
      rewrite Hsub, until_raise_app, existsb_app, <- Hp1, Hl1.
      cbn [leaf_cells omap list_omap]. rewrite app_nil_r. split; reflexivity.
    + destruct (walk_invariant obj tr Hwf raises _ _ _ _ _ _ _ Hinv1 Hw1)
        as (_ & Hinv2 & Hc2).
      destruct (NpyArrPassThru_iterEnd_inv obj tr n2 Hinv2 ltac:(lia))
        as (Hinv3 & Hc3 & Hidx3).
      set (n3 := NpyArrPassThru_iterEnd n2) in *.
      assert (Hc3' : curdim n3 = curdim n) by lia.
      destruct (inv_same_level obj tr n n3 Hinv Hinv3 Hc3') as (Hnd3 & Hsd3 & Hdim3).
      destruct (walk_post obj tr Hwf raises f Fn_NpyArr_iterNext n1 evs1 n2 Hinv1
                  ltac:(discriminate) Hw1) as (_ & _ & Hk1).
      assert (Hsd_n : axis tr (ndim n1) (curdim n) = stridedim n)
        by (rewrite Hnd1; symmetry; apply (inv_stridedim _ _ _ Hinv)).
      assert (Hcur3 : zget (index n3) (stridedim n)
                      = zget (index n) (stridedim n) + 1).
      { rewrite Hidx3, <- Hsd_n, Hk1 by lia. rewrite Hsd_n. exact Hidx1. }
      assert (Hst3 : stride n3 = stride n).
      { rewrite (inv_stride _ _ _ Hinv3), (inv_stride _ _ _ Hinv), Hsd3.
        reflexivity. }
      assert (Hout : outer_offset tr n3 = outer_offset tr n).
      { apply outer_offset_ext.
        - rewrite (inv_array _ _ _ Hinv3), (inv_array _ _ _ Hinv). reflexivity.
        - exact Hnd3.
        - exact Hc3'.
        - intros j Hj. rewrite Hidx3. rewrite <- Hnd1, Hk1 by lia.
          rewrite Hnd1. apply Hkeep1, Hj. }
      assert (Hdp3 : dataptr n3 = dataptr n + stride n).
      { rewrite (inv_dataptr _ _ _ Hinv3), (inv_dataptr _ _ _ Hinv).
        rewrite Hst3, Hsd3, Hcur3, Hout. ring. }
      destruct (IH Fn_NpyArr_iterNext n3 evs2 pe2 n4 Hinv3 ltac:(discriminate) Hw2)
        as [Hl2 Hp2].
      rewrite (level_cells_step obj tr n n3) by (auto; lia).
      rewrite Hsub, until_raise_app, existsb_app, <- Hp1, Hl1, Hl2, Hp2.
      rewrite (until_raise_none _ _ (eq_sym Hp1)). split; reflexivity.
Qed.
End StriderAbort.

(** X15: the walk of an array ends, whatever the leaves raise; the elements
    it has exposed are those in walk order up to and including the first
    whose encoding leaves a Python error pending, and none after it; and an
    error is pending at the end exactly when some element raised. *)
Theorem strider_stops_at_first_error raises obj tr garbage :
  wf_array obj -> Z.of_nat (length garbage) = NPY_MAXDIMS ->
  exists fuel0 evs pe,
    (forall fuel, (fuel0 <= fuel)%nat ->
       NpyArr_encode raises fuel obj tr garbage = Some (evs, pe)) /\
    leaf_addresses evs
    = until_raise raises
        (element_addresses (PyArray_DATA obj) (walk_order tr (PyArray_DIMS obj))
                           (walk_order tr (PyArray_STRIDES obj))) /\
    pe = existsb raises
           (element_addresses (PyArray_DATA obj) (walk_order tr (PyArray_DIMS obj))
                              (walk_order tr (PyArray_STRIDES obj))).
Proof.
  intros Hwf Hlen.
  destruct (NpyArr_encode_terminates raises obj tr garbage Hwf Hlen)
    as (fuel0 & evs & pe & Hrun & _ & _).
  exists fuel0, evs, pe. split; [exact Hrun|].
  specialize (Hrun fuel0 ltac:(lia)). unfold NpyArr_encode in Hrun.
  destruct (walk raises fuel0 Fn_NpyArr_iterNext false (NpyArr_iterBegin obj tr garbage))
    as [[[evs0 pe0] n']|] eqn:Hw; [|discriminate].
  injection Hrun as <- <-.
  pose proof (NpyArr_iterBegin_inv obj tr Hwf garbage Hlen) as Hinv.
  destruct (walk_cells_until obj tr Hwf raises fuel0 Fn_NpyArr_iterNext _ evs0 pe0 n'
              Hinv ltac:(discriminate) Hw) as [Hl Hp].
  rewrite leaf_addresses_cells. unfold leaf_cells. cbn [omap list_omap].
  fold (leaf_cells evs0). rewrite Hl, Hp.
  destruct (until_raise_map fst raises
              (level_cells obj tr (NpyArr_iterBegin obj tr garbage))) as [H1 H2].
  rewrite H1, H2, level_cells_begin by assumption. split; reflexivity.
Qed.

(** The 2x3 array with a failure at its fourth element: four leaves. *)
Lemma strider_stops_at_first_error_witness :
  exists fuel0 evs pe,
    (forall fuel, (fuel0 <= fuel)%nat ->
       NpyArr_encode (raises_at 1024) fuel array_2x3 false zero_index
       = Some (evs, pe)) /\
    leaf_addresses evs = [1000; 1008; 1016; 1024] /\
    pe = true.
Proof.
  apply (strider_stops_at_first_error (raises_at 1024) array_2x3 false zero_index).
  - unfold wf_array, PyArray_NDIM, NPY_MAXDIMS. cbn.
    repeat split; try lia. repeat constructor; lia.
  - reflexivity.
Defined.

(** ** Table driver: the keys of the rows and columns *)

Lemma DataFrame_names_from cols idx vals its rows enc cStr columnLabels :
  originalOutputFormat enc = COLUMNS \/ originalOutputFormat enc = INDEX ->
  forall l k tc,
    tc_frame tc = Some l -> 0 <= tc_index tc ->
    (Z.to_nat (tc_index tc) + length l <= length columnLabels)%nat ->
    (length l < k)%nat ->
    DataFrame_names k (PdDataFrame cols idx vals its rows) enc tc cStr columnLabels
    = Done (map (fun s => Some (trim_label s))
                (take (length l) (drop (Z.to_nat (tc_index tc)) columnLabels))).
Proof.
  intros Ho.
  assert (Hns : originalOutputFormat enc <> SPLIT)
    by (destruct Ho as [Ho|Ho]; rewrite Ho; discriminate).
  induction l as [|x l IH]; intros k tc Hfr Hi Hlab Hk;
    (destruct k as [|k]; [cbn in Hk; lia|]);
    cbn [DataFrame_names DataFrame_iterNext];
    rewrite decide_False by exact Hns; rewrite Hfr.
  - reflexivity.
  - cbn [length] in Hlab, Hk.
    rewrite IH; cbn [tc_frame tc_index bump]; auto; try lia.
    unfold DataFrame_iterGetName.
    rewrite decide_False by exact Hns. rewrite decide_True by exact Ho.
    replace (tc_index tc + 1 - 1) with (tc_index tc) by lia.
    destruct (columnLabels !! Z.to_nat (tc_index tc)) as [s|] eqn:Hs;
      [|apply lookup_ge_None in Hs; lia].
    cbn [length take]. rewrite (drop_S _ _ _ Hs). cbn [take map fmap option_fmap option_map].
    replace (Z.to_nat (tc_index tc + 1)) with (S (Z.to_nat (tc_index tc))) by lia.
    reflexivity.
Qed.

(** X16: under COLUMNS or INDEX, with as many pre-encoded labels as the
    table's iterable yields rows (or columns), the table driver runs to the
    end of the iterable and the name it gives for the i-th item is the i-th
    label with its quotes and colon cut off: each row or column is written
    under its own label, and no read falls outside the label array. *)
Theorem DataFrame_names_follow_labels cols idx vals its rows enc tc l cStr
    (columnLabels : list (list byte)) (k : nat) :
  originalOutputFormat enc = COLUMNS \/ originalOutputFormat enc = INDEX ->
  tc_frame tc = Some l -> tc_index tc = 0 ->
  length columnLabels = length l -> (length l < k)%nat ->
  DataFrame_names k (PdDataFrame cols idx vals its rows) enc tc cStr columnLabels
  = Done (map (fun s => Some (trim_label s)) columnLabels).
Proof.
  intros Ho Hfr Hi Hlab Hk.
  rewrite (DataFrame_names_from cols idx vals its rows enc cStr columnLabels Ho l)
    by (auto; lia).
  rewrite Hi. change (Z.to_nat 0) with O. rewrite drop_0, <- Hlab, firstn_all.
  reflexivity.
Qed.

(** Two rows under INDEX: the keys r0 and r1. *)
Lemma DataFrame_names_follow_labels_witness :
  DataFrame_names 3 two_row_frame
    (fst (DataFrame_iterBegin two_row_frame (encoder_with INDEX) createTypeContext))
    (snd (DataFrame_iterBegin two_row_frame (encoder_with INDEX) createTypeContext))
    [] two_row_labels
  = Done [Some [x72; x30]; Some [x72; x31]].
Proof.
  apply (DataFrame_names_follow_labels scalar_index scalar_index
           [PyScalar; PyScalar] (Some [series_of PyScalar])
           (Some [series_of PyScalar; series_of PyScalar])
           (fst (DataFrame_iterBegin two_row_frame (encoder_with INDEX)
                   createTypeContext))
           (snd (DataFrame_iterBegin two_row_frame (encoder_with INDEX)
                   createTypeContext))
           [series_of PyScalar; series_of PyScalar] [] two_row_labels 3).
  - right. reflexivity.
  - reflexivity.
  - reflexivity.
  - reflexivity.
  - cbn. lia.
Defined.
